(** * Tool adapters over third-party web APIs: a shallow embedding

    The repository holds several adapter servers (weather service, mapping
    service, source-code hosting service).  Each one registers a list of
    tools; a tool is a name, a description, an input schema and an
    asynchronous callback that issues upstream requests and reshapes the
    answer into a list of text blocks.

    Callbacks are embedded as functions in a small monad that threads the
    log of upstream requests and carries JavaScript exceptions.  The
    upstream services are oracles (functions from requests to outcomes), so
    every statement below is quantified over what the network answers. *)

From Stdlib Require Import ZArith QArith String Ascii List Lia.
From stdpp Require Import base option list strings gmap pretty.

Open Scope string_scope.
Set Warnings "-register-all".

(** ** JavaScript values and runtime *)

Module Js.

(** A JavaScript value as the callbacks see it.  Numbers are rationals: the
    rounding of binary64 arithmetic is left to the runtime record below.
    A string is its sequence of code units; the strings of this file hold
    code units below 256 only. *)
Inductive Value : Type :=
| JUndefined
| JNull
| JBool (b : bool)
| JNum (q : Q)
| JStr (s : string)
| JArr (items : list Value)
| JObj (fields : list (string * Value)).

(** What a [throw] carries: an [Error] instance with its message; any
    other value that is neither [undefined] nor [null], of which only the
    [message] property (if any) is read, as a template literal prints it;
    or [undefined] ([JsNullish false]) or [null] ([JsNullish true]), of
    which no property can be read. *)
Inductive Thrown : Type :=
| JsError (message : string)
| JsOther (message : option string)
| JsNullish (null : bool).

(** Library functions of the runtime whose results depend on binary64
    rounding, on the locale or on the JSON printer.  The last two are
    [Buffer.from(v, "base64").toString("utf-8")] on a value that is no
    string: the message of the [TypeError] raised for [undefined], [null],
    a number or a boolean, and what becomes of an array or an object (read
    as bytes, or refused). *)
Record Runtime : Type := {
  parseFloat : string -> Q;
  showFrac : Q -> string;
  toFixed : Q -> nat -> string;
  fmul : Q -> Q -> Q;
  fdiv : Q -> Q -> Q;
  fadd : Q -> Q -> Q;
  dateToLocaleString : string -> string;
  dateToLocaleTimeString : string -> string;
  dateToLocaleDateString : string -> string;
  toLowerCase : string -> string;
  JSON_stringify : Value -> string;
  JSON_stringify_indent : Value -> nat -> string;
  valueToLocaleString : Value -> string;
  dateToLocaleDateStringUS : Value -> string;
  localeCompare : string -> string -> Z;
  arraySort : (Value -> Value -> Z) -> list Value -> list Value;
  base64Encode : string -> string;
  base64Decode : string -> string;
  invalidArgType : Value -> string;
  bufferFromObject : Value -> Thrown + string
}.

Definition dquote : string := String (ascii_of_nat 34) EmptyString.
Definition newline : string := String (ascii_of_nat 10) EmptyString.
(** The degree sign, code unit 176. *)
Definition degree : string := String (ascii_of_nat 176) EmptyString.

(** [hay.includes(needle)] *)
Fixpoint includes (needle hay : string) : bool :=
  String.prefix needle hay ||
  match hay with
  | EmptyString => false
  | String _ rest => includes needle rest
  end.

Definition isInteger (q : Q) : bool :=
  (Z.rem (Qnum q) (Zpos (Qden q)) =? 0)%Z.

Definition truncate (q : Q) : Z := Z.quot (Qnum q) (Zpos (Qden q)).

(** [String(n)], as a template literal applies it: integers below 10^21 in
    magnitude print as decimal digits, everything else is the runtime's. *)
Definition numToString (rt : Runtime) (q : Q) : string :=
  if isInteger q && (Z.abs (truncate q) <? 10 ^ 21)%Z
  then pretty (truncate q)
  else showFrac rt q.

(** Truthiness of a number and of a string. *)
Definition truthyNum (q : Q) : bool := negb (Qnum q =? 0)%Z.
Definition truthyStr (s : string) : bool := negb (String.eqb s "").

(** [xs.slice(0, end)]: the end index is truncated toward zero, counted
    from the back when negative, and clamped to the length. *)
Definition slice0 {A} (xs : list A) (end_ : Q) : list A :=
  let len := Z.of_nat (length xs) in
  let rel := truncate end_ in
  let final := (if rel <? 0 then Z.max (len + rel) 0 else Z.min rel len)%Z in
  take (Z.to_nat final) xs.

(** The message of the [TypeError] raised by reading a property of
    [undefined] or [null]. *)
Definition cannotRead (base property : string) : string :=
  "Cannot read properties of " +:+ base +:+ " (reading '" +:+ property +:+ "')".

(** [o.k] on an object literal: the field, or [undefined]. *)
Fixpoint lookupField (fields : list (string * Value)) (k : string) : Value :=
  match fields with
  | [] => JUndefined
  | (k', v) :: rest => if String.eqb k' k then v else lookupField rest k
  end.

(** [o.k] on any value that is neither [undefined] nor [null]. *)
Definition prop (base : Value) (k : string) : Value :=
  match base with
  | JObj fields => lookupField fields k
  | _ => JUndefined
  end.

(** Truthiness of a value. *)
Definition truthy (v : Value) : bool :=
  match v with
  | JUndefined | JNull => false
  | JBool b => b
  | JNum q => truthyNum q
  | JStr s => truthyStr s
  | JArr _ | JObj _ => true
  end.

(** [a || b] *)
Definition orElse (a b : Value) : Value := if truthy a then a else b.

(** [a === b] on values that are not objects; two objects taken from
    different places are never the same object. *)
Definition strictEq (a b : Value) : bool :=
  match a, b with
  | JUndefined, JUndefined | JNull, JNull => true
  | JBool x, JBool y => Bool.eqb x y
  | JNum x, JNum y => Qeq_bool x y
  | JStr x, JStr y => String.eqb x y
  | _, _ => false
  end.

(** [v === "s"] *)
Definition isStr (v : Value) (s : string) : bool :=
  match v with JStr x => String.eqb x s | _ => false end.

(** [parts.join(sep)] on strings. *)
Fixpoint join (sep : string) (parts : list string) : string :=
  match parts with
  | [] => ""
  | [p] => p
  | p :: rest => p +:+ sep +:+ join sep rest
  end.

(** [`${v}`]: the string a template literal makes of a value. *)
Fixpoint toStr (rt : Runtime) (v : Value) : string :=
  match v with
  | JUndefined => "undefined"
  | JNull => "null"
  | JBool true => "true"
  | JBool false => "false"
  | JNum q => numToString rt q
  | JStr s => s
  | JArr items =>
      join "," (map (fun item =>
                       match item with
                       | JUndefined | JNull => ""
                       | _ => toStr rt item
                       end) items)
  | JObj _ => "[object Object]"
  end.

(** [s.split(sep)] for a separator of one character. *)
Fixpoint split (sep : ascii) (s : string) : list string :=
  match s with
  | EmptyString => [""]
  | String c rest =>
      if Ascii.eqb c sep then "" :: split sep rest
      else match split sep rest with
           | head :: tail => String c head :: tail
           | [] => [String c ""]
           end
  end.

(** [s.repeat(n)] *)
Fixpoint repeatString (s : string) (n : nat) : string :=
  match n with
  | O => ""
  | S n' => s +:+ repeatString s n'
  end.

Definition backtick : string := String (ascii_of_nat 96) EmptyString.

End Js.

(** ** Asynchronous code: request log and exceptions *)

Module Async.
Import Js.

Inductive Res (A : Type) : Type :=
| Ok (a : A)
| Throw (e : Thrown).
Arguments Ok {A} a.
Arguments Throw {A} e.

(** A computation over upstream calls of type [C]: it extends the log of
    calls issued so far and either returns or throws. *)
Definition M (C A : Type) : Type := list C -> Res A * list C.

Definition ret {C A} (a : A) : M C A := fun log => (Ok a, log).
Definition throw {C A} (e : Thrown) : M C A := fun log => (Throw e, log).

Definition bind {C A B} (m : M C A) (k : A -> M C B) : M C B :=
  fun log =>
    match m log with
    | (Ok a, log') => k a log'
    | (Throw e, log') => (Throw e, log')
    end.

(** [try { body } catch (e) { handler e }] *)
Definition tryCatch {C A} (body : M C A) (handler : Thrown -> M C A) : M C A :=
  fun log =>
    match body log with
    | (Ok a, log') => (Ok a, log')
    | (Throw e, log') => handler e log'
    end.

(** Issue one upstream call: it is logged, then the oracle answers. *)
Definition call {C R} (oracle : C -> R) (c : C) : M C R :=
  fun log => (Ok (oracle c), (log ++ [c])%list).

(** [for (const x of xs) { acc = step acc x }] with awaits inside. *)
Fixpoint forEach {C A S} (xs : list A) (step : S -> A -> M C S) (acc : S) : M C S :=
  match xs with
  | [] => ret acc
  | x :: rest => bind (step acc x) (forEach rest step)
  end.

(** [xs.map(f)] where [f] may throw. *)
Fixpoint mapM {C A B} (f : A -> M C B) (xs : list A) : M C (list B) :=
  match xs with
  | [] => ret []
  | x :: rest =>
      bind (f x) (fun y => bind (mapM f rest) (fun ys => ret (y :: ys)))
  end.

Module Notations.
  Notation "'let*' x ':=' m 'in' k" := (bind m (fun x => k))
    (at level 10, x name, m at level 100, k at level 200).
End Notations.

End Async.

(** ** The tool result shape *)

Module Tool.
Import Js Async.

Record ContentBlock : Type := { type : string; text : string }.
Record CallToolResult : Type := { content : list ContentBlock }.

Definition textResult (s : string) : CallToolResult :=
  {| content := [ {| type := "text"; text := s |} ] |}.

(** The validated argument record handed to a callback. *)
Abbreviation Args := (gmap string Value).

(** Destructuring [{ p }] of the argument record. *)
Definition field (args : Args) (p : string) : Value :=
  default JUndefined (args !! p).

(** Static types of the destructured fields: the callback's parameter
    types are inferred from the schema, so a [string] field holds a
    string and a [number] field a number. *)
Definition asString (v : Value) : string :=
  match v with JStr s => s | _ => "" end.
Definition asNumber (v : Value) : Q :=
  match v with JNum q => q | _ => 0%Q end.
Definition asArray (v : Value) : list Value :=
  match v with JArr items => items | _ => [] end.

(** The schema declarations of the sources, as syntax: one constructor per
    schema combinator ([z.string()], [z.number()], [z.enum([...])],
    [.optional()], [.default(v)], ...).  [.describe(text)] only attaches
    documentation and is not recorded. *)
Inductive Schema : Type :=
| ZString
| ZNumber
| ZBoolean
| ZEnum (values : list string)
| ZArray (element : Schema)
| ZObject (shape : list (string * Schema))
| ZOptional (inner : Schema)
| ZDefault (inner : Schema) (value : Value).

(** What [server.tool(name, description, shape, callback)] is given; [C] is
    the type of the upstream calls the callback may issue. *)
Record ToolDefinition (C : Type) : Type := {
  name : string;
  description : string;
  inputSchema : list (string * Schema);
  handler : Args -> M C CallToolResult
}.
Arguments name {C} _.
Arguments description {C} _.
Arguments inputSchema {C} _.
Arguments handler {C} _.

End Tool.

(** ** What [fetch] answers *)

Module Http.
Import Js.

(** [response.json()] resolves with the decoded body or rejects. *)
Inductive Body (T : Type) : Type :=
| BodyJson (v : T)
| BodyInvalid (e : Thrown).
Arguments BodyJson {T} v.
Arguments BodyInvalid {T} e.

(** [fetch] rejects (transport failure) or resolves with a response. *)
Inductive FetchOutcome (T : Type) : Type :=
| FetchRejected (e : Thrown)
| FetchResponse (status : Z) (statusText : string) (body : Body T).
Arguments FetchRejected {T} e.
Arguments FetchResponse {T} status statusText body.

(** [response.ok] *)
Definition ok (status : Z) : bool := (200 <=? status)%Z && (status <=? 299)%Z.

End Http.

(** ** Weather service adapter (national-weather-service/src/index.ts) *)

Module Weather.
Import Js Async Async.Notations Tool Http.

Definition WEATHER_API_BASE : string := "https://api.weather.gov".
Definition USER_AGENT : string :=
  "us-weather-mcp-server/1.0.0 (contact@smithery.ai)".

(** *** Upstream: [fetch] and the response bodies *)

Record Request : Type := { url : string; headers : list (string * string) }.

Record PointMetadata : Type := {
  gridId : string; gridX : Q; gridY : Q;
  cwa : string; forecastOffice : string;
  forecast : string; forecastHourly : string
}.
Record PointResponse : Type := { point_properties : PointMetadata }.

Record Station : Type := {
  stationIdentifier : string;
  station_name : string;
  elevation : option Q;
  distance : option Q
}.
(** [features] is tested for presence by the callbacks. *)
Record StationCollection : Type := { station_features : option (list Station) }.

Record ForecastPeriod : Type := {
  period_name : string;
  temperature : Q;
  temperatureUnit : string;
  shortForecast : string;
  detailedForecast : string;
  windSpeed : option string;
  windDirection : option string;
  probabilityOfPrecipitation : option Q
}.
Record ForecastResponse : Type := {
  updateTime : string;
  periods : list ForecastPeriod
}.

Record HourlyPeriod : Type := {
  startTime : string;
  hourly_temperature : Q;
  hourly_temperatureUnit : string;
  hourly_shortForecast : string;
  hourly_probabilityOfPrecipitation : option Q
}.
Record HourlyForecastResponse : Type := {
  hourly_updateTime : string;
  hourly_periods : list HourlyPeriod
}.

Record Alert : Type := {
  event : string;
  severity : option string;
  urgency : string;
  areaDesc : string;
  effective : option string;
  expires : option string;
  alert_description : string;
  instruction : option string
}.
Record AlertCollection : Type := { alert_features : option (list Alert) }.

(** A measurement [{ value: number | null }] that may be absent. *)
Abbreviation Measure := (option (option Q)).

Record Observation : Type := {
  timestamp : string;
  obs_temperature : Measure;
  heatIndex : Measure;
  windChill : Measure;
  textDescription : option string;
  relativeHumidity : Measure;
  obs_windSpeed : Measure;
  obs_windDirection : Measure;
  barometricPressure : Measure;
  visibility : Measure
}.
Record ObservationResponse : Type := { obs_properties : option Observation }.

(** The weather service, one typed view per family of endpoints: the cast
    [as T] applied to the decoded body selects the view. *)
Record Upstream : Type := {
  fetchPoint : Request -> FetchOutcome PointResponse;
  fetchStations : Request -> FetchOutcome StationCollection;
  fetchForecast : Request -> FetchOutcome ForecastResponse;
  fetchHourly : Request -> FetchOutcome HourlyForecastResponse;
  fetchAlerts : Request -> FetchOutcome AlertCollection;
  fetchObservation : Request -> FetchOutcome ObservationResponse
}.

Definition request (endpoint : string) : Request :=
  {| url := WEATHER_API_BASE +:+ endpoint;
     headers := [("User-Agent", USER_AGENT); ("Accept", "application/json")] |}.

Definition NOT_FOUND : string := "Location not found or no data available".
Definition UNAVAILABLE : string := "Weather service temporarily unavailable".
Definition CANNOT_CONNECT : string :=
  "Unable to connect to weather service. Please check your internet connection.".

(** [weatherApiRequest(endpoint)] *)
Definition weatherApiRequest {T} (fetch : Request -> FetchOutcome T)
    (endpoint : string) : M Request T :=
  tryCatch
    (let* response := call fetch (request endpoint) in
     match response with
     | FetchRejected e => throw e
     | FetchResponse status statusText body =>
         if negb (ok status) then
           if (status =? 404)%Z then throw (JsError NOT_FOUND)
           else if (status =? 500)%Z then throw (JsError UNAVAILABLE)
           else throw (JsError ("Weather API error: " +:+ pretty status
                                  +:+ " " +:+ statusText))
         else
           match body with
           | BodyJson v => ret v
           | BodyInvalid e => throw e
           end
     end)
    (fun error =>
       match error with
       | JsError message =>
           if includes "fetch" message then throw (JsError CANNOT_CONNECT)
           else throw error
       | JsOther _ | JsNullish _ => throw error
       end).

(** *** Location parsing *)

Definition isDigit (c : ascii) : bool :=
  (48 <=? nat_of_ascii c)%nat && (nat_of_ascii c <=? 57)%nat.
Definition isUpper (c : ascii) : bool :=
  (65 <=? nat_of_ascii c)%nat && (nat_of_ascii c <=? 90)%nat.
(** The class [\s] on code units below 256. *)
Definition isSpace (c : ascii) : bool :=
  let n := nat_of_ascii c in
  ((9 <=? n)%nat && (n <=? 13)%nat) || (n =? 32)%nat || (n =? 160)%nat.

Fixpoint dropWhile (p : ascii -> bool) (s : string) : string :=
  match s with
  | String c rest => if p c then dropWhile p rest else s
  | EmptyString => s
  end.

(** Whole-string match of [-?\d+\.?\d*]. *)
Definition matchesNumber (s : string) : bool :=
  let s1 := match s with
            | String c rest => if Ascii.eqb c "-" then rest else s
            | EmptyString => s
            end in
  match s1 with
  | String c _ =>
      isDigit c &&
      let s2 := dropWhile isDigit s1 in
      let s3 := match s2 with
                | String d rest => if Ascii.eqb d "." then rest else s2
                | EmptyString => s2
                end in
      String.eqb (dropWhile isDigit s3) ""
  | EmptyString => false
  end.

(** Split at the first comma. *)
Fixpoint splitComma (s : string) : option (string * string) :=
  match s with
  | EmptyString => None
  | String c rest =>
      if Ascii.eqb c "," then Some ("", rest)
      else match splitComma rest with
           | Some (a, b) => Some (String c a, b)
           | None => None
           end
  end.

(** The coordinate pattern of [parseLocation], anchored at both ends: a
    number as in [matchesNumber], a comma, any white space, a second
    number.  The result holds the two captured groups. *)
Definition coordMatch (location : string) : option (string * string) :=
  match splitComma location with
  | Some (a, b) =>
      let b' := dropWhile isSpace b in
      if matchesNumber a && matchesNumber b' then Some (a, b') else None
  | None => None
  end.

(** [location.length === 2 && location.match(/^[A-Z]{2}$/)] *)
Definition isStateCode (location : string) : bool :=
  match location with
  | String a (String b EmptyString) => isUpper a && isUpper b
  | _ => false
  end.

Record Coordinates : Type := { latitude : Q; longitude : Q }.

Section WithRuntime.
Context (rt : Runtime) (up : Upstream).

Definition num (q : Q) : string := numToString rt q.

(** [parseLocation(location)] *)
Definition parseLocation (location : string) : M Request Coordinates :=
  match coordMatch location with
  | Some (lat, lng) =>
      ret {| latitude := parseFloat rt lat; longitude := parseFloat rt lng |}
  | None =>
      throw (JsError ("Location parsing not yet implemented for " +:+ dquote
        +:+ location +:+ dquote +:+ ". Please provide coordinates in " +:+ dquote
        +:+ "latitude,longitude" +:+ dquote +:+ " format (e.g., " +:+ dquote
        +:+ "40.7128,-74.0060" +:+ dquote +:+ ")"))
  end.

Definition pointsEndpoint (latitude longitude : Q) : string :=
  "/points/" +:+ num latitude +:+ "," +:+ num longitude.

(** [getPointMetadata(latitude, longitude)] *)
Definition getPointMetadata (latitude longitude : Q) : M Request PointMetadata :=
  let* data := weatherApiRequest (fetchPoint up) (pointsEndpoint latitude longitude) in
  ret (point_properties data).

Definition gridpoint (p : PointMetadata) : string :=
  "/gridpoints/" +:+ gridId p +:+ "/" +:+ num (gridX p) +:+ "," +:+ num (gridY p).

(** The uniform failure block of the weather callbacks. *)
Definition errorMessage (e : Thrown) : string :=
  match e with
  | JsError message => message
  | JsOther _ | JsNullish _ => "Unknown error"
  end.
Definition errorResult (e : Thrown) : CallToolResult :=
  textResult ("Error: " +:+ errorMessage e).

Definition guarded (body : M Request CallToolResult) : M Request CallToolResult :=
  tryCatch body (fun e => ret (errorResult e)).


Definition when (b : bool) (s : string) : string := if b then s else "".

(** [m && m.value !== null] *)
Definition measured (m : Measure) : option Q :=
  match m with Some (Some v) => Some v | _ => None end.

(** [(v * 9) / 5 + 32] *)
Definition toFahrenheit (v : Q) : Q := fadd rt (fdiv rt (fmul rt v 9) 5) 32.

(** *** Tool: get_current_weather *)

Definition currentWeatherMarkdown (coords : Coordinates)
    (nearestStation : string) (obs : Observation) : string :=
  let markdown := "# Current Weather" +:+ newline +:+ newline in
  let markdown := markdown +:+ "**Location:** " +:+ num (latitude coords)
                    +:+ ", " +:+ num (longitude coords) +:+ newline in
  let markdown := markdown +:+ "**Station:** " +:+ nearestStation +:+ newline in
  let markdown := markdown +:+ "**Observed:** "
                    +:+ dateToLocaleString rt (timestamp obs)
                    +:+ newline +:+ newline in
  let markdown :=
    match measured (obs_temperature obs) with
    | Some v =>
        let tempF := toFahrenheit v in
        markdown +:+ "**Temperature:** " +:+ toFixed rt tempF 1 +:+ degree
          +:+ "F (" +:+ toFixed rt v 1 +:+ degree +:+ "C)" +:+ newline
    | None => markdown
    end in
  let markdown :=
    match measured (heatIndex obs), measured (windChill obs) with
    | Some v, _ =>
        let feelsF := toFahrenheit v in
        markdown +:+ "**Feels Like:** " +:+ toFixed rt feelsF 1 +:+ degree
          +:+ "F (heat index)" +:+ newline
    | None, Some v =>
        let feelsF := toFahrenheit v in
        markdown +:+ "**Feels Like:** " +:+ toFixed rt feelsF 1 +:+ degree
          +:+ "F (wind chill)" +:+ newline
    | None, None => markdown
    end in
  let markdown :=
    match textDescription obs with
    | Some d => markdown +:+ when (truthyStr d) ("**Conditions:** " +:+ d +:+ newline)
    | None => markdown
    end in
  let markdown :=
    match measured (relativeHumidity obs) with
    | Some v => markdown +:+ "**Humidity:** " +:+ toFixed rt v 0 +:+ "%" +:+ newline
    | None => markdown
    end in
  let markdown :=
    match measured (obs_windSpeed obs), measured (obs_windDirection obs) with
    | Some speed, Some windDir =>
        let windMph := toFixed rt (fmul rt speed (2237 # 1000)) 0 in
        markdown +:+ "**Wind:** " +:+ windMph +:+ " mph from " +:+ num windDir
          +:+ degree +:+ newline
    | _, _ => markdown
    end in
  let markdown :=
    match measured (barometricPressure obs) with
    | Some v =>
        let pressureInHg := toFixed rt (fmul rt v (2953 # 10000000)) 2 in
        markdown +:+ "**Pressure:** " +:+ pressureInHg +:+ " inHg" +:+ newline
    | None => markdown
    end in
  let markdown :=
    match measured (visibility obs) with
    | Some v =>
        let visibilityMiles := toFixed rt (fdiv rt v (160934 # 100)) 1 in
        markdown +:+ "**Visibility:** " +:+ visibilityMiles +:+ " miles" +:+ newline
    | None => markdown
    end in
  markdown.

Definition currentWeatherBody (location : string) : M Request CallToolResult :=
  let* coords := parseLocation location in
  let* pointData := getPointMetadata (latitude coords) (longitude coords) in
  let* stationsData :=
    weatherApiRequest (fetchStations up) (gridpoint pointData +:+ "/stations") in
  match station_features stationsData with
  | None | Some [] => throw (JsError "No weather stations found for this location")
  | Some (first :: _) =>
      let nearestStation := stationIdentifier first in
      let* observationData :=
        weatherApiRequest (fetchObservation up)
          ("/stations/" +:+ nearestStation +:+ "/observations/latest") in
      match obs_properties observationData with
      | Some obs => ret (textResult (currentWeatherMarkdown coords nearestStation obs))
      | None => throw (JsError (cannotRead "undefined" "timestamp"))
      end
  end.

Definition get_current_weather_body (args : Args) : M Request CallToolResult :=
  let location := asString (field args "location") in
  currentWeatherBody location.

Definition get_current_weather (args : Args) : M Request CallToolResult :=
  guarded (get_current_weather_body args).

(** *** Tool: get_weather_forecast *)

Definition periodMarkdown (period : ForecastPeriod) : string :=
  "## " +:+ period_name period +:+ newline +:+ newline
  +:+ "**Temperature:** " +:+ num (temperature period) +:+ degree
  +:+ temperatureUnit period +:+ newline
  +:+ "**Conditions:** " +:+ shortForecast period +:+ newline
  +:+ match probabilityOfPrecipitation period with
      | Some v => when (truthyNum v)
                    ("**Precipitation:** " +:+ num v +:+ "% chance" +:+ newline)
      | None => ""
      end
  +:+ match windSpeed period, windDirection period with
      | Some speed, Some direction =>
          when (truthyStr speed && truthyStr direction)
            ("**Wind:** " +:+ speed +:+ " " +:+ direction +:+ newline)
      | _, _ => ""
      end
  +:+ newline +:+ detailedForecast period +:+ newline +:+ newline
  +:+ "---" +:+ newline +:+ newline.

Definition forecastMarkdown (days : Q) (coords : Coordinates)
    (forecastData : ForecastResponse) (shown : list ForecastPeriod) : string :=
  let markdown := "# " +:+ num days +:+ "-Day Weather Forecast" +:+ newline +:+ newline in
  let markdown := markdown +:+ "**Location:** " +:+ num (latitude coords)
                    +:+ ", " +:+ num (longitude coords) +:+ newline in
  let markdown := markdown +:+ "**Updated:** "
                    +:+ dateToLocaleString rt (updateTime forecastData)
                    +:+ newline +:+ newline in
  fold_left (fun markdown period => markdown +:+ periodMarkdown period) shown markdown.

Definition forecastBody (location : string) (days : Q) : M Request CallToolResult :=
  let* coords := parseLocation location in
  let* pointData := getPointMetadata (latitude coords) (longitude coords) in
  let* forecastData :=
    weatherApiRequest (fetchForecast up) (gridpoint pointData +:+ "/forecast") in
  let shown := slice0 (periods forecastData) (days * 2)%Q in
  ret (textResult (forecastMarkdown days coords forecastData shown)).

Definition get_weather_forecast_body (args : Args) : M Request CallToolResult :=
  let location := asString (field args "location") in
  let days := asNumber (field args "days") in
  forecastBody location days.

Definition get_weather_forecast (args : Args) : M Request CallToolResult :=
  guarded (get_weather_forecast_body args).

(** *** Tool: get_hourly_forecast *)

Definition hourlyMarkdownLine (period : HourlyPeriod) : string :=
  let timeStr := dateToLocaleTimeString rt (startTime period) in
  let dateStr := dateToLocaleDateString rt (startTime period) in
  "**" +:+ timeStr +:+ " (" +:+ dateStr +:+ ")** - "
  +:+ num (hourly_temperature period) +:+ degree +:+ hourly_temperatureUnit period
  +:+ " - " +:+ hourly_shortForecast period
  +:+ match hourly_probabilityOfPrecipitation period with
      | Some v => when (truthyNum v) (" - " +:+ num v +:+ "% rain")
      | None => ""
      end
  +:+ newline.

Definition hourlyMarkdown (hours : Q) (coords : Coordinates)
    (forecastData : HourlyForecastResponse) (shown : list HourlyPeriod) : string :=
  let markdown := "# " +:+ num hours +:+ "-Hour Weather Forecast" +:+ newline +:+ newline in
  let markdown := markdown +:+ "**Location:** " +:+ num (latitude coords)
                    +:+ ", " +:+ num (longitude coords) +:+ newline in
  let markdown := markdown +:+ "**Updated:** "
                    +:+ dateToLocaleString rt (hourly_updateTime forecastData)
                    +:+ newline +:+ newline in
  fold_left (fun markdown period => markdown +:+ hourlyMarkdownLine period) shown markdown.

Definition hourlyBody (location : string) (hours : Q) : M Request CallToolResult :=
  let* coords := parseLocation location in
  let* pointData := getPointMetadata (latitude coords) (longitude coords) in
  let* forecastData :=
    weatherApiRequest (fetchHourly up) (gridpoint pointData +:+ "/forecast/hourly") in
  let shown := slice0 (hourly_periods forecastData) hours in
  ret (textResult (hourlyMarkdown hours coords forecastData shown)).

Definition get_hourly_forecast_body (args : Args) : M Request CallToolResult :=
  let location := asString (field args "location") in
  let hours := asNumber (field args "hours") in
  hourlyBody location hours.

Definition get_hourly_forecast (args : Args) : M Request CallToolResult :=
  guarded (get_hourly_forecast_body args).


(** *** Tool: get_weather_alerts *)

(** The choice of the alerts endpoint: a state code selects the area
    listing; otherwise the location is parsed as coordinates, and when that
    throws the inner [catch] falls back to the nationwide listing. *)
Definition chooseAlertsEndpoint (location : string) : M Request string :=
  let alertsEndpoint := "/alerts/active" in
  if isStateCode location then
    ret (alertsEndpoint +:+ "/area/" +:+ location)
  else
    tryCatch
      (let* coords := parseLocation location in
       ret (alertsEndpoint +:+ "?point=" +:+ num (latitude coords)
              +:+ "," +:+ num (longitude coords)))
      (fun _ => ret "/alerts/active").

(** [alert.properties.severity?.toLowerCase() === severity] *)
Definition severityIs (wanted : string) (alert : Alert) : bool :=
  match severity alert with
  | Some sv => String.eqb (toLowerCase rt sv) wanted
  | None => false
  end.

Definition optionalText (v : option string) : string :=
  match v with Some t => t | None => "undefined" end.

Definition alertMarkdown (props : Alert) : string :=
  "## " +:+ event props +:+ newline +:+ newline
  +:+ "**Severity:** " +:+ optionalText (severity props) +:+ newline
  +:+ "**Urgency:** " +:+ urgency props +:+ newline
  +:+ "**Areas:** " +:+ areaDesc props +:+ newline
  +:+ match effective props with
      | Some t => when (truthyStr t)
                    ("**Effective:** " +:+ dateToLocaleString rt t +:+ newline)
      | None => ""
      end
  +:+ match expires props with
      | Some t => when (truthyStr t)
                    ("**Expires:** " +:+ dateToLocaleString rt t +:+ newline)
      | None => ""
      end
  +:+ newline +:+ "**Description:**" +:+ newline +:+ alert_description props
  +:+ newline +:+ newline
  +:+ match instruction props with
      | Some t => when (truthyStr t)
                    ("**Instructions:**" +:+ newline +:+ t +:+ newline +:+ newline)
      | None => ""
      end
  +:+ "---" +:+ newline +:+ newline.

(** What the callback returns once the alert collection has arrived. *)
Definition alertsResult (location severity : string) (alertsData : AlertCollection)
    : CallToolResult :=
  let alerts := default [] (alert_features alertsData) in
  let filteredAlerts :=
    if String.eqb severity "all" then alerts
    else List.filter (severityIs severity) alerts in
  match filteredAlerts with
  | [] =>
      textResult ("# Weather Alerts" +:+ newline +:+ newline
                  +:+ "No active weather alerts found for " +:+ location +:+ ".")
  | _ =>
      let markdown := "# Weather Alerts for " +:+ location +:+ newline +:+ newline in
      let markdown := markdown +:+ "Found " +:+ pretty (length filteredAlerts)
                        +:+ " active alert(s)" +:+ newline +:+ newline in
      textResult
        (fold_left (fun markdown alert => markdown +:+ alertMarkdown alert)
           filteredAlerts markdown)
  end.

Definition alertsBody (location severity : string) : M Request CallToolResult :=
  let* alertsEndpoint := chooseAlertsEndpoint location in
  let* alertsData := weatherApiRequest (fetchAlerts up) alertsEndpoint in
  ret (alertsResult location severity alertsData).

Definition get_weather_alerts_body (args : Args) : M Request CallToolResult :=
  let location := asString (field args "location") in
  let severity := asString (field args "severity") in
  alertsBody location severity.

Definition get_weather_alerts (args : Args) : M Request CallToolResult :=
  guarded (get_weather_alerts_body args).

(** *** Tool: find_weather_stations *)

Definition NOT_AVAILABLE : string := "**Latest Report:** Not available".

(** The lines of a station that need no further request. *)
Definition stationHeading (props : Station) : string :=
  "## " +:+ station_name props +:+ newline +:+ newline
  +:+ "**Station ID:** " +:+ stationIdentifier props +:+ newline
  +:+ match elevation props with
      | Some v =>
          when (truthyNum v)
            (let elevationFt := toFixed rt (fmul rt v (328084 # 100000)) 0 in
             "**Elevation:** " +:+ elevationFt +:+ " ft" +:+ newline)
      | None => ""
      end
  +:+ match distance props with
      | Some v =>
          when (truthyNum v)
            (let distanceMiles :=
               toFixed rt (fmul rt (fdiv rt v 1000) (621371 # 1000000)) 1 in
             "**Distance:** " +:+ distanceMiles +:+ " miles" +:+ newline)
      | None => ""
      end.

Definition latestReport (obs : Observation) : string :=
  "**Latest Report:** " +:+ dateToLocaleString rt (timestamp obs) +:+ newline
  +:+ match measured (obs_temperature obs) with
      | Some v =>
          let tempF := toFahrenheit v in
          "**Temperature:** " +:+ toFixed rt tempF 1 +:+ degree +:+ "F" +:+ newline
      | None => ""
      end.

Definition observationEndpoint (stationId : string) : string :=
  "/stations/" +:+ stationId +:+ "/observations/latest".

(** One turn of the loop over the stations; the inner [try] covers the
    request for the latest observation and nothing else that can throw. *)
Definition stationStep (markdown : string) (props : Station) : M Request string :=
  let markdown := markdown +:+ stationHeading props in
  let* markdown :=
    tryCatch
      (let* obsData :=
         weatherApiRequest (fetchObservation up)
           (observationEndpoint (stationIdentifier props)) in
       match obs_properties obsData with
       | Some obs => ret (markdown +:+ latestReport obs)
       | None => ret markdown
       end)
      (fun _ => ret (markdown +:+ NOT_AVAILABLE +:+ newline)) in
  ret (markdown +:+ newline +:+ "---" +:+ newline +:+ newline).

Definition stationsBody (location : string) (limit : Q) : M Request CallToolResult :=
  let* coords := parseLocation location in
  let* pointData := getPointMetadata (latitude coords) (longitude coords) in
  let* stationsData :=
    weatherApiRequest (fetchStations up)
      (gridpoint pointData +:+ "/stations?limit=" +:+ num limit) in
  let stations := default [] (station_features stationsData) in
  match stations with
  | [] =>
      ret (textResult ("# Weather Stations" +:+ newline +:+ newline
                       +:+ "No weather stations found near " +:+ location +:+ "."))
  | _ =>
      let markdown := "# Weather Stations Near " +:+ location +:+ newline +:+ newline in
      let markdown := markdown +:+ "Found " +:+ pretty (length stations)
                        +:+ " station(s)" +:+ newline +:+ newline in
      let* markdown := forEach stations stationStep markdown in
      ret (textResult markdown)
  end.

Definition find_weather_stations_body (args : Args) : M Request CallToolResult :=
  let location := asString (field args "location") in
  let limit := asNumber (field args "limit") in
  stationsBody location limit.

Definition find_weather_stations (args : Args) : M Request CallToolResult :=
  guarded (find_weather_stations_body args).

(** *** The registrations of the server, in source order *)

Definition get_weather_forecast_tool : ToolDefinition Request :=
  {| name := "get_weather_forecast";
     description := "Get multi-day weather forecast for a location in the United States. Perfect for 'What's the forecast for [US location]?' questions. Provides detailed day/night forecasts for up to 7 days.";
     inputSchema := [("location", ZString);
                     ("days", ZDefault (ZOptional ZNumber) (JNum 7))];
     handler := get_weather_forecast |}.

(** Every tool of the server, each with the body of its [try]. *)
Definition triedTools
    : list (ToolDefinition Request * (Args -> M Request CallToolResult)) := [
  ({| name := "get_current_weather";
     description := "Get current weather conditions for a location in the United States. Perfect for 'What's the weather like in [US location]?' questions. Covers all US states, territories, and coastal waters.";
     inputSchema := [("location", ZString)];
     handler := get_current_weather |}, get_current_weather_body);
  (get_weather_forecast_tool, get_weather_forecast_body);
  ({| name := "get_hourly_forecast";
     description := "Get hour-by-hour weather forecast for a location in the United States. Perfect for 'What's the hourly forecast?' or 'Will it rain this afternoon in [US location]?' questions. Provides detailed hourly conditions for up to 48 hours.";
     inputSchema := [("location", ZString);
                     ("hours", ZDefault (ZOptional ZNumber) (JNum 24))];
     handler := get_hourly_forecast |}, get_hourly_forecast_body);
  ({| name := "get_weather_alerts";
     description := "Get active weather alerts, warnings, watches, and advisories for locations in the United States. Perfect for 'Are there any weather alerts in [US location]?' questions. Covers severe weather, winter storms, heat warnings, flood alerts, and more.";
     inputSchema := [("location", ZString);
                     ("severity",
                      ZDefault (ZOptional (ZEnum ["all"; "extreme"; "severe"; "moderate"; "minor"]))
                        (JStr "all"))];
     handler := get_weather_alerts |}, get_weather_alerts_body);
  ({| name := "find_weather_stations";
     description := "Find weather observation stations near a location in the United States. Useful for getting station-specific data, finding data sources, or understanding which stations provide weather data for an area. Includes ASOS, AWOS, and other automated weather stations.";
     inputSchema := [("location", ZString);
                     ("limit", ZDefault (ZOptional ZNumber) (JNum 10))];
     handler := find_weather_stations |}, find_weather_stations_body)
].

Definition tools : list (ToolDefinition Request) := map fst triedTools.

End WithRuntime.
End Weather.

(** ** Mapping service adapter (google-maps/src/index.ts) *)

Module Maps.
Import Js Async Async.Notations Tool Http.

(** A request URL: the endpoint and the query parameters appended to it,
    in order; [url.toString()] is their encoding. *)
Record Request : Type := { base : string; searchParams : list (string * string) }.

(** The fields every answer carries ([GoogleMapsResponse]) around the
    fields of the particular endpoint. *)
Record Answer (P : Type) : Type := {
  status : string;
  error_message : option string;
  payload : P
}.
Arguments status {P} _.
Arguments error_message {P} _.
Arguments payload {P} _.

(** Fields that are only copied into the result are kept as values. *)
Record GeocodeEntry : Type := {
  place_id : Value;
  formatted_address : Value;
  geometry_location : Value;
  address_components : Value
}.

Record PlaceEntry : Type := {
  place_name : Value;
  place_place_id : Value;
  place_formatted_address : Value;
  place_geometry_location : Value;
  place_rating : Value;
  place_types : Value
}.

Record PlaceDetail : Type := {
  detail_name : Value;
  detail_formatted_address : Value;
  detail_geometry_location : Value;
  formatted_phone_number : Value;
  website : Value;
  detail_rating : Value;
  reviews : Value;
  opening_hours : Value
}.

Record MatrixElement : Type := {
  element_status : Value;
  element_duration : Value;
  element_distance : Value
}.
Record MatrixRow : Type := { elements : list MatrixElement }.
Record DistanceMatrix : Type := {
  origin_addresses : Value;
  destination_addresses : Value;
  rows : list MatrixRow
}.

Record ElevationEntry : Type := {
  elevation : Value;
  elevation_location : Value;
  resolution : Value
}.

Record Step : Type := {
  html_instructions : Value;
  step_distance : Value;
  step_duration : Value;
  travel_mode : Value
}.
Record Leg : Type := {
  leg_distance : Value;
  leg_duration : Value;
  steps : list Step
}.
Record Route : Type := { summary : Value; legs : list Leg }.

Record Upstream : Type := {
  fetchGeocode : Request -> FetchOutcome (Answer (list GeocodeEntry));
  fetchPlaces : Request -> FetchOutcome (Answer (list PlaceEntry));
  fetchDetails : Request -> FetchOutcome (Answer PlaceDetail);
  fetchMatrix : Request -> FetchOutcome (Answer DistanceMatrix);
  fetchElevation : Request -> FetchOutcome (Answer (list ElevationEntry));
  fetchDirections : Request -> FetchOutcome (Answer (list Route))
}.

(** [const response = await fetch(url.toString());
     const data = await response.json()]: the status line is not looked at. *)
Definition fetchJson {T} (fetch : Request -> FetchOutcome T) (r : Request)
    : M Request T :=
  let* response := call fetch r in
  match response with
  | FetchRejected e => throw e
  | FetchResponse _ _ (BodyJson data) => ret data
  | FetchResponse _ _ (BodyInvalid e) => throw e
  end.

(** [data.error_message || data.status] *)
Definition reason {P} (data : Answer P) : string :=
  match error_message data with
  | Some m => if truthyStr m then m else status data
  | None => status data
  end.

(** [if (data.status !== "OK") throw new Error(`${what}: ...`)] *)
Definition requireOk {P} (what : string) (data : Answer P) : M Request unit :=
  if String.eqb (status data) "OK" then ret tt
  else throw (JsError (what +:+ ": " +:+ reason data)).

Section WithConfig.
Context (rt : Runtime) (GOOGLE_MAPS_API_KEY : string) (up : Upstream).

Definition num (q : Q) : string := numToString rt q.

Definition handleGeocode (address : string) : M Request Value :=
  let* data := fetchJson (fetchGeocode up)
    {| base := "https://maps.googleapis.com/maps/api/geocode/json";
       searchParams := [("address", address); ("key", GOOGLE_MAPS_API_KEY)] |} in
  let* _ := requireOk "Geocoding failed" data in
  match payload data with
  | first :: _ =>
      ret (JObj [("location", geometry_location first);
                 ("formatted_address", formatted_address first);
                 ("place_id", place_id first)])
  | [] => throw (JsError (cannotRead "undefined" "geometry"))
  end.

Definition handleReverseGeocode (latitude longitude : Q) : M Request Value :=
  let* data := fetchJson (fetchGeocode up)
    {| base := "https://maps.googleapis.com/maps/api/geocode/json";
       searchParams := [("latlng", num latitude +:+ "," +:+ num longitude);
                        ("key", GOOGLE_MAPS_API_KEY)] |} in
  let* _ := requireOk "Reverse geocoding failed" data in
  match payload data with
  | first :: _ =>
      ret (JObj [("formatted_address", formatted_address first);
                 ("place_id", place_id first);
                 ("address_components", address_components first)])
  | [] => throw (JsError (cannotRead "undefined" "formatted_address"))
  end.

Definition latLng (location : Value) : string :=
  match location with
  | JObj fields =>
      num (asNumber (lookupField fields "latitude")) +:+ ","
      +:+ num (asNumber (lookupField fields "longitude"))
  | _ => ""
  end.

Definition handlePlaceSearch (query : string) (location radius : Value)
    : M Request Value :=
  let params := [("query", query); ("key", GOOGLE_MAPS_API_KEY)] in
  let params :=
    match location with
    | JObj _ => (params ++ [("location", latLng location)])%list
    | _ => params
    end in
  let params :=
    match radius with
    | JNum r => if truthyNum r then (params ++ [("radius", num r)])%list else params
    | _ => params
    end in
  let* data := fetchJson (fetchPlaces up)
    {| base := "https://maps.googleapis.com/maps/api/place/textsearch/json";
       searchParams := params |} in
  let* _ := requireOk "Place search failed" data in
  ret (JObj [("places",
              JArr (map (fun place =>
                           JObj [("name", place_name place);
                                 ("formatted_address", place_formatted_address place);
                                 ("location", place_geometry_location place);
                                 ("place_id", place_place_id place);
                                 ("rating", place_rating place);
                                 ("types", place_types place)])
                        (payload data)))]).

Definition handlePlaceDetails (place : string) : M Request Value :=
  let* data := fetchJson (fetchDetails up)
    {| base := "https://maps.googleapis.com/maps/api/place/details/json";
       searchParams := [("place_id", place); ("key", GOOGLE_MAPS_API_KEY)] |} in
  let* _ := requireOk "Place details request failed" data in
  let result := payload data in
  ret (JObj [("name", detail_name result);
             ("formatted_address", detail_formatted_address result);
             ("location", detail_geometry_location result);
             ("formatted_phone_number", formatted_phone_number result);
             ("website", website result);
             ("rating", detail_rating result);
             ("reviews", reviews result);
             ("opening_hours", opening_hours result)]).

(** A parameter [mode = "driving"]: the default applies to [undefined]. *)
Definition modeOrDefault (mode : Value) : string :=
  match mode with JUndefined => "driving" | _ => asString mode end.

Definition handleDistanceMatrix (origins destinations : list string) (mode : Value)
    : M Request Value :=
  let* data := fetchJson (fetchMatrix up)
    {| base := "https://maps.googleapis.com/maps/api/distancematrix/json";
       searchParams := [("origins", join "|" origins);
                        ("destinations", join "|" destinations);
                        ("mode", modeOrDefault mode);
                        ("key", GOOGLE_MAPS_API_KEY)] |} in
  let* _ := requireOk "Distance matrix request failed" data in
  ret (JObj [("origin_addresses", origin_addresses (payload data));
             ("destination_addresses", destination_addresses (payload data));
             ("results",
              JArr (map (fun row =>
                           JObj [("elements",
                                  JArr (map (fun element =>
                                               JObj [("status", element_status element);
                                                     ("duration", element_duration element);
                                                     ("distance", element_distance element)])
                                            (elements row)))])
                        (rows (payload data))))]).

Definition handleElevation (locations : list Value) : M Request Value :=
  let locationString := join "|" (map latLng locations) in
  let* data := fetchJson (fetchElevation up)
    {| base := "https://maps.googleapis.com/maps/api/elevation/json";
       searchParams := [("locations", locationString);
                        ("key", GOOGLE_MAPS_API_KEY)] |} in
  let* _ := requireOk "Elevation request failed" data in
  ret (JObj [("results",
              JArr (map (fun result =>
                           JObj [("elevation", elevation result);
                                 ("location", elevation_location result);
                                 ("resolution", resolution result)])
                        (payload data)))]).

(** One route of the answer; [route.legs[0]] throws when there is no leg. *)
Definition routeValue (route : Route) : M Request Value :=
  match legs route with
  | leg :: _ =>
      ret (JObj [("summary", summary route);
                 ("distance", leg_distance leg);
                 ("duration", leg_duration leg);
                 ("steps",
                  JArr (map (fun step =>
                               JObj [("instructions", html_instructions step);
                                     ("distance", step_distance step);
                                     ("duration", step_duration step);
                                     ("travel_mode", travel_mode step)])
                            (steps leg)))])
  | [] => throw (JsError (cannotRead "undefined" "distance"))
  end.

Definition handleDirections (origin destination : string) (mode : Value)
    : M Request Value :=
  let* data := fetchJson (fetchDirections up)
    {| base := "https://maps.googleapis.com/maps/api/directions/json";
       searchParams := [("origin", origin);
                        ("destination", destination);
                        ("mode", modeOrDefault mode);
                        ("key", GOOGLE_MAPS_API_KEY)] |} in
  let* _ := requireOk "Directions request failed" data in
  let* routes := mapM routeValue (payload data) in
  ret (JObj [("routes", JArr routes)]).

(** [{ content: [{ type: "text", text: JSON.stringify(result, null, 2) }] }] *)
Definition jsonResult (result : Value) : CallToolResult :=
  textResult (JSON_stringify_indent rt result 2).

(** The callbacks: none of them has a [try]. *)
Definition maps_geocode (args : Args) : M Request CallToolResult :=
  let* result := handleGeocode (asString (field args "address")) in
  ret (jsonResult result).

Definition maps_reverse_geocode (args : Args) : M Request CallToolResult :=
  let* result := handleReverseGeocode (asNumber (field args "latitude"))
                   (asNumber (field args "longitude")) in
  ret (jsonResult result).

Definition maps_search_places (args : Args) : M Request CallToolResult :=
  let* result := handlePlaceSearch (asString (field args "query"))
                   (field args "location") (field args "radius") in
  ret (jsonResult result).

Definition maps_place_details (args : Args) : M Request CallToolResult :=
  let* result := handlePlaceDetails (asString (field args "place_id")) in
  ret (jsonResult result).

Definition maps_distance_matrix (args : Args) : M Request CallToolResult :=
  let* result := handleDistanceMatrix
                   (map asString (asArray (field args "origins")))
                   (map asString (asArray (field args "destinations")))
                   (field args "mode") in
  ret (jsonResult result).

Definition maps_elevation (args : Args) : M Request CallToolResult :=
  let* result := handleElevation (asArray (field args "locations")) in
  ret (jsonResult result).

Definition maps_directions (args : Args) : M Request CallToolResult :=
  let* result := handleDirections (asString (field args "origin"))
                   (asString (field args "destination")) (field args "mode") in
  ret (jsonResult result).

Definition travelMode : Schema :=
  ZOptional (ZEnum ["driving"; "walking"; "bicycling"; "transit"]).
Definition latLngSchema : Schema :=
  ZObject [("latitude", ZNumber); ("longitude", ZNumber)].

Definition maps_directions_tool : ToolDefinition Request :=
  {| name := "maps_directions";
     description := "Get directions between two points";
     inputSchema := [("origin", ZString); ("destination", ZString);
                     ("mode", travelMode)];
     handler := maps_directions |}.

Definition tools : list (ToolDefinition Request) := [
  {| name := "maps_geocode";
     description := "Convert an address into geographic coordinates";
     inputSchema := [("address", ZString)];
     handler := maps_geocode |};
  {| name := "maps_reverse_geocode";
     description := "Convert coordinates into an address";
     inputSchema := [("latitude", ZNumber); ("longitude", ZNumber)];
     handler := maps_reverse_geocode |};
  {| name := "maps_search_places";
     description := "Search for places using Google Places API";
     inputSchema := [("query", ZString);
                     ("location", ZOptional latLngSchema);
                     ("radius", ZOptional ZNumber)];
     handler := maps_search_places |};
  {| name := "maps_place_details";
     description := "Get detailed information about a specific place";
     inputSchema := [("place_id", ZString)];
     handler := maps_place_details |};
  {| name := "maps_distance_matrix";
     description := "Calculate travel distance and time for multiple origins and destinations";
     inputSchema := [("origins", ZArray ZString);
                     ("destinations", ZArray ZString);
                     ("mode", travelMode)];
     handler := maps_distance_matrix |};
  {| name := "maps_elevation";
     description := "Get elevation data for locations on the earth";
     inputSchema := [("locations", ZArray latLngSchema)];
     handler := maps_elevation |};
  maps_directions_tool
].

End WithConfig.
End Maps.

(** ** Source-code hosting adapter (github/src) *)

Module GitHub.
Import Js Async Async.Notations Tool.

(** One call [octokit.rest.<method>(parameters)]. *)
Record Call : Type := { method : string; parameters : list (string * Value) }.

(** The promise rejects, or resolves with a response whose [data] is kept. *)
Inductive Reply : Type :=
| Rejected (e : Thrown)
| Resolved (data : Value).

Section WithClient.
Context (rt : Runtime) (octokit : Call -> Reply).

Definition rest (method : string) (parameters : list (string * Value))
    : M Call Value :=
  let* reply := call octokit {| method := method; parameters := parameters |} in
  match reply with
  | Rejected e => throw e
  | Resolved data => ret data
  end.

(** [`${e.message}`] with [e : any]: the message of an [Error], the
    [message] property of another value ("undefined" when it has none);
    reading the property of [undefined] or [null] throws a [TypeError]. *)
Definition errorMessage (e : Thrown) : M Call string :=
  match e with
  | JsError message => ret message
  | JsOther (Some message) => ret message
  | JsOther None => ret "undefined"
  | JsNullish null =>
      throw (JsError (cannotRead (if null then "null" else "undefined") "message"))
  end.

(** The [catch] clause of the callbacks; what it throws leaves the
    callback. *)
Definition errorResult (e : Thrown) : M Call CallToolResult :=
  let* message := errorMessage e in
  ret (textResult ("Error: " +:+ message)).

Definition guarded (body : M Call CallToolResult) : M Call CallToolResult :=
  tryCatch body errorResult.

(** [{ content: [{ type: "text", text: JSON.stringify(data) }] }] *)
Definition jsonResult (data : Value) : CallToolResult :=
  textResult (JSON_stringify rt data).

(** The body shared by most tools: one call, its data printed. *)
Definition forward (method : string) (parameters : list (string * Value))
    : M Call CallToolResult :=
  let* data := rest method parameters in
  ret (jsonResult data).

(** Shorthand properties [{ a, b }] taken from the destructured arguments. *)
Definition pick (args : Args) (names : list string) : list (string * Value) :=
  map (fun k => (k, field args k)) names.

(** [base.property], which throws on [undefined] and [null]. *)
Definition getProp (base : Value) (property : string) : M Call Value :=
  match base with
  | JUndefined => throw (JsError (cannotRead "undefined" property))
  | JNull => throw (JsError (cannotRead "null" property))
  | JObj fields => ret (lookupField fields property)
  | _ => ret JUndefined
  end.

(** *** tools/search.ts *)

Definition search_repositories_body (args : Args) : M Call CallToolResult :=
  forward "search.repos"
    [("q", field args "query");
     ("per_page", field args "per_page");
     ("page", field args "page")].

Definition search_code_body (args : Args) : M Call CallToolResult :=
  forward "search.code" (pick args ["q"; "sort"; "order"; "per_page"; "page"]).

Definition search_users_body (args : Args) : M Call CallToolResult :=
  forward "search.users" (pick args ["q"; "sort"; "order"; "per_page"; "page"]).

(** *** tools/issues.ts *)

Definition get_issue_body (args : Args) : M Call CallToolResult :=
  forward "issues.get" (pick args ["owner"; "repo"; "issue_number"]).

Definition add_issue_comment_body (args : Args) : M Call CallToolResult :=
  forward "issues.createComment" (pick args ["owner"; "repo"; "issue_number"; "body"]).

Definition search_issues_body (args : Args) : M Call CallToolResult :=
  forward "search.issuesAndPullRequests"
    (pick args ["q"; "sort"; "order"; "per_page"; "page"]).

Definition create_issue_body (args : Args) : M Call CallToolResult :=
  forward "issues.create"
    (pick args ["owner"; "repo"; "title"; "body"; "assignees"; "labels"; "milestone"]).

(** [labels ? labels.join(",") : undefined] *)
Definition joinedLabels (labels : Value) : Value :=
  match labels with
  | JArr items => JStr (join "," (map asString items))
  | _ => JUndefined
  end.

Definition list_issues_body (args : Args) : M Call CallToolResult :=
  forward "issues.listForRepo"
    [("owner", field args "owner");
     ("repo", field args "repo");
     ("state", field args "state");
     ("labels", joinedLabels (field args "labels"));
     ("sort", field args "sort");
     ("direction", field args "direction");
     ("since", field args "since");
     ("per_page", field args "per_page");
     ("page", field args "page")].

Definition update_issue_body (args : Args) : M Call CallToolResult :=
  forward "issues.update"
    (pick args ["owner"; "repo"; "issue_number"; "title"; "body"; "state";
                "labels"; "assignees"; "milestone"]).

Definition get_issue_comments_body (args : Args) : M Call CallToolResult :=
  forward "issues.listComments"
    (pick args ["owner"; "repo"; "issue_number"; "page"; "per_page"]).

(** *** tools/repositories.ts *)

(** [v.toLocaleString()], which throws on [undefined] and [null]. *)
Definition localeString (v : Value) : M Call string :=
  match v with
  | JUndefined => throw (JsError (cannotRead "undefined" "toLocaleString"))
  | JNull => throw (JsError (cannotRead "null" "toLocaleString"))
  | _ => ret (valueToLocaleString rt v)
  end.

(** [base?.property] *)
Definition optionalProp (base : Value) (property : string) : Value :=
  match base with
  | JUndefined | JNull => JUndefined
  | _ => prop base property
  end.

Definition str (v : Value) : string := toStr rt v.

(** The names pushed for the properties that are truthy. *)
Definition enabled (data : Value) (flags : list (string * string)) : list string :=
  map snd (List.filter (fun flag => truthy (prop data (fst flag))) flags).

(** The report of [get_repository], built in source order; [repoData] is
    the data of the response.  The numeric fields are typed as numbers and
    [topics] as an array by the client library. *)
Definition repositoryMarkdown (repoData : Value) : M Call string :=
  let* full_name := getProp repoData "full_name" in
  let markdown := "# " +:+ str full_name +:+ newline +:+ newline in
  let markdown :=
    if truthy (prop repoData "description")
    then markdown +:+ "> " +:+ str (prop repoData "description") +:+ newline +:+ newline
    else markdown in
  let markdown := markdown +:+ "## Stats" +:+ newline in
  let* stars := localeString (prop repoData "stargazers_count") in
  let markdown := markdown +:+ "- **Stars:** " +:+ stars +:+ newline in
  let* forks := localeString (prop repoData "forks_count") in
  let markdown := markdown +:+ "- **Forks:** " +:+ forks +:+ newline in
  let* issues := localeString (prop repoData "open_issues_count") in
  let markdown := markdown +:+ "- **Open Issues:** " +:+ issues +:+ newline in
  let* watchers := localeString (prop repoData "watchers_count") in
  let markdown := markdown +:+ "- **Watchers:** " +:+ watchers +:+ newline in
  let markdown := markdown +:+ "- **Size:** "
                    +:+ toFixed rt (fdiv rt (asNumber (prop repoData "size")) 1024) 2
                    +:+ " MB" +:+ newline +:+ newline in
  let markdown := markdown +:+ "## Details" +:+ newline in
  let markdown := markdown +:+ "- **Primary Language:** "
                    +:+ str (orElse (prop repoData "language") (JStr "None"))
                    +:+ newline in
  let markdown := markdown +:+ "- **Default Branch:** " +:+ backtick
                    +:+ str (prop repoData "default_branch") +:+ backtick
                    +:+ newline in
  let markdown := markdown +:+ "- **License:** "
                    +:+ str (orElse (optionalProp (prop repoData "license") "name")
                               (JStr "No license"))
                    +:+ newline in
  let markdown := markdown +:+ "- **Visibility:** "
                    +:+ str (prop repoData "visibility") +:+ newline in
  let markdown :=
    match prop repoData "topics" with
    | JArr (topic :: topics) =>
        markdown +:+ "- **Topics:** "
          +:+ join ", " (map (fun t => backtick +:+ str t +:+ backtick)
                             (topic :: topics))
          +:+ newline
    | _ => markdown
    end in
  let flags := enabled repoData [("private", "Private"); ("fork", "Fork");
                                 ("archived", "Archived"); ("disabled", "Disabled")] in
  let markdown :=
    match flags with
    | [] => markdown
    | _ => markdown +:+ "- **Status:** " +:+ join ", " flags +:+ newline
    end in
  let markdown := markdown +:+ newline in
  let markdown := markdown +:+ "## Links" +:+ newline in
  let markdown := markdown +:+ "- **Repository:** "
                    +:+ str (prop repoData "html_url") +:+ newline in
  let markdown := markdown +:+ "- **Clone:** " +:+ backtick
                    +:+ str (prop repoData "clone_url") +:+ backtick +:+ newline in
  let markdown := markdown +:+ "- **SSH:** " +:+ backtick
                    +:+ str (prop repoData "ssh_url") +:+ backtick +:+ newline in
  let markdown :=
    if truthy (prop repoData "homepage")
    then markdown +:+ "- **Homepage:** " +:+ str (prop repoData "homepage") +:+ newline
    else markdown in
  let markdown := markdown +:+ newline in
  let features := enabled repoData [("has_issues", "Issues");
                                    ("has_projects", "Projects");
                                    ("has_wiki", "Wiki");
                                    ("has_pages", "Pages");
                                    ("has_downloads", "Downloads");
                                    ("has_discussions", "Discussions")] in
  let markdown :=
    match features with
    | [] => markdown
    | _ => markdown +:+ "## Features" +:+ newline
             +:+ "Enabled: " +:+ join ", " features +:+ newline +:+ newline
    end in
  let markdown := markdown +:+ "## Owner" +:+ newline in
  let* login := getProp (prop repoData "owner") "login" in
  let markdown := markdown +:+ "- **Name:** [" +:+ str login
                    +:+ "](https://github.com/" +:+ str login +:+ ")" +:+ newline in
  let markdown := markdown +:+ "- **Type:** "
                    +:+ str (prop (prop repoData "owner") "type")
                    +:+ newline +:+ newline in
  let markdown := markdown +:+ "## Timeline" +:+ newline in
  let markdown := markdown +:+ "- **Created:** "
                    +:+ dateToLocaleDateStringUS rt (prop repoData "created_at")
                    +:+ newline in
  let markdown := markdown +:+ "- **Last Updated:** "
                    +:+ dateToLocaleDateStringUS rt (prop repoData "updated_at")
                    +:+ newline in
  let markdown := markdown +:+ "- **Last Push:** "
                    +:+ dateToLocaleDateStringUS rt (prop repoData "pushed_at")
                    +:+ newline in
  ret markdown.

Definition get_repository_body (args : Args) : M Call CallToolResult :=
  let* repoData := rest "repos.get" (pick args ["owner"; "repo"]) in
  let* markdown := repositoryMarkdown repoData in
  ret (textResult markdown).

Definition get_commit_body (args : Args) : M Call CallToolResult :=
  forward "repos.getCommit"
    [("owner", field args "owner");
     ("repo", field args "repo");
     ("ref", field args "sha")].

Definition list_commits_body (args : Args) : M Call CallToolResult :=
  forward "repos.listCommits" (pick args ["owner"; "repo"; "sha"; "per_page"; "page"]).

Definition list_branches_body (args : Args) : M Call CallToolResult :=
  forward "repos.listBranches" (pick args ["owner"; "repo"; "per_page"; "page"]).

Definition create_or_update_file_body (args : Args) : M Call CallToolResult :=
  forward "repos.createOrUpdateFileContents"
    [("owner", field args "owner");
     ("repo", field args "repo");
     ("path", field args "path");
     ("message", field args "message");
     ("content", JStr (base64Encode rt (asString (field args "content"))));
     ("branch", field args "branch");
     ("sha", field args "sha")].

Definition create_repository_body (args : Args) : M Call CallToolResult :=
  forward "repos.createForAuthenticatedUser"
    [("name", field args "name");
     ("description", field args "description");
     ("private", field args "private");
     ("auto_init", field args "autoInit")].

Definition NOT_A_FILE : string :=
  "Error: Path points to a directory, not a file. Use get_repository_tree to list directory contents.".

(** The file extension: [path.split(".").pop() || ""]. *)
Definition extension (path : string) : string := List.last (split "." path) "".

(** [Buffer.from(v, "base64").toString("utf-8")]: a string is decoded;
    [undefined], [null], a number or a boolean make [Buffer.from] throw a
    [TypeError]; an array or an object is the runtime's. *)
Definition decodeContent (v : Value) : M Call string :=
  match v with
  | JStr encoded => ret (base64Decode rt encoded)
  | JArr _ | JObj _ =>
      match bufferFromObject rt v with
      | inl e => throw e
      | inr decoded => ret decoded
      end
  | _ => throw (JsError (invalidArgType rt v))
  end.

Definition get_file_contents_body (args : Args) : M Call CallToolResult :=
  let path := asString (field args "path") in
  let* data := rest "repos.getContent"
                 [("owner", field args "owner");
                  ("repo", field args "repo");
                  ("path", field args "path");
                  ("ref", field args "branch")] in
  match data with
  | JArr _ => ret (textResult NOT_A_FILE)
  | _ =>
      let* type := getProp data "type" in
      if negb (isStr type "file") then
        ret (textResult ("Error: Path points to a " +:+ str type +:+ ", not a file."))
      else
        let* content := decodeContent (prop data "content") in
        let ext := extension path in
        let output :=
          str (prop data "path") +:+ " (" +:+ str (prop data "size") +:+ "B)"
          +:+ newline +:+ newline
          +:+ backtick +:+ backtick +:+ backtick +:+ ext +:+ newline
          +:+ content +:+ newline
          +:+ backtick +:+ backtick +:+ backtick in
        ret (textResult output)
  end.

(** The branch to work on: the given one, or the default branch of the
    repository when none (or an empty one) is given. *)
Definition branchOrDefault (args : Args) (branch : Value) : M Call Value :=
  if negb (truthy branch) then
    let* repoData := rest "repos.get" (pick args ["owner"; "repo"]) in
    getProp repoData "default_branch"
  else ret branch.

(** [refData.data.object.sha] *)
Definition objectSha (refData : Value) : M Call Value :=
  let* object := getProp refData "object" in
  getProp object "sha".

(** The comparator of the directory listing: by name within one type,
    directories first otherwise. *)
Definition byTypeThenName (a b : Value) : Z :=
  if strictEq (prop a "type") (prop b "type")
  then localeCompare rt (asString (prop a "name")) (asString (prop b "name"))
  else if isStr (prop a "type") "dir" then (-1)%Z else 1%Z.

Definition directoryItem (item : Value) : M Call Value :=
  let* name := getProp item "name" in
  ret (JObj [("name", name);
             ("path", prop item "path");
             ("type", prop item "type");
             ("size", orElse (prop item "size") (JNum 0));
             ("sha", prop item "sha")]).

Definition directoryLine (output : string) (item : Value) : string :=
  if isStr (prop item "type") "dir"
  then output +:+ "  " +:+ str (prop item "name") +:+ "/" +:+ newline
  else output +:+ "  " +:+ str (prop item "name") +:+ " ("
         +:+ str (prop item "size") +:+ "B)" +:+ newline.

Definition byPath (a b : Value) : Z :=
  localeCompare rt (asString (prop a "path")) (asString (prop b "path")).

Definition treeItem (item : Value) : M Call Value :=
  let* path := getProp item "path" in
  ret (JObj [("path", path);
             ("type", if isStr (prop item "type") "blob" then JStr "file"
                      else prop item "type");
             ("size", orElse (prop item "size") (JNum 0));
             ("sha", prop item "sha")]).

Definition treeLine (output : string) (item : Value) : string :=
  let segments := split "/" (asString (prop item "path")) in
  let indent := repeatString "  " (length segments - 1) in
  let name := List.last segments "" in
  if isStr (prop item "type") "file"
  then output +:+ indent +:+ name +:+ " (" +:+ str (prop item "size") +:+ "B)"
         +:+ newline
  else output +:+ indent +:+ name +:+ " (" +:+ str (prop item "type") +:+ ")"
         +:+ newline.

(** [value.map(...)] needs an array. *)
Definition arrayOf (what : string) (v : Value) : M Call (list Value) :=
  match v with
  | JArr items => ret items
  | JUndefined => throw (JsError (cannotRead "undefined" "map"))
  | JNull => throw (JsError (cannotRead "null" "map"))
  | _ => throw (JsError (what +:+ ".map is not a function"))
  end.

Definition get_repository_tree_body (args : Args) : M Call CallToolResult :=
  let path := field args "path" in
  let branch := field args "branch" in
  if truthy path then
    let* data := rest "repos.getContent"
                   [("owner", field args "owner");
                    ("repo", field args "repo");
                    ("path", path);
                    ("ref", branch)] in
    match data with
    | JArr entries =>
        let* items := mapM directoryItem entries in
        let output := str path +:+ "/" +:+ newline in
        let output := fold_left directoryLine (arraySort rt byTypeThenName items) output in
        ret (textResult output)
    | _ => ret (textResult "Error: Path does not point to a directory")
    end
  else
    let* targetBranch := branchOrDefault args branch in
    let* refData := rest "git.getRef"
                      [("owner", field args "owner");
                       ("repo", field args "repo");
                       ("ref", JStr ("heads/" +:+ str targetBranch))] in
    let* commitSha := objectSha refData in
    let* commitData := rest "git.getCommit"
                         [("owner", field args "owner");
                          ("repo", field args "repo");
                          ("commit_sha", commitSha)] in
    let* tree := getProp commitData "tree" in
    let* treeSha := getProp tree "sha" in
    let* treeData := rest "git.getTree"
                       [("owner", field args "owner");
                        ("repo", field args "repo");
                        ("tree_sha", treeSha);
                        ("recursive", if truthy (field args "recursive")
                                      then JStr "true" else JUndefined)] in
    let* entries := getProp treeData "tree" in
    let* entries := arrayOf "treeData.data.tree" entries in
    let* items := mapM treeItem entries in
    let output := str (field args "owner") +:+ "/" +:+ str (field args "repo")
                    +:+ " @ " +:+ str targetBranch +:+ newline in
    let output :=
      if truthy (prop treeData "truncated")
      then output +:+ "(truncated)" +:+ newline
      else output in
    let output := fold_left treeLine (arraySort rt byPath items) output in
    ret (textResult output).

Definition fork_repository_body (args : Args) : M Call CallToolResult :=
  forward "repos.createFork" (pick args ["owner"; "repo"; "organization"]).

Definition create_branch_body (args : Args) : M Call CallToolResult :=
  let* sourceBranch := branchOrDefault args (field args "from_branch") in
  let* refData := rest "git.getRef"
                    [("owner", field args "owner");
                     ("repo", field args "repo");
                     ("ref", JStr ("heads/" +:+ str sourceBranch))] in
  let* sha := objectSha refData in
  forward "git.createRef"
    [("owner", field args "owner");
     ("repo", field args "repo");
     ("ref", JStr ("refs/heads/" +:+ str (field args "branch")));
     ("sha", sha)].

Definition list_tags_body (args : Args) : M Call CallToolResult :=
  forward "repos.listTags" (pick args ["owner"; "repo"; "per_page"; "page"]).

Definition get_tag_body (args : Args) : M Call CallToolResult :=
  let* refData := rest "git.getRef"
                    [("owner", field args "owner");
                     ("repo", field args "repo");
                     ("ref", JStr ("tags/" +:+ str (field args "tag")))] in
  let* sha := objectSha refData in
  forward "git.getTag"
    [("owner", field args "owner");
     ("repo", field args "repo");
     ("tag_sha", sha)].

Definition push_files_body (args : Args) : M Call CallToolResult :=
  let heads := JStr ("heads/" +:+ str (field args "branch")) in
  let* refData := rest "git.getRef"
                    [("owner", field args "owner");
                     ("repo", field args "repo");
                     ("ref", heads)] in
  let* baseSha := objectSha refData in
  let* baseCommit := rest "git.getCommit"
                       [("owner", field args "owner");
                        ("repo", field args "repo");
                        ("commit_sha", baseSha)] in
  let treeItems :=
    map (fun file => JObj [("path", prop file "path");
                           ("mode", JStr "100644");
                           ("type", JStr "blob");
                           ("content", prop file "content")])
        (asArray (field args "files")) in
  let* baseTree := getProp baseCommit "tree" in
  let* baseTreeSha := getProp baseTree "sha" in
  let* newTree := rest "git.createTree"
                    [("owner", field args "owner");
                     ("repo", field args "repo");
                     ("base_tree", baseTreeSha);
                     ("tree", JArr treeItems)] in
  let* newTreeSha := getProp newTree "sha" in
  let* newCommit := rest "git.createCommit"
                      [("owner", field args "owner");
                       ("repo", field args "repo");
                       ("message", field args "message");
                       ("tree", newTreeSha);
                       ("parents", JArr [baseSha])] in
  let* newCommitSha := getProp newCommit "sha" in
  forward "git.updateRef"
    [("owner", field args "owner");
     ("repo", field args "repo");
     ("ref", heads);
     ("sha", newCommitSha);
     ("force", JBool false)].

(** *** tools/pullrequests.ts *)

Definition pullParams (args : Args) : list (string * Value) :=
  [("owner", field args "owner");
   ("repo", field args "repo");
   ("pull_number", field args "pullNumber")].

Definition get_pull_request_body (args : Args) : M Call CallToolResult :=
  forward "pulls.get" (pullParams args).

Definition update_pull_request_body (args : Args) : M Call CallToolResult :=
  forward "pulls.update"
    (pullParams args ++ pick args ["title"; "body"; "state"; "base";
                                   "maintainer_can_modify"])%list.

Definition list_pull_requests_body (args : Args) : M Call CallToolResult :=
  forward "pulls.list"
    (pick args ["owner"; "repo"; "state"; "head"; "base"; "sort"; "direction";
                "per_page"; "page"]).

Definition merge_pull_request_body (args : Args) : M Call CallToolResult :=
  forward "pulls.merge"
    (pullParams args ++ pick args ["commit_title"; "commit_message";
                                   "merge_method"])%list.

Definition get_pull_request_files_body (args : Args) : M Call CallToolResult :=
  forward "pulls.listFiles" (pullParams args ++ pick args ["per_page"; "page"])%list.

Definition get_pull_request_status_body (args : Args) : M Call CallToolResult :=
  let* prData := rest "pulls.get" (pullParams args) in
  let* head := getProp prData "head" in
  let* sha := getProp head "sha" in
  let* statusData := rest "repos.getCombinedStatusForRef"
                       [("owner", field args "owner");
                        ("repo", field args "repo");
                        ("ref", sha)] in
  ret (jsonResult statusData).

Definition create_pull_request_body (args : Args) : M Call CallToolResult :=
  forward "pulls.create"
    (pick args ["owner"; "repo"; "title"; "body"; "head"; "base"; "draft";
                "maintainer_can_modify"]).

(** The two stubs: the callback takes no argument and returns at once. *)
Definition NOT_IMPLEMENTED : string := "Not implemented yet".

Definition update_pull_request_branch (_ : Args) : M Call CallToolResult :=
  ret (textResult NOT_IMPLEMENTED).

Definition get_pull_request_comments (_ : Args) : M Call CallToolResult :=
  ret (textResult NOT_IMPLEMENTED).

(** *** Registrations *)

(** A tool whose callback is [try { body } catch (e) { ... }]. *)
Definition tried (name description : string) (inputSchema : list (string * Schema))
    (body : Args -> M Call CallToolResult) : ToolDefinition Call :=
  {| name := name; description := description; inputSchema := inputSchema;
     handler := fun args => guarded (body args) |}.

Definition per_page : string * Schema :=
  ("per_page", ZDefault (ZOptional ZNumber) (JNum 30)).
Definition page : string * Schema :=
  ("page", ZDefault (ZOptional ZNumber) (JNum 1)).
Definition order : string * Schema :=
  ("order", ZOptional (ZEnum ["asc"; "desc"])).
Definition ownerRepo : list (string * Schema) :=
  [("owner", ZString); ("repo", ZString)].

Definition search_repositories_tool : ToolDefinition Call :=
  tried "search_repositories" "Search for GitHub repositories"
    [("query", ZString); per_page; page]
    search_repositories_body.

(** The tools of [registerSearchTools], each with the body of its [try]. *)
Definition searchTools : list (ToolDefinition Call * (Args -> M Call CallToolResult)) :=
  (search_repositories_tool, search_repositories_body) ::
  map (fun '(n, d, sch, body) => (tried n d sch body, body)) [
    ("search_code", "Search for code across GitHub repositories",
     [("q", ZString); ("sort", ZOptional (ZEnum ["indexed"])); order; per_page; page],
     search_code_body);
    ("search_users", "Search for GitHub users",
     [("q", ZString);
      ("sort", ZOptional (ZEnum ["followers"; "repositories"; "joined"]));
      order; per_page; page],
     search_users_body)
  ].

(** The tools of [registerIssueTools]. *)
Definition issueTools : list (ToolDefinition Call * (Args -> M Call CallToolResult)) :=
  map (fun '(n, d, sch, body) => (tried n d sch body, body)) [
    ("get_issue", "Get details of a specific issue in a GitHub repository.",
     (ownerRepo ++ [("issue_number", ZNumber)])%list,
     get_issue_body);
    ("add_issue_comment", "Add a comment to a specific issue in a GitHub repository.",
     (ownerRepo ++ [("issue_number", ZNumber); ("body", ZString)])%list,
     add_issue_comment_body);
    ("search_issues", "Search for issues in GitHub repositories.",
     [("q", ZString);
      ("sort", ZOptional (ZEnum ["comments"; "reactions"; "reactions-+1";
                                 "reactions--1"; "reactions-smile";
                                 "reactions-thinking_face"; "reactions-heart";
                                 "reactions-tada"; "interactions"; "created";
                                 "updated"]));
      order; per_page; page],
     search_issues_body);
    ("create_issue", "Create a new issue in a GitHub repository.",
     (ownerRepo ++ [("title", ZString); ("body", ZOptional ZString);
                    ("assignees", ZOptional (ZArray ZString));
                    ("labels", ZOptional (ZArray ZString));
                    ("milestone", ZOptional ZNumber)])%list,
     create_issue_body);
    ("list_issues", "List issues in a GitHub repository.",
     (ownerRepo ++ [("state", ZOptional (ZEnum ["open"; "closed"; "all"]));
                    ("labels", ZOptional (ZArray ZString));
                    ("sort", ZOptional (ZEnum ["created"; "updated"; "comments"]));
                    ("direction", ZOptional (ZEnum ["asc"; "desc"]));
                    ("since", ZOptional ZString);
                    per_page; page])%list,
     list_issues_body);
    ("update_issue", "Update an existing issue in a GitHub repository.",
     (ownerRepo ++ [("issue_number", ZNumber); ("title", ZOptional ZString);
                    ("body", ZOptional ZString);
                    ("state", ZOptional (ZEnum ["open"; "closed"]));
                    ("labels", ZOptional (ZArray ZString));
                    ("assignees", ZOptional (ZArray ZString));
                    ("milestone", ZOptional ZNumber)])%list,
     update_issue_body);
    ("get_issue_comments", "Get comments for a specific issue in a GitHub repository.",
     (ownerRepo ++ [("issue_number", ZNumber); page; per_page])%list,
     get_issue_comments_body)
  ].

(** The tools of [registerRepositoryTools]. *)
Definition repositoryTools : list (ToolDefinition Call * (Args -> M Call CallToolResult)) :=
  map (fun '(n, d, sch, body) => (tried n d sch body, body)) [
    ("get_repository", "Get detailed information about a GitHub repository",
     ownerRepo,
     get_repository_body);
    ("get_commit", "Get details for a commit from a GitHub repository",
     (ownerRepo ++ [("sha", ZString)])%list,
     get_commit_body);
    ("list_commits", "Get list of commits of a branch in a GitHub repository",
     (ownerRepo ++ [("sha", ZOptional ZString); per_page; page])%list,
     list_commits_body);
    ("list_branches", "List branches in a GitHub repository",
     (ownerRepo ++ [per_page; page])%list,
     list_branches_body);
    ("create_or_update_file",
     "Create or update a single file in a GitHub repository. If updating, you must provide the SHA of the file you want to update.",
     (ownerRepo ++ [("path", ZString); ("content", ZString); ("message", ZString);
                    ("branch", ZString); ("sha", ZOptional ZString)])%list,
     create_or_update_file_body);
    ("create_repository", "Create a new GitHub repository in your account",
     [("name", ZString); ("description", ZOptional ZString);
      ("private", ZOptional ZBoolean); ("autoInit", ZOptional ZBoolean)],
     create_repository_body);
    ("get_file_contents", "Get the contents of a file from a GitHub repository",
     (ownerRepo ++ [("path", ZString); ("branch", ZOptional ZString)])%list,
     get_file_contents_body);
    ("get_repository_tree",
     "Get the file structure (tree) of a GitHub repository or a specific directory",
     (ownerRepo ++ [("path", ZOptional ZString); ("branch", ZOptional ZString);
                    ("recursive", ZDefault (ZOptional ZBoolean) (JBool false))])%list,
     get_repository_tree_body);
    ("fork_repository",
     "Fork a GitHub repository to your account or specified organization",
     (ownerRepo ++ [("organization", ZOptional ZString)])%list,
     fork_repository_body);
    ("create_branch", "Create a new branch in a GitHub repository",
     (ownerRepo ++ [("branch", ZString); ("from_branch", ZOptional ZString)])%list,
     create_branch_body);
    ("list_tags", "List git tags in a GitHub repository",
     (ownerRepo ++ [per_page; page])%list,
     list_tags_body);
    ("get_tag", "Get details about a specific git tag in a GitHub repository",
     (ownerRepo ++ [("tag", ZString)])%list,
     get_tag_body);
    ("push_files", "Push multiple files to a GitHub repository in a single commit",
     (ownerRepo ++ [("branch", ZString);
                    ("files", ZArray (ZObject [("path", ZString); ("content", ZString)]));
                    ("message", ZString)])%list,
     push_files_body)
  ].

Definition pullNumber : string * Schema := ("pullNumber", ZNumber).

(** The tools of [registerPullRequestTools] that have a [try]. *)
Definition pullRequestTried : list (ToolDefinition Call * (Args -> M Call CallToolResult)) :=
  map (fun '(n, d, sch, body) => (tried n d sch body, body)) [
    ("get_pull_request", "Get details of a specific pull request in a GitHub repository.",
     (ownerRepo ++ [pullNumber])%list,
     get_pull_request_body);
    ("update_pull_request", "Update an existing pull request in a GitHub repository.",
     (ownerRepo ++ [pullNumber; ("title", ZOptional ZString);
                    ("body", ZOptional ZString);
                    ("state", ZOptional (ZEnum ["open"; "closed"]));
                    ("base", ZOptional ZString);
                    ("maintainer_can_modify", ZOptional ZBoolean)])%list,
     update_pull_request_body);
    ("list_pull_requests", "List pull requests in a GitHub repository.",
     (ownerRepo ++ [("state", ZOptional (ZEnum ["open"; "closed"; "all"]));
                    ("head", ZOptional ZString);
                    ("base", ZOptional ZString);
                    ("sort", ZOptional (ZEnum ["created"; "updated"; "popularity";
                                               "long-running"]));
                    ("direction", ZOptional (ZEnum ["asc"; "desc"]));
                    per_page; page])%list,
     list_pull_requests_body);
    ("merge_pull_request", "Merge a pull request in a GitHub repository.",
     (ownerRepo ++ [pullNumber; ("commit_title", ZOptional ZString);
                    ("commit_message", ZOptional ZString);
                    ("merge_method", ZOptional (ZEnum ["merge"; "squash"; "rebase"]))])%list,
     merge_pull_request_body);
    ("get_pull_request_files", "Get the files changed in a specific pull request.",
     (ownerRepo ++ [pullNumber; per_page; page])%list,
     get_pull_request_files_body);
    ("get_pull_request_status", "Get the status of a specific pull request.",
     (ownerRepo ++ [pullNumber])%list,
     get_pull_request_status_body);
    ("create_pull_request", "Create a new pull request in a GitHub repository.",
     (ownerRepo ++ [("title", ZString); ("body", ZOptional ZString);
                    ("head", ZString); ("base", ZString);
                    ("draft", ZOptional ZBoolean);
                    ("maintainer_can_modify", ZOptional ZBoolean)])%list,
     create_pull_request_body)
  ].

Definition update_pull_request_branch_tool : ToolDefinition Call :=
  {| name := "update_pull_request_branch";
     description := "Update the branch of a pull request with the latest changes from the base branch (not implemented)";
     inputSchema := (ownerRepo ++ [pullNumber; ("expectedHeadSha", ZOptional ZString)])%list;
     handler := update_pull_request_branch |}.

Definition get_pull_request_comments_tool : ToolDefinition Call :=
  {| name := "get_pull_request_comments";
     description := "Get comments for a specific pull request (not implemented)";
     inputSchema := (ownerRepo ++ [pullNumber])%list;
     handler := get_pull_request_comments |}.

(** [registerPullRequestTools], in source order: the two stubs come
    before [create_pull_request]. *)
Definition pullRequestTools : list (ToolDefinition Call) :=
  (map fst (take 6 pullRequestTried)
   ++ [update_pull_request_branch_tool; get_pull_request_comments_tool]
   ++ map fst (drop 6 pullRequestTried))%list.

(** Every tool of the server whose callback is a [try], with its body. *)
Definition triedTools : list (ToolDefinition Call * (Args -> M Call CallToolResult)) :=
  (searchTools ++ issueTools ++ repositoryTools ++ pullRequestTried)%list.

(** The registrations of the server, in the order of its four groups. *)
Definition tools : list (ToolDefinition Call) :=
  (map fst searchTools ++ map fst issueTools ++ map fst repositoryTools
   ++ pullRequestTools)%list.

End WithClient.
End GitHub.

(** ** Source-code hosting adapter: the earlier revision of
    tools/repositories.ts, where it differs *)

Module EarlierRepositories.
Import Js Async Async.Notations Tool.

(** [o.k = v] on an object: the property keeps its place when it exists
    and is added at the end otherwise. *)
Fixpoint setField (fields : list (string * Value)) (k : string) (v : Value)
    : list (string * Value) :=
  match fields with
  | [] => [(k, v)]
  | (k', v') :: rest =>
      if String.eqb k' k then (k, v) :: rest
      else (k', v') :: setField rest k v
  end.

Section WithClient.
Context (rt : Runtime) (octokit : GitHub.Call -> GitHub.Reply).

(** The callback body of get_file_contents: a file has its content decoded
    in place, and whatever was read is printed. *)
Definition get_file_contents_body (args : Args) : M GitHub.Call CallToolResult :=
  let* data := GitHub.rest octokit "repos.getContent"
                 [("owner", field args "owner");
                  ("repo", field args "repo");
                  ("path", field args "path");
                  ("ref", field args "branch")] in
  match data with
  | JArr _ => ret (GitHub.jsonResult rt data)
  | _ =>
      let* type := GitHub.getProp data "type" in
      match data with
      | JObj fields =>
          if isStr type "file" then
            let* content := GitHub.decodeContent rt (prop data "content") in
            ret (GitHub.jsonResult rt (JObj (setField fields "content" (JStr content))))
          else ret (GitHub.jsonResult rt data)
      | _ => ret (GitHub.jsonResult rt data)
      end
  end.

Definition get_file_contents_tool : ToolDefinition GitHub.Call :=
  GitHub.tried "get_file_contents"
    "Get the contents of a file or directory from a GitHub repository"
    (GitHub.ownerRepo ++ [("path", ZString); ("branch", ZOptional ZString)])%list
    get_file_contents_body.

End WithClient.
End EarlierRepositories.

(** ** Registry and validation *)

Module Envelope.
Import Js Async Tool.

(** Modelled from the spec: the validation of a raw input against the
    declared schema is done by the schema library inside the server SDK;
    neither is part of the sources.  The rules are those of the invocation
    contract: a missing required parameter, a value of the wrong type and
    an enum value outside the declared literals are failures; an absent
    optional parameter stays absent, one with a declared default takes the
    default.  The answer is the expectation that was not met, or the value
    to hand on. *)
Fixpoint check (schema : Schema) (v : Value) : string + Value :=
  match schema with
  | ZString =>
      match v with
      | JStr _ => inr v
      | JUndefined => inl "required"
      | _ => inl "expected string"
      end
  | ZNumber =>
      match v with
      | JNum _ => inr v
      | JUndefined => inl "required"
      | _ => inl "expected number"
      end
  | ZBoolean =>
      match v with
      | JBool _ => inr v
      | JUndefined => inl "required"
      | _ => inl "expected boolean"
      end
  | ZEnum values =>
      match v with
      | JStr x =>
          if existsb (String.eqb x) values then inr v
          else inl ("expected one of " +:+ join " | " values)
      | JUndefined => inl "required"
      | _ => inl ("expected one of " +:+ join " | " values)
      end
  | ZArray element =>
      match v with
      | JArr items =>
          let fix each (items : list Value) : string + list Value :=
            match items with
            | [] => inr []
            | item :: rest =>
                match check element item, each rest with
                | inl e, _ => inl e
                | inr _, inl e => inl e
                | inr item', inr rest' => inr (item' :: rest')
                end
            end in
          match each items with
          | inl e => inl e
          | inr items' => inr (JArr items')
          end
      | JUndefined => inl "required"
      | _ => inl "expected array"
      end
  | ZObject shape =>
      match v with
      | JObj fields =>
          let fix each (shape : list (string * Schema)) : string + list (string * Value) :=
            match shape with
            | [] => inr []
            | (k, s) :: rest =>
                match check s (lookupField fields k), each rest with
                | inl e, _ => inl (k +:+ ": " +:+ e)
                | inr _, inl e => inl e
                | inr JUndefined, inr rest' => inr rest'
                | inr v', inr rest' => inr ((k, v') :: rest')
                end
            end in
          match each shape with
          | inl e => inl e
          | inr fields' => inr (JObj fields')
          end
      | JUndefined => inl "required"
      | _ => inl "expected object"
      end
  | ZOptional inner =>
      match v with
      | JUndefined => inr JUndefined
      | _ => check inner v
      end
  | ZDefault inner value =>
      match v with
      | JUndefined => inr value
      | _ => check inner v
      end
  end.

(** Modelled from the spec: a validation failure names the offending
    parameter and the expectation (the SDK's error type is not part of the
    sources). *)
Record ValidationError : Type := { parameter : string; expectation : string }.

(** Modelled from the spec: the validation of the argument object of a
    call (the SDK code is not part of the sources).  Declared parameters
    are checked in declaration order; parameters that are not declared are
    not looked at and are not handed on. *)
Fixpoint validate (shape : list (string * Schema)) (rawInput : Args)
    : ValidationError + Args :=
  match shape with
  | [] => inr ∅
  | (k, s) :: rest =>
      match check s (field rawInput k) with
      | inl e => inl {| parameter := k; expectation := e |}
      | inr v =>
          match validate rest rawInput with
          | inl err => inl err
          | inr args =>
              match v with
              | JUndefined => inr args
              | _ => inr (<[k := v]> args)
              end
          end
      end
  end.

(** Modelled from the spec: the message of a validation failure (the SDK
    code that words it is not part of the sources). *)
Definition errorMessage (err : ValidationError) : string :=
  "Invalid parameter " +:+ parameter err +:+ ": " +:+ expectation err.

(** Modelled from the spec: the failure result is one text block that
    holds "Error: " followed by the message (the SDK code that answers an
    invalid call is not part of the sources). *)
Definition failure (message : string) : CallToolResult :=
  textResult ("Error: " +:+ message).

Section Registry.
Context {C : Type}.

(** Modelled from the spec: the tool registry is kept by the server SDK,
    which is not part of the sources.  It holds the definitions in
    registration order. *)
Definition Registry : Type := list (ToolDefinition C).

(** Modelled from the spec: the two registry-level errors (raised by the
    SDK, which is not part of the sources). *)
Inductive RegistryError : Type :=
| DuplicateToolError (toolName : string)
| UnknownToolError (toolName : string).

(** Modelled from the spec: lookup of a tool by name (SDK code, not part
    of the sources). *)
Definition lookup (toolName : string) (registry : Registry)
    : option (ToolDefinition C) :=
  List.find (fun t => String.eqb (name t) toolName) registry.

(** Modelled from the spec: [register] adds a definition to the registry
    and fails with [DuplicateToolError] when the name is taken, leaving the
    registry as it was (the SDK's [server.tool] is not part of the
    sources).  The registry is threaded as state. *)
Definition register (t : ToolDefinition C) (registry : Registry)
    : option RegistryError * Registry :=
  match lookup (name t) registry with
  | Some _ => (Some (DuplicateToolError (name t)), registry)
  | None => (None, (registry ++ [t])%list)
  end.

(** Modelled from the spec: the run of registrations at server
    construction; a failed registration is fatal and aborts it. *)
Fixpoint registerAll (ts : list (ToolDefinition C)) (registry : Registry)
    : option RegistryError * Registry :=
  match ts with
  | [] => (None, registry)
  | t :: rest =>
      match register t registry with
      | (Some e, registry') => (Some e, registry')
      | (None, registry') => registerAll rest registry'
      end
  end.

(** Modelled from the spec: [list] gives name, description and schema of
    every registered tool, in registration order, without the handlers. *)
Definition listTools (registry : Registry) : list (string * string * list (string * Schema)) :=
  map (fun t => (name t, description t, inputSchema t)) registry.

(** Modelled from the spec: the message extracted from a raised
    condition, its message text if available, else a generic placeholder
    (the SDK code is not part of the sources; the placeholder is worded as
    in the weather adapter). *)
Definition raisedMessage (e : Thrown) : string :=
  match e with
  | JsError message | JsOther (Some message) => message
  | JsOther None | JsNullish _ => "Unknown error"
  end.

(** Modelled from the spec: the four steps of the invocation contract
    (the SDK code is not part of the sources): validate; hand the
    validated record to the handler; catch whatever the handler raises and
    answer with the failure result of its message; pass on the content
    blocks the handler returns. *)
Definition envelope (t : ToolDefinition C) (rawInput : Args) : M C CallToolResult :=
  match validate (inputSchema t) rawInput with
  | inl err => ret (failure (errorMessage err))
  | inr args =>
      tryCatch (handler t args) (fun e => ret (failure (raisedMessage e)))
  end.

(** Modelled from the spec: [invoke] looks the tool up and delegates to the
    envelope; an unknown name is answered with a failure result. *)
Definition invoke (registry : Registry) (toolName : string) (rawInput : Args)
    : M C CallToolResult :=
  match lookup toolName registry with
  | Some t => envelope t rawInput
  | None => ret (failure ("Unknown tool " +:+ toolName))
  end.

(** Modelled from the spec: the registries a server can reach are the
    empty one and those left by a call of [register], failed or not (the
    registry is created and filled inside the SDK). *)
Inductive Reachable : Registry -> Prop :=
| reach_empty : Reachable []
| reach_register t registry :
    Reachable registry ->
    Reachable (snd (register t registry)).

(** The same definition with another handler. *)
Definition withHandler (t : ToolDefinition C) (h : Args -> M C CallToolResult)
    : ToolDefinition C :=
  {| name := name t; description := description t;
     inputSchema := inputSchema t; handler := h |}.

End Registry.
Arguments Registry C : clear implicits.

End Envelope.

(** ** Derived descriptions used in the statements *)

Module Outcome.
Import Js Async Tool Http Weather.

(** The [catch] clause of [weatherApiRequest] as a function on what was
    thrown inside the [try]. *)
Definition rethrown (e : Thrown) : Thrown :=
  match e with
  | JsError message =>
      if includes "fetch" message then JsError CANNOT_CONNECT else e
  | JsOther _ | JsNullish _ => e
  end.

(** The error constructed for a response that is not [ok]. *)
Definition statusError (status : Z) (statusText : string) : Thrown :=
  if (status =? 404)%Z then JsError NOT_FOUND
  else if (status =? 500)%Z then JsError UNAVAILABLE
  else JsError ("Weather API error: " +:+ pretty status +:+ " " +:+ statusText).

(** What [weatherApiRequest] makes of an answer of the service. *)
Definition settle {T} (o : FetchOutcome T) : Res T :=
  match o with
  | FetchRejected e => Throw (rethrown e)
  | FetchResponse status statusText body =>
      if ok status then
        match body with
        | BodyJson v => Ok v
        | BodyInvalid e => Throw (rethrown e)
        end
      else Throw (rethrown (statusError status statusText))
  end.

(** An answer with a 2xx status and a decodable body. *)
Definition succeeded {T} (o : FetchOutcome T) : option T :=
  match o with
  | FetchResponse status _ (BodyJson v) => if ok status then Some v else None
  | _ => None
  end.

Section WithRuntime.
Context (rt : Runtime) (up : Upstream).

Definition observationRequest (props : Station) : Request :=
  request (observationEndpoint (stationIdentifier props)).

(** The text one station contributes to the report. *)
Definition stationBlock (props : Station) : string :=
  stationHeading rt props
  +:+ match settle (fetchObservation up (observationRequest props)) with
      | Ok obsData =>
          match obs_properties obsData with
          | Some obs => latestReport rt obs
          | None => ""
          end
      | Throw _ => NOT_AVAILABLE +:+ newline
      end
  +:+ newline +:+ "---" +:+ newline +:+ newline.

Fixpoint stationBlocks (stations : list Station) : string :=
  match stations with
  | [] => ""
  | props :: rest => stationBlock props +:+ stationBlocks rest
  end.

End WithRuntime.

(** Every character of [s] satisfies [p]. *)
Fixpoint allOf (p : ascii -> bool) (s : string) : bool :=
  match s with
  | EmptyString => true
  | String x rest => p x && allOf p rest
  end.

(** The string [s] has no occurrence of the character [c]. *)
Definition avoids (c : ascii) (s : string) : bool :=
  allOf (fun x => negb (Ascii.eqb x c)) s.

(** The strings the number pattern of [parseLocation] stands for: an
    optional minus sign, one or more digits, an optional dot, digits. *)
Definition Number (s : string) : Prop :=
  exists sign whole dot frac,
    s = sign +:+ whole +:+ dot +:+ frac
    /\ (sign = "" \/ sign = "-")
    /\ whole <> "" /\ allOf isDigit whole = true
    /\ (dot = "" \/ dot = ".")
    /\ allOf isDigit frac = true.

(** The strings the coordinate pattern stands for, with its two groups: a
    number, a comma, white space, a number, and nothing else. *)
Definition CoordinatePair (s a b : string) : Prop :=
  exists ws,
    s = a +:+ "," +:+ ws +:+ b
    /\ Number a /\ allOf isSpace ws = true /\ Number b.

(** A computation that, when it returns, returns a single text block. *)
Definition textual {C} (m : M C CallToolResult) : Prop :=
  forall log r log', m log = (Ok r, log') -> exists s, r = textResult s.

End Outcome.

(** ** Answers of the mapping service used in the statements *)

Module MapsOutcome.
Import Js Http.
(** Every request to this endpoint of the mapping service is answered
    with a decodable body that carries the given status and message. *)
Definition answersWith {P} (fetch : Maps.Request -> FetchOutcome (Maps.Answer P))
    (status : string) (error_message : option string) : Prop :=
  forall r, exists httpStatus httpText payload,
    fetch r = FetchResponse httpStatus httpText
                (BodyJson {| Maps.status := status;
                             Maps.error_message := error_message;
                             Maps.payload := payload |}).
End MapsOutcome.

(** ** Sample runtime and upstream answers *)

Module Sample.
Import Js Async Tool Http.

(** A runtime that knows the coordinates of one city and prints every
    other fraction, and every date, the same way. *)
Definition runtime : Runtime := {|
  parseFloat := fun s =>
    if String.eqb s "40.7128" then (407128 # 10000)%Q
    else if String.eqb s "-74.0060" then (-74006 # 1000)%Q
    else 0%Q;
  showFrac := fun q =>
    if Qeq_bool q (407128 # 10000) then "40.7128"
    else if Qeq_bool q (-74006 # 1000) then "-74.006"
    else "0.5";
  toFixed := fun _ _ => "0.0";
  fmul := Qmult; fdiv := Qdiv; fadd := Qplus;
  dateToLocaleString := fun s => s;
  dateToLocaleTimeString := fun s => s;
  dateToLocaleDateString := fun s => s;
  toLowerCase := fun s => s;
  JSON_stringify := fun _ => "{}";
  JSON_stringify_indent := fun _ _ => "{}";
  valueToLocaleString := fun _ => "0";
  dateToLocaleDateStringUS := fun _ => "Jan 1, 2025";
  localeCompare := fun a b => if String.eqb a b then 0%Z else 1%Z;
  arraySort := fun _ items => items;
  base64Encode := fun s => s;
  base64Decode := fun s => s;
  invalidArgType := fun _ =>
    "The first argument must be of type string or an instance of Buffer, ArrayBuffer, or Array or an Array-like Object.";
  bufferFromObject := fun _ => inr ""
|}.

Definition okx : Weather.PointMetadata :=
  {| Weather.gridId := "OKX"; Weather.gridX := 32; Weather.gridY := 34;
     Weather.cwa := "OKX";
     Weather.forecastOffice := "https://api.weather.gov/offices/OKX";
     Weather.forecast := "https://api.weather.gov/gridpoints/OKX/32,34/forecast";
     Weather.forecastHourly :=
       "https://api.weather.gov/gridpoints/OKX/32,34/forecast/hourly" |}.

Definition period (n : string) : Weather.ForecastPeriod :=
  {| Weather.period_name := n; Weather.temperature := 70;
     Weather.temperatureUnit := "F"; Weather.shortForecast := "Sunny";
     Weather.detailedForecast := "Sunny, with a high near 70.";
     Weather.windSpeed := Some "5 mph"; Weather.windDirection := Some "N";
     Weather.probabilityOfPrecipitation := None |}.

Definition centralPark : Weather.Station :=
  {| Weather.stationIdentifier := "KNYC"; Weather.station_name := "Central Park";
     Weather.elevation := None; Weather.distance := None |}.

(** A weather service whose observation endpoint answers 503 and whose
    alerts endpoint has nothing to report. *)
Definition weather : Weather.Upstream := {|
  Weather.fetchPoint := fun _ =>
    FetchResponse 200 "OK" (BodyJson {| Weather.point_properties := okx |});
  Weather.fetchStations := fun _ =>
    FetchResponse 200 "OK"
      (BodyJson {| Weather.station_features := Some [centralPark] |});
  Weather.fetchForecast := fun _ =>
    FetchResponse 200 "OK"
      (BodyJson {| Weather.updateTime := "2025-01-01T00:00:00Z";
                   Weather.periods := [period "Today"; period "Tonight"] |});
  Weather.fetchHourly := fun _ => FetchRejected (JsError "fetch failed");
  Weather.fetchAlerts := fun _ =>
    FetchResponse 200 "OK" (BodyJson {| Weather.alert_features := Some [] |});
  Weather.fetchObservation := fun _ =>
    FetchResponse 503 "Service Unavailable" (BodyInvalid (JsOther None))
|}.

(** A mapping service that finds nothing. *)
Definition noResults {P} (p : P) : FetchOutcome (Maps.Answer P) :=
  FetchResponse 200 "OK"
    (BodyJson {| Maps.status := "ZERO_RESULTS"; Maps.error_message := None;
                 Maps.payload := p |}).

Definition emptyDetail : Maps.PlaceDetail :=
  {| Maps.detail_name := JUndefined; Maps.detail_formatted_address := JUndefined;
     Maps.detail_geometry_location := JUndefined;
     Maps.formatted_phone_number := JUndefined; Maps.website := JUndefined;
     Maps.detail_rating := JUndefined; Maps.reviews := JUndefined;
     Maps.opening_hours := JUndefined |}.

Definition maps : Maps.Upstream := {|
  Maps.fetchGeocode := fun _ => noResults [];
  Maps.fetchPlaces := fun _ => noResults [];
  Maps.fetchDetails := fun _ => noResults emptyDetail;
  Maps.fetchMatrix := fun _ =>
    noResults {| Maps.origin_addresses := JArr []; Maps.destination_addresses := JArr [];
                 Maps.rows := [] |};
  Maps.fetchElevation := fun _ => noResults [];
  Maps.fetchDirections := fun _ => noResults []
|}.

(** A hosting service that answers every call with status 404. *)
Definition octokit : GitHub.Call -> GitHub.Reply :=
  fun _ => GitHub.Rejected (JsError "Not Found").

(** The registries the three servers build at construction. *)
Definition weatherRegistry : Envelope.Registry Weather.Request :=
  snd (Envelope.registerAll (Weather.tools runtime weather) []).

Definition mapsRegistry : Envelope.Registry Maps.Request :=
  snd (Envelope.registerAll (Maps.tools runtime "KEY" maps) []).

Definition githubRegistry : Envelope.Registry GitHub.Call :=
  snd (Envelope.registerAll (GitHub.tools runtime octokit) []).

End Sample.

(** ** Further sample services *)

Module Cases.
Import Js Async Tool Http.

Definition hour (start : string) : Weather.HourlyPeriod :=
  {| Weather.startTime := start; Weather.hourly_temperature := 70;
     Weather.hourly_temperatureUnit := "F";
     Weather.hourly_shortForecast := "Clear";
     Weather.hourly_probabilityOfPrecipitation := Some 0%Q |}.

Definition laGuardia : Weather.Station :=
  {| Weather.stationIdentifier := "KLGA"; Weather.station_name := "LaGuardia Airport";
     Weather.elevation := Some 3%Q; Weather.distance := Some 0%Q |}.

(** A weather service like the sample one, with the given station list
    and the given answer to every observation request. *)
Definition weatherWith (stations : option (list Weather.Station))
    (observation : FetchOutcome Weather.ObservationResponse) : Weather.Upstream := {|
  Weather.fetchPoint := Weather.fetchPoint Sample.weather;
  Weather.fetchStations := fun _ =>
    FetchResponse 200 "OK" (BodyJson {| Weather.station_features := stations |});
  Weather.fetchForecast := Weather.fetchForecast Sample.weather;
  Weather.fetchHourly := fun _ =>
    FetchResponse 200 "OK"
      (BodyJson {| Weather.hourly_updateTime := "2025-01-01T00:00:00Z";
                   Weather.hourly_periods :=
                     [hour "2025-01-01T00:00:00Z"; hour "2025-01-01T01:00:00Z";
                      hour "2025-01-01T02:00:00Z"] |});
  Weather.fetchAlerts := Weather.fetchAlerts Sample.weather;
  Weather.fetchObservation := fun _ => observation
|}.

Definition storm (given : option string) : Weather.Alert :=
  {| Weather.event := "Winter Storm Warning"; Weather.severity := given;
     Weather.urgency := "Expected"; Weather.areaDesc := "Kings";
     Weather.effective := None; Weather.expires := None;
     Weather.alert_description := "Heavy snow.";
     Weather.instruction := None |}.

(** A weather service like the sample one, with the given answer to every
    alerts request. *)
Definition alerting (answer : FetchOutcome Weather.AlertCollection)
    : Weather.Upstream := {|
  Weather.fetchPoint := Weather.fetchPoint Sample.weather;
  Weather.fetchStations := Weather.fetchStations Sample.weather;
  Weather.fetchForecast := Weather.fetchForecast Sample.weather;
  Weather.fetchHourly := Weather.fetchHourly Sample.weather;
  Weather.fetchAlerts := fun _ => answer;
  Weather.fetchObservation := Weather.fetchObservation Sample.weather
|}.

(** A weather service that knows no point. *)
Definition nowhere : Weather.Upstream := {|
  Weather.fetchPoint := fun _ => FetchResponse 404 "Not Found" (BodyInvalid (JsOther None));
  Weather.fetchStations := Weather.fetchStations Sample.weather;
  Weather.fetchForecast := Weather.fetchForecast Sample.weather;
  Weather.fetchHourly := Weather.fetchHourly Sample.weather;
  Weather.fetchAlerts := Weather.fetchAlerts Sample.weather;
  Weather.fetchObservation := Weather.fetchObservation Sample.weather
|}.

(** A weather service like the sample one, with the given forecast. *)
Definition forecasting (data : Weather.ForecastResponse) : Weather.Upstream := {|
  Weather.fetchPoint := Weather.fetchPoint Sample.weather;
  Weather.fetchStations := Weather.fetchStations Sample.weather;
  Weather.fetchForecast := fun _ => FetchResponse 200 "OK" (BodyJson data);
  Weather.fetchHourly := Weather.fetchHourly Sample.weather;
  Weather.fetchAlerts := Weather.fetchAlerts Sample.weather;
  Weather.fetchObservation := Weather.fetchObservation Sample.weather
|}.

Definition calm : Weather.Observation :=
  {| Weather.timestamp := "2025-01-01T00:00:00Z";
     Weather.obs_temperature := Some (Some 20%Q);
     Weather.heatIndex := None; Weather.windChill := Some None;
     Weather.textDescription := Some "Clear";
     Weather.relativeHumidity := None;
     Weather.obs_windSpeed := None; Weather.obs_windDirection := None;
     Weather.barometricPressure := None; Weather.visibility := None |}.

(** A mapping service whose geocoding endpoint answers every request with
    status OK, the given HTTP status and the given results. *)
Definition geocoding (httpStatus : Z) (error_message : option string)
    (results : list Maps.GeocodeEntry) : Maps.Upstream := {|
  Maps.fetchGeocode := fun _ =>
    FetchResponse httpStatus
      (if (httpStatus =? 500)%Z then "Internal Server Error" else "")
      (BodyJson {| Maps.status := "OK"; Maps.error_message := error_message;
                   Maps.payload := results |});
  Maps.fetchPlaces := Maps.fetchPlaces Sample.maps;
  Maps.fetchDetails := Maps.fetchDetails Sample.maps;
  Maps.fetchMatrix := Maps.fetchMatrix Sample.maps;
  Maps.fetchElevation := Maps.fetchElevation Sample.maps;
  Maps.fetchDirections := Maps.fetchDirections Sample.maps
|}.

(** A hosting service with one repository, whose default branch is main
    and holds one file. *)
Definition hosting : GitHub.Call -> GitHub.Reply := fun c =>
  let m := GitHub.method c in
  if String.eqb m "repos.get" then
    GitHub.Resolved (JObj [("default_branch", JStr "main")])
  else if String.eqb m "git.getRef" then
    GitHub.Resolved (JObj [("object", JObj [("sha", JStr "c0")])])
  else if String.eqb m "git.getCommit" then
    GitHub.Resolved (JObj [("tree", JObj [("sha", JStr "t0")])])
  else if String.eqb m "git.createTree" then
    GitHub.Resolved (JObj [("sha", JStr "t1")])
  else if String.eqb m "git.createCommit" then
    GitHub.Resolved (JObj [("sha", JStr "c1")])
  else if String.eqb m "git.updateRef" then
    GitHub.Resolved (JObj [("ref", JStr "refs/heads/main")])
  else if String.eqb m "git.createRef" then
    GitHub.Resolved (JObj [("ref", JStr "refs/heads/topic")])
  else if String.eqb m "pulls.get" then
    GitHub.Resolved (JObj [("head", JObj [("sha", JStr "c0")])])
  else if String.eqb m "repos.getCombinedStatusForRef" then
    GitHub.Resolved (JObj [("state", JStr "success")])
  else if String.eqb m "repos.getContent" then
    GitHub.Resolved (JObj [("type", JStr "file"); ("path", JStr "src/main.c");
                           ("size", JNum 2); ("content", JStr "hi")])
  else GitHub.Rejected (JsError "Not Found").

(** The same service when the path read is a directory, a submodule or
    anything else the caller chooses. *)
Definition holding (data : Value) : GitHub.Call -> GitHub.Reply := fun c =>
  if String.eqb (GitHub.method c) "repos.getContent" then GitHub.Resolved data
  else hosting c.

End Cases.

(** * Properties *)

Import Js Async Tool Http.

(** ** Strings *)

Lemma append_cons (c : ascii) (a b : string) :
  String c a +:+ b = String c (a +:+ b).
Proof. reflexivity. Qed.

Lemma append_nil_l (a : string) : "" +:+ a = a.
Proof. reflexivity. Qed.

Lemma append_assoc (a b c : string) : (a +:+ b) +:+ c = a +:+ (b +:+ c).
Proof.
  induction a as [|x a IH]; [reflexivity |].
  rewrite !append_cons. now rewrite IH.
Qed.

Lemma append_nil_r (a : string) : a +:+ "" = a.
Proof.
  induction a as [|x a IH]; [reflexivity |].
  rewrite append_cons. now rewrite IH.
Qed.

Lemma prefix_append (a b : string) : String.prefix a (a +:+ b) = true.
Proof.
  induction a as [|x a IH].
  - now destruct b.
  - rewrite append_cons. simpl.
    destruct (ascii_dec x x) as [_ | ne]; [exact IH | now elim ne].
Qed.

Lemma includes_prefix (n hay : string) :
  String.prefix n hay = true -> includes n hay = true.
Proof. destruct hay; simpl; intros ->; reflexivity. Qed.

Lemma includes_here (n rest : string) : includes n (n +:+ rest) = true.
Proof. apply includes_prefix, prefix_append. Qed.

Lemma includes_cons (n : string) (x : ascii) (a : string) :
  includes n (String x a) = String.prefix n (String x a) || includes n a.
Proof. reflexivity. Qed.

Lemma prefix_app_l (n a b : string) :
  String.prefix n a = true -> String.prefix n (a +:+ b) = true.
Proof.
  revert a. induction n as [|x n IH]; intros a H; [now destruct (a +:+ b) |].
  destruct a as [|y a]; [discriminate |].
  rewrite append_cons. simpl in *.
  destruct (ascii_dec x y); [now apply IH | discriminate].
Qed.

Lemma includes_app_l (n a b : string) :
  includes n a = true -> includes n (a +:+ b) = true.
Proof.
  induction a as [|x a IH].
  - simpl. rewrite orb_false_r. intros H.
    apply includes_prefix. rewrite append_nil_l.
    destruct n; [now destruct b | discriminate].
  - rewrite append_cons, !includes_cons. intros [H | H]%orb_prop.
    + rewrite <- append_cons. now rewrite (prefix_app_l _ _ b H).
    + rewrite (IH H). apply orb_true_r.
Qed.

Lemma includes_app_r (n a b : string) :
  includes n b = true -> includes n (a +:+ b) = true.
Proof.
  intros H. induction a as [|x a IH]; [exact H |].
  rewrite append_cons. simpl. rewrite IH. apply orb_true_r.
Qed.

Lemma prefix_split (n hay : string) :
  String.prefix n hay = true -> exists rest, hay = n +:+ rest.
Proof.
  revert hay. induction n as [|x n IH]; intros hay H.
  - now exists hay.
  - destruct hay as [|y hay]; [discriminate |]. simpl in H.
    destruct (ascii_dec x y) as [-> | _]; [| discriminate].
    destruct (IH hay H) as [rest ->]. now exists rest.
Qed.

(** [includes] is the occurrence of the needle somewhere in the string. *)
Lemma includes_spec (n hay : string) :
  includes n hay = true <-> exists before after, hay = before +:+ n +:+ after.
Proof.
  split.
  - induction hay as [|x hay IH].
    + simpl. rewrite orb_false_r. destruct n; [| discriminate].
      intros _. now exists "", "".
    + rewrite includes_cons. intros [H | H]%orb_prop.
      * apply prefix_split in H as [rest ->]. now exists "", rest.
      * destruct (IH H) as (before & after & ->).
        now exists (String x before), after.
  - intros (before & after & ->). apply includes_app_r, includes_here.
Qed.

(** A needle is not found in a prefix that lacks its first character. *)
Lemma includes_skip (c : ascii) (n a b : string) :
  Outcome.avoids c a = true ->
  includes (String c n) (a +:+ b) = includes (String c n) b.
Proof.
  induction a as [|x a IH]; [reflexivity |].
  rewrite append_cons. simpl. intros [Hx Ha]%andb_prop.
  rewrite (IH Ha).
  destruct (ascii_dec c x) as [-> | _]; [| reflexivity].
  now rewrite Ascii.eqb_refl in Hx.
Qed.

Lemma pretty_N_go_avoids_f (x : N) (s : string) :
  Outcome.avoids "f" s = true -> Outcome.avoids "f" (pretty_N_go x s) = true.
Proof.
  revert s. induction (N.lt_wf_0 x) as [x _ IH]; intros s Hs.
  assert (x = 0 \/ 0 < x)%N as [-> | Hpos] by lia.
  - now rewrite pretty_N_go_0.
  - rewrite pretty_N_go_step by assumption. apply IH.
    + now apply N.div_lt.
    + unfold Outcome.avoids in *. simpl. rewrite Hs. unfold pretty_N_char.
      repeat case_match; reflexivity.
Qed.

(** The decimal rendering of an integer has no letter in it. *)
Lemma pretty_Z_avoids_f (z : Z) : Outcome.avoids "f" (pretty z) = true.
Proof.
  assert (forall p : positive, Outcome.avoids "f" (pretty p) = true) as Hpos.
  { intros p. unfold pretty, pretty_positive, pretty, pretty_N.
    case_decide; [reflexivity | now apply pretty_N_go_avoids_f]. }
  destruct z as [|p|p]; [reflexivity | apply Hpos |].
  change (pretty (Z.neg p)) with ("-" +:+ pretty p).
  rewrite append_cons, append_nil_l. simpl. apply Hpos.
Qed.

(** The generic status message mentions "fetch" only if the status text does. *)
Lemma generic_message_fetch (status : Z) (statusText : string) :
  includes "fetch" ("Weather API error: " +:+ pretty status +:+ " " +:+ statusText)
  = includes "fetch" statusText.
Proof.
  rewrite includes_skip by reflexivity.
  rewrite includes_skip by apply pretty_Z_avoids_f.
  now rewrite includes_skip by reflexivity.
Qed.

(** ** Location patterns *)

Lemma dropWhile_split (p : ascii -> bool) (s : string) :
  exists pre, s = pre +:+ Weather.dropWhile p s /\ Outcome.allOf p pre = true.
Proof.
  induction s as [|c s (pre & IH & Hpre)]; [now exists "" |].
  simpl. destruct (p c) eqn:Hc.
  - exists (String c pre). rewrite append_cons, <- IH. simpl. now rewrite Hc.
  - now exists "".
Qed.

Lemma dropWhile_all (p : ascii -> bool) (s : string) :
  Weather.dropWhile p s = "" <-> Outcome.allOf p s = true.
Proof.
  induction s as [|c s IH]; simpl; [tauto |].
  destruct (p c); simpl; [exact IH | split; discriminate].
Qed.

Lemma dropWhile_app (p : ascii -> bool) (a b : string) :
  Outcome.allOf p a = true ->
  Weather.dropWhile p (a +:+ b) = Weather.dropWhile p b.
Proof.
  induction a as [|c a IH]; [reflexivity |].
  rewrite append_cons. simpl. intros [-> Ha]%andb_prop. now apply IH.
Qed.

Lemma dropWhile_stop (p : ascii -> bool) (c : ascii) (s : string) :
  p c = false -> Weather.dropWhile p (String c s) = String c s.
Proof. simpl. now intros ->. Qed.

Lemma allOf_app (p : ascii -> bool) (a b : string) :
  Outcome.allOf p (a +:+ b) = Outcome.allOf p a && Outcome.allOf p b.
Proof.
  induction a as [|c a IH]; [reflexivity |].
  rewrite append_cons. simpl. now rewrite IH, andb_assoc.
Qed.

Lemma allOf_weaken (p q : ascii -> bool) (s : string) :
  (forall c, p c = true -> q c = true) ->
  Outcome.allOf p s = true -> Outcome.allOf q s = true.
Proof.
  intros Hpq. induction s as [|c s IH]; [reflexivity |].
  simpl. intros [Hc Hs]%andb_prop. now rewrite (Hpq c Hc), IH.
Qed.

Lemma isDigit_cases (c : ascii) :
  Weather.isDigit c = true ->
  Ascii.eqb c "-" = false /\ Ascii.eqb c "." = false /\ Ascii.eqb c "," = false
  /\ Weather.isSpace c = false.
Proof.
  intros Hc.
  assert (forall d, Weather.isDigit d = false -> Ascii.eqb c d = false) as Hother.
  { intros d Hd. apply Ascii.eqb_neq. intros ->. congruence. }
  repeat split; try (apply Hother; reflexivity).
  unfold Weather.isDigit, Weather.isSpace in *.
  apply andb_prop in Hc as [Hlo Hhi]. apply Nat.leb_le in Hlo, Hhi.
  apply orb_false_iff. split; [apply orb_false_iff; split |].
  - apply andb_false_iff. right. apply Nat.leb_gt. lia.
  - apply Nat.eqb_neq. lia.
  - apply Nat.eqb_neq. lia.
Qed.

(** [matchesNumber] decides the number pattern. *)
Lemma matchesNumber_spec (s : string) :
  Weather.matchesNumber s = true <-> Outcome.Number s.
Proof.
  split.
  - unfold Weather.matchesNumber.
    set (s1 := match s with
               | String c rest => if Ascii.eqb c "-" then rest else s
               | EmptyString => s
               end).
    assert (exists sign, s = sign +:+ s1 /\ (sign = "" \/ sign = "-"))
      as (sign & Hs & Hsign).
    { subst s1. destruct s as [|c rest]; [exists ""; auto |].
      destruct (Ascii.eqb_spec c "-") as [-> | _]; [exists "-" | exists ""]; auto. }
    clearbody s1. destruct s1 as [|c s1']; [discriminate |].
    intros [Hc Hrest]%andb_prop.
    destruct (dropWhile_split Weather.isDigit s1') as (pre & Hpre & Hdigits).
    assert (Weather.dropWhile Weather.isDigit (String c s1')
            = Weather.dropWhile Weather.isDigit s1') as Hdrop
      by (simpl; now rewrite Hc).
    rewrite Hdrop in Hrest. clear Hdrop.
    set (s2 := Weather.dropWhile Weather.isDigit s1') in *.
    set (s3 := match s2 with
               | String d rest => if Ascii.eqb d "." then rest else s2
               | EmptyString => s2
               end) in *.
    assert (exists dot, s2 = dot +:+ s3 /\ (dot = "" \/ dot = "."))
      as (dot & Hs2 & Hdot).
    { subst s3. destruct s2 as [|d rest]; [exists ""; auto |].
      destruct (Ascii.eqb_spec d ".") as [-> | _]; [exists "." | exists ""]; auto. }
    apply String.eqb_eq, dropWhile_all in Hrest.
    exists sign, (String c pre), dot, s3.
    split; [now rewrite Hs, Hpre, Hs2, append_cons |].
    split; [assumption |]. split; [discriminate |].
    split; [simpl; now rewrite Hc |]. split; assumption.
  - intros (sign & whole & dot & frac & -> & Hsign & Hne & Hwhole & Hdot & Hfrac).
    destruct whole as [|c whole]; [contradiction |].
    simpl in Hwhole. apply andb_prop in Hwhole as [Hc Hwhole].
    destruct (isDigit_cases c Hc) as (Hminus & _ & _ & _).
    assert (Weather.matchesNumber (String c whole +:+ dot +:+ frac) = true) as Hcore.
    { unfold Weather.matchesNumber. rewrite append_cons, Hminus, Hc. simpl.
      rewrite Hc. rewrite dropWhile_app by assumption.
      destruct Hdot as [-> | ->].
      - rewrite append_nil_l.
        now rewrite (proj2 (dropWhile_all _ _) Hfrac).
      - change ("." +:+ frac) with (String "." frac).
        rewrite dropWhile_stop by reflexivity. cbv iota.
        change (Ascii.eqb "." ".") with true. cbv iota.
        now rewrite (proj2 (dropWhile_all _ _) Hfrac). }
    destruct Hsign as [-> | ->]; [now rewrite append_nil_l |].
    unfold Weather.matchesNumber in *.
    change ("-" +:+ String c whole +:+ dot +:+ frac)
      with (String "-" (String c whole +:+ dot +:+ frac)).
    rewrite append_cons in *. simpl. simpl in Hcore.
    rewrite Hminus in Hcore. exact Hcore.
Qed.

Lemma splitComma_split (s a b : string) :
  Weather.splitComma s = Some (a, b) ->
  s = a +:+ "," +:+ b /\ Outcome.avoids "," a = true.
Proof.
  revert a. induction s as [|c s IH]; intros a; [discriminate |].
  simpl. destruct (Ascii.eqb c ",") eqn:Hc.
  - apply Ascii.eqb_eq in Hc as ->. intros [= <- <-]. now split.
  - destruct (Weather.splitComma s) as [[a' b'] |]; [| discriminate].
    intros [= <- <-]. destruct (IH a' eq_refl) as [-> Ha'].
    split; [reflexivity |]. unfold Outcome.avoids in *. simpl. now rewrite Hc.
Qed.

Lemma splitComma_app (a b : string) :
  Outcome.avoids "," a = true ->
  Weather.splitComma (a +:+ "," +:+ b) = Some (a, b).
Proof.
  unfold Outcome.avoids. induction a as [|c a IH]; [reflexivity |].
  rewrite append_cons. simpl. intros [Hc Ha]%andb_prop.
  apply negb_true_iff in Hc. now rewrite Hc, (IH Ha).
Qed.

Lemma number_avoids_comma (s : string) :
  Outcome.Number s -> Outcome.avoids "," s = true.
Proof.
  intros (sign & whole & dot & frac & -> & Hsign & _ & Hwhole & Hdot & Hfrac).
  assert (forall ds, Outcome.allOf Weather.isDigit ds = true ->
                     Outcome.avoids "," ds = true) as Hdigits.
  { intros ds. apply allOf_weaken. intros c Hc.
    now destruct (isDigit_cases c Hc) as (_ & _ & -> & _). }
  unfold Outcome.avoids in *. rewrite !allOf_app.
  rewrite (Hdigits _ Hwhole), (Hdigits _ Hfrac).
  now destruct Hsign as [-> | ->], Hdot as [-> | ->].
Qed.

Lemma number_starts_outside_space (s : string) :
  Outcome.Number s ->
  exists c rest, s = String c rest /\ Weather.isSpace c = false.
Proof.
  intros (sign & whole & dot & frac & -> & Hsign & Hne & Hwhole & _).
  destruct whole as [|c whole]; [contradiction |].
  simpl in Hwhole. apply andb_prop in Hwhole as [Hc _].
  destruct (isDigit_cases c Hc) as (_ & _ & _ & Hspace).
  destruct Hsign as [-> | ->].
  - rewrite append_nil_l, append_cons. eauto.
  - exists "-"%char. eexists. split; [reflexivity | reflexivity].
Qed.

(** [coordMatch] decides the coordinate pattern and yields its groups. *)
Lemma coordMatch_spec (s a b : string) :
  Weather.coordMatch s = Some (a, b) <-> Outcome.CoordinatePair s a b.
Proof.
  unfold Weather.coordMatch. split.
  - destruct (Weather.splitComma s) as [[a0 b0] |] eqn:Hsplit; [| discriminate].
    destruct (Weather.matchesNumber a0) eqn:Ha; [| discriminate].
    destruct (Weather.matchesNumber (Weather.dropWhile Weather.isSpace b0)) eqn:Hb;
      [| discriminate].
    intros [= <- <-].
    destruct (splitComma_split _ _ _ Hsplit) as [-> _].
    destruct (dropWhile_split Weather.isSpace b0) as (ws & Hws & Hspace).
    exists ws. split; [now rewrite <- Hws |].
    split; [now apply matchesNumber_spec |].
    split; [exact Hspace | now apply matchesNumber_spec].
  - intros (ws & -> & Ha & Hws & Hb).
    rewrite (splitComma_app a (ws +:+ b) (number_avoids_comma a Ha)).
    rewrite (dropWhile_app _ ws b Hws).
    destruct (number_starts_outside_space b Hb) as (c & rest & -> & Hc).
    rewrite (dropWhile_stop _ c rest Hc).
    apply matchesNumber_spec in Ha as ->. apply matchesNumber_spec in Hb as ->.
    reflexivity.
Qed.

Example coordMatch_samples :
  Weather.coordMatch "40.7128,-74.0060" = Some ("40.7128", "-74.0060")
  /\ Weather.coordMatch "40.7128,  -74." = Some ("40.7128", "-74.")
  /\ Weather.coordMatch "New York, NY" = None
  /\ Weather.coordMatch ".5,1" = None
  /\ Weather.coordMatch "1,2,3" = None
  /\ Weather.coordMatch "40.7128,-74.0060 " = None.
Proof. repeat split. Qed.

Example isStateCode_samples :
  Weather.isStateCode "CA" = true
  /\ Weather.isStateCode "ca" = false
  /\ Weather.isStateCode "CAL" = false.
Proof. repeat split. Qed.

(** ** The request helper of the weather adapter *)

(** [weatherApiRequest] logs exactly one request and makes of the answer
    what [settle] describes. *)
Lemma weatherApiRequest_settle {T} (fetch : Weather.Request -> FetchOutcome T)
    (endpoint : string) (log : list Weather.Request) :
  Weather.weatherApiRequest fetch endpoint log
  = (Outcome.settle (fetch (Weather.request endpoint)),
     (log ++ [Weather.request endpoint])%list).
Proof.
  unfold Weather.weatherApiRequest, tryCatch, bind, call, Outcome.settle.
  destruct (fetch (Weather.request endpoint)) as [e | status statusText body].
  - destruct e as [m | m | n]; simpl; [destruct (includes "fetch" m) | |];
      reflexivity.
  - destruct (ok status); simpl.
    + destruct body as [v | e]; simpl; [reflexivity |].
      destruct e as [m | m | n]; simpl; [destruct (includes "fetch" m) | |];
        reflexivity.
    + unfold Outcome.statusError.
      destruct (status =? 404)%Z; [reflexivity |].
      destruct (status =? 500)%Z; [reflexivity |].
      simpl. destruct (includes "fetch" _); reflexivity.
Qed.

(** The four messages are worded differently from one another. *)
Lemma error_messages_distinct (status : Z) (statusText : string) :
  let generic := "Weather API error: " +:+ pretty status +:+ " " +:+ statusText in
  Weather.NOT_FOUND <> Weather.UNAVAILABLE
  /\ Weather.NOT_FOUND <> Weather.CANNOT_CONNECT
  /\ Weather.UNAVAILABLE <> Weather.CANNOT_CONNECT
  /\ generic <> Weather.NOT_FOUND
  /\ generic <> Weather.UNAVAILABLE
  /\ generic <> Weather.CANNOT_CONNECT.
Proof.
  intros generic. subst generic.
  repeat split; try discriminate;
    intros H; rewrite !append_cons in H; discriminate H.
Qed.

(** C4 (as amended): a response with a status outside 2xx makes the request
    helper of the weather adapter throw an error whose message depends on
    the status: 404 gives the not-found message, 500 gives the
    service-unavailable message, and any other status whose status text
    does not contain "fetch" gives the generic message that quotes status
    and status text.  A rejected fetch whose error message contains "fetch"
    gives the connectivity message; any other rejection is rethrown as it
    is.  In every case exactly one request has been logged. *)
Theorem weatherApiRequest_errors {T} (fetch : Weather.Request -> FetchOutcome T)
    (endpoint : string) (log : list Weather.Request) :
  let answer := fetch (Weather.request endpoint) in
  let throws message :=
    Weather.weatherApiRequest fetch endpoint log
    = (Throw (JsError message), (log ++ [Weather.request endpoint])%list) in
  (forall statusText body,
      answer = FetchResponse 404 statusText body ->
      throws "Location not found or no data available")
  /\ (forall statusText body,
      answer = FetchResponse 500 statusText body ->
      throws "Weather service temporarily unavailable")
  /\ (forall status statusText body,
      answer = FetchResponse status statusText body ->
      ok status = false -> status <> 404%Z -> status <> 500%Z ->
      includes "fetch" statusText = false ->
      throws ("Weather API error: " +:+ pretty status +:+ " " +:+ statusText))
  /\ (forall message,
      answer = FetchRejected (JsError message) ->
      includes "fetch" message = true ->
      throws "Unable to connect to weather service. Please check your internet connection.")
  /\ (forall e,
      answer = FetchRejected e ->
      (forall message, e = JsError message -> includes "fetch" message = false) ->
      Weather.weatherApiRequest fetch endpoint log
      = (Throw e, (log ++ [Weather.request endpoint])%list)).
Proof.
  intros answer throws. subst answer throws. cbv beta.
  rewrite weatherApiRequest_settle.
  repeat split.
  - intros statusText body ->. reflexivity.
  - intros statusText body ->. reflexivity.
  - intros status statusText body -> Hok H404 H500 Hfetch.
    unfold Outcome.settle, Outcome.statusError. rewrite Hok.
    destruct (Z.eqb_spec status 404) as [? | _]; [contradiction |].
    destruct (Z.eqb_spec status 500) as [? | _]; [contradiction |].
    unfold Outcome.rethrown. now rewrite generic_message_fetch, Hfetch.
  - intros message -> Hfetch. simpl. now rewrite Hfetch.
  - intros e -> Hfetch. simpl.
    destruct e as [message | other | null]; [| reflexivity | reflexivity].
    simpl. now rewrite (Hfetch message eq_refl).
Qed.

(** The four kinds of answer, each on a concrete one. *)
Lemma weatherApiRequest_errors_witness :
  let notFound : Weather.Request -> FetchOutcome unit :=
    fun _ => FetchResponse 404 "Not Found" (BodyJson tt) in
  let broken : Weather.Request -> FetchOutcome unit :=
    fun _ => FetchResponse 500 "Internal Server Error" (BodyJson tt) in
  let teapot : Weather.Request -> FetchOutcome unit :=
    fun _ => FetchResponse 418 "I'm a teapot" (BodyJson tt) in
  let offline : Weather.Request -> FetchOutcome unit :=
    fun _ => FetchRejected (JsError "fetch failed") in
  Weather.weatherApiRequest notFound "/alerts/active" []
    = (Throw (JsError "Location not found or no data available"),
       [Weather.request "/alerts/active"])
  /\ Weather.weatherApiRequest broken "/alerts/active" []
    = (Throw (JsError "Weather service temporarily unavailable"),
       [Weather.request "/alerts/active"])
  /\ Weather.weatherApiRequest teapot "/alerts/active" []
    = (Throw (JsError "Weather API error: 418 I'm a teapot"),
       [Weather.request "/alerts/active"])
  /\ Weather.weatherApiRequest offline "/alerts/active" []
    = (Throw (JsError "Unable to connect to weather service. Please check your internet connection."),
       [Weather.request "/alerts/active"]).
Proof.
  intros notFound broken teapot offline.
  split; [| split; [| split]].
  - exact (proj1 (weatherApiRequest_errors notFound "/alerts/active" [])
             "Not Found" (BodyJson tt) eq_refl).
  - exact (proj1 (proj2 (weatherApiRequest_errors broken "/alerts/active" []))
             "Internal Server Error" (BodyJson tt) eq_refl).
  - refine (proj1 (proj2 (proj2 (weatherApiRequest_errors teapot "/alerts/active" [])))
              418%Z "I'm a teapot" (BodyJson tt) eq_refl _ _ _ _);
      [reflexivity | lia | lia | reflexivity].
  - refine (proj1 (proj2 (proj2 (proj2
              (weatherApiRequest_errors offline "/alerts/active" []))))
              "fetch failed" eq_refl _).
    reflexivity.
Defined.

(** C4 (as stated) fails: status 503 is a 5xx status, yet the error thrown
    for it carries the generic message, not the service-unavailable one. *)
Lemma weatherApiRequest_503_is_generic :
  let overloaded : Weather.Request -> FetchOutcome unit :=
    fun _ => FetchResponse 503 "Service Unavailable" (BodyJson tt) in
  ((500 <= 503 <= 599)%Z /\ ok 503 = false)
  /\ Weather.weatherApiRequest overloaded "/alerts/active" []
     = (Throw (JsError "Weather API error: 503 Service Unavailable"),
        [Weather.request "/alerts/active"])
  /\ "Weather API error: 503 Service Unavailable" <> Weather.UNAVAILABLE.
Proof.
  intros overloaded.
  repeat split; try lia; try reflexivity; discriminate.
Qed.

(** ** Numbers *)

(** An integer below 10^21 prints as its decimal digits, whatever the
    fraction that represents it. *)
Lemma numToString_integer (rt : Runtime) (q : Q) (z : Z) :
  (q == inject_Z z)%Q -> (Z.abs z < 10 ^ 21)%Z -> numToString rt q = pretty z.
Proof.
  unfold Qeq, numToString, isInteger, truncate. simpl. intros Hq Hz.
  rewrite Z.mul_1_r in Hq. rewrite Hq.
  rewrite Z.rem_mul, Z.quot_mul by discriminate.
  simpl. now apply Z.ltb_lt in Hz as ->.
Qed.

(** ** The monad *)

Lemma bind_ok {C A B} (m : M C A) (k : A -> M C B) log a log' :
  m log = (Ok a, log') -> bind m k log = k a log'.
Proof. unfold bind. now intros ->. Qed.

Lemma bind_throw {C A B} (m : M C A) (k : A -> M C B) log e log' :
  m log = (Throw e, log') -> bind m k log = (Throw e, log').
Proof. unfold bind. now intros ->. Qed.

Lemma tryCatch_ok {C A} (body : M C A) (h : Thrown -> M C A) log a log' :
  body log = (Ok a, log') -> tryCatch body h log = (Ok a, log').
Proof. unfold tryCatch. now intros ->. Qed.

Lemma tryCatch_throw {C A} (body : M C A) (h : Thrown -> M C A) log e log' :
  body log = (Throw e, log') -> tryCatch body h log = h e log'.
Proof. unfold tryCatch. now intros ->. Qed.

(** A successful answer settles to its body. *)
Lemma settle_succeeded {T} (o : FetchOutcome T) (v : T) :
  Outcome.succeeded o = Some v -> Outcome.settle o = Ok v.
Proof.
  destruct o as [e | status statusText [w | e]]; simpl; try discriminate.
  destruct (ok status); [now intros [= ->] | discriminate].
Qed.

(** An answer that did not succeed settles to a thrown error. *)
Lemma settle_failed {T} (o : FetchOutcome T) :
  Outcome.succeeded o = None -> exists e, Outcome.settle o = Throw e.
Proof.
  destruct o as [e | status statusText [w | e]]; simpl; eauto.
  - destruct (ok status); [discriminate | eauto].
  - destruct (ok status); eauto.
Qed.

(** ** The forecast tool *)

Lemma getPointMetadata_ok (rt : Runtime) (up : Weather.Upstream) latitude longitude
    (log : list Weather.Request) (data : Weather.PointResponse) :
  Outcome.succeeded
    (Weather.fetchPoint up (Weather.request (Weather.pointsEndpoint rt latitude longitude)))
  = Some data ->
  Weather.getPointMetadata rt up latitude longitude log
  = (Ok (Weather.point_properties data),
     (log ++ [Weather.request (Weather.pointsEndpoint rt latitude longitude)])%list).
Proof.
  intros H. unfold Weather.getPointMetadata.
  erewrite bind_ok; [reflexivity |].
  now rewrite weatherApiRequest_settle, (settle_succeeded _ _ H).
Qed.

Lemma forecastBody_ok (rt : Runtime) (up : Weather.Upstream) (location : string)
    (days : Q) (log : list Weather.Request) (a b : string)
    (point : Weather.PointResponse) (data : Weather.ForecastResponse) :
  let coords := {| Weather.latitude := parseFloat rt a;
                   Weather.longitude := parseFloat rt b |} in
  let resolve :=
    Weather.request (Weather.pointsEndpoint rt (parseFloat rt a) (parseFloat rt b)) in
  let forecast :=
    Weather.request (Weather.gridpoint rt (Weather.point_properties point) +:+ "/forecast") in
  Weather.coordMatch location = Some (a, b) ->
  Outcome.succeeded (Weather.fetchPoint up resolve) = Some point ->
  Outcome.succeeded (Weather.fetchForecast up forecast) = Some data ->
  Weather.forecastBody rt up location days log
  = (Ok (textResult
           (Weather.forecastMarkdown rt days coords data
              (slice0 (Weather.periods data) (days * 2)%Q))),
     (log ++ [resolve; forecast])%list).
Proof.
  intros coords resolve forecast Hcoord Hpoint Hforecast.
  subst coords resolve forecast.
  unfold Weather.forecastBody.
  erewrite (bind_ok _ _ log _ log);
    [| unfold Weather.parseLocation; now rewrite Hcoord].
  rewrite (bind_ok _ _ _ _ _ (getPointMetadata_ok rt up _ _ log point Hpoint)).
  erewrite bind_ok;
    [| now rewrite weatherApiRequest_settle, (settle_succeeded _ _ Hforecast)].
  unfold ret. now rewrite <- app_assoc.
Qed.

(** The text of a period starts with its heading. *)
Lemma periodMarkdown_heading (rt : Runtime) (p : Weather.ForecastPeriod) :
  exists rest,
    Weather.periodMarkdown rt p
    = "## " +:+ Weather.period_name p +:+ newline +:+ rest.
Proof. unfold Weather.periodMarkdown. eexists. reflexivity. Qed.

(** C3: the forecast tool, called with location "40.7128,-74.0060" and
    days 1 on a runtime that prints the two parsed numbers as 40.7128 and
    -74.006, against a service that answers the point request for these
    coordinates with grid OKX 32,34 and the forecast request for that grid
    with two periods, issues exactly two requests, each with the two
    headers: first the one to
    https://api.weather.gov/points/40.7128,-74.006, then the one to
    https://api.weather.gov/gridpoints/OKX/32,34/forecast.  It returns a
    text that starts with the heading for one day and the location and
    holds the heading of either period, the first before the second. *)
Theorem forecast_resolves_then_fetches (rt : Runtime) (up : Weather.Upstream)
    (log : list Weather.Request) (meta : Weather.PointMetadata)
    (p1 p2 : Weather.ForecastPeriod) (updated : string)
    (status1 status2 : Z) (statusText1 statusText2 : string) :
  let sent (url : string) :=
    {| Weather.url := url;
       Weather.headers :=
         [("User-Agent", "us-weather-mcp-server/1.0.0 (contact@smithery.ai)");
          ("Accept", "application/json")] |} in
  let resolve := sent "https://api.weather.gov/points/40.7128,-74.006" in
  let forecast := sent "https://api.weather.gov/gridpoints/OKX/32,34/forecast" in
  let args : Args :=
    <["location" := JStr "40.7128,-74.0060"]> (<["days" := JNum 1]> ∅) in
  numToString rt (parseFloat rt "40.7128") = "40.7128" ->
  numToString rt (parseFloat rt "-74.0060") = "-74.006" ->
  Weather.gridId meta = "OKX" ->
  (Weather.gridX meta == 32)%Q ->
  (Weather.gridY meta == 34)%Q ->
  ok status1 = true ->
  ok status2 = true ->
  Weather.fetchPoint up resolve
    = FetchResponse status1 statusText1
        (BodyJson {| Weather.point_properties := meta |}) ->
  Weather.fetchForecast up forecast
    = FetchResponse status2 statusText2
        (BodyJson {| Weather.updateTime := updated; Weather.periods := [p1; p2] |}) ->
  exists text,
    Weather.get_weather_forecast rt up args log
    = (Ok (textResult text), (log ++ [resolve; forecast])%list)
    /\ String.prefix
         ("# 1-Day Weather Forecast" +:+ newline +:+ newline
          +:+ "**Location:** 40.7128, -74.006" +:+ newline) text = true
    /\ exists before between after,
         text = before +:+ "## " +:+ Weather.period_name p1 +:+ newline
                +:+ between +:+ "## " +:+ Weather.period_name p2 +:+ newline
                +:+ after.
Proof.
  intros sent resolve forecast args Hlat Hlng Hid Hx Hy Hok1 Hok2 Hpoint Hforecast.
  assert (Weather.request
            (Weather.pointsEndpoint rt (parseFloat rt "40.7128") (parseFloat rt "-74.0060"))
          = resolve) as Hresolve.
  { unfold Weather.request, Weather.pointsEndpoint, Weather.num.
    now rewrite Hlat, Hlng. }
  assert (Weather.gridpoint rt meta +:+ "/forecast"
          = "/gridpoints/OKX/32,34/forecast") as Hgrid.
  { unfold Weather.gridpoint, Weather.num.
    rewrite Hid, (numToString_integer rt _ 32 Hx), (numToString_integer rt _ 34 Hy)
      by reflexivity.
    reflexivity. }
  eexists. split; [| split].
  - unfold Weather.get_weather_forecast, Weather.guarded.
    apply tryCatch_ok.
    unfold Weather.get_weather_forecast_body.
    change (field args "location") with (JStr "40.7128,-74.0060").
    change (field args "days") with (JNum 1).
    etransitivity.
    + eapply (forecastBody_ok rt up _ _ log "40.7128" "-74.0060"
                {| Weather.point_properties := meta |}).
      * reflexivity.
      * rewrite Hresolve, Hpoint. simpl. now rewrite Hok1.
      * simpl Weather.point_properties. rewrite Hgrid.
        change (Weather.request "/gridpoints/OKX/32,34/forecast") with forecast.
        rewrite Hforecast. simpl. now rewrite Hok2.
    + simpl Weather.point_properties. rewrite Hgrid, Hresolve. reflexivity.
  - unfold Weather.forecastMarkdown.
    change (slice0 _ _) with [p1; p2]. cbn [fold_left].
    cbn [Weather.latitude Weather.longitude]. unfold Weather.num.
    rewrite Hlat, Hlng.
    cbn [asNumber Weather.updateTime].
    rewrite (numToString_integer rt 1 1) by reflexivity.
    do 3 apply prefix_app_l. reflexivity.
  - unfold Weather.forecastMarkdown.
    change (slice0 _ _) with [p1; p2]. cbn [fold_left].
    destruct (periodMarkdown_heading rt p1) as [rest1 ->].
    destruct (periodMarkdown_heading rt p2) as [rest2 ->].
    lazymatch goal with
    | |- context [?b +:+ "## " +:+ Weather.period_name p1 +:+ newline +:+ rest1] =>
        exists b, rest1, rest2
    end.
    now rewrite !append_assoc.
Qed.

(** ** The station lookup tool *)

Section Stations.
Context (rt : Runtime) (up : Weather.Upstream).

Lemma stationStep_run (markdown : string) (props : Weather.Station)
    (log : list Weather.Request) :
  Weather.stationStep rt up markdown props log
  = (Ok (markdown +:+ Outcome.stationBlock rt up props),
     (log ++ [Outcome.observationRequest props])%list).
Proof.
  unfold Weather.stationStep, Outcome.stationBlock, bind, tryCatch.
  rewrite weatherApiRequest_settle.
  fold (Outcome.observationRequest props).
  destruct (Outcome.settle _) as [obsData | e]; unfold ret.
  - destruct (Weather.obs_properties obsData);
      now rewrite ?append_assoc, ?append_nil_l.
  - now rewrite !append_assoc.
Qed.

Lemma forEach_stationStep (stations : list Weather.Station) (markdown : string)
    (log : list Weather.Request) :
  forEach stations (Weather.stationStep rt up) markdown log
  = (Ok (markdown +:+ Outcome.stationBlocks rt up stations),
     (log ++ map Outcome.observationRequest stations)%list).
Proof.
  revert markdown log. induction stations as [|props rest IH]; intros markdown log.
  - simpl. unfold ret. now rewrite append_nil_r, app_nil_r.
  - simpl. rewrite (bind_ok _ _ _ _ _ (stationStep_run markdown props log)).
    rewrite IH, append_assoc, <- app_assoc. reflexivity.
Qed.

Lemma stationBlocks_includes (stations : list Weather.Station) (props : Weather.Station) :
  In props stations ->
  includes (Outcome.stationBlock rt up props) (Outcome.stationBlocks rt up stations) = true.
Proof.
  induction stations as [|x rest IH]; [intros [] |].
  intros [-> | H]; cbn [Outcome.stationBlocks].
  - apply includes_here.
  - apply includes_app_r, IH, H.
Qed.

End Stations.

(** C7: when the station lookup tool has parsed the location and both the
    point request and the station-list request succeeded, a station whose
    latest-observation request fails does not fail the call: the tool
    returns its report, which starts with the report heading and holds,
    for that station, the placeholder line "Latest Report: Not available".
    One observation request is issued per station. *)
Theorem station_lookup_tolerates_missing_observation (rt : Runtime)
    (up : Weather.Upstream) (args : Args) (log : list Weather.Request)
    (a b : string) (point : Weather.PointResponse)
    (stations : list Weather.Station) (station : Weather.Station) :
  let location := asString (field args "location") in
  let limit := asNumber (field args "limit") in
  let resolve :=
    Weather.request (Weather.pointsEndpoint rt (parseFloat rt a) (parseFloat rt b)) in
  let nearby :=
    Weather.request (Weather.gridpoint rt (Weather.point_properties point)
                     +:+ "/stations?limit=" +:+ Weather.num rt limit) in
  Weather.coordMatch location = Some (a, b) ->
  Outcome.succeeded (Weather.fetchPoint up resolve) = Some point ->
  Outcome.succeeded (Weather.fetchStations up nearby)
    = Some {| Weather.station_features := Some stations |} ->
  In station stations ->
  Outcome.succeeded (Weather.fetchObservation up (Outcome.observationRequest station))
    = None ->
  exists text,
    Weather.find_weather_stations rt up args log
    = (Ok (textResult text),
       (log ++ [resolve; nearby] ++ map Outcome.observationRequest stations)%list)
    /\ String.prefix "# Weather Stations Near " text = true
    /\ includes
         (Weather.stationHeading rt station
          +:+ "**Latest Report:** Not available" +:+ newline
          +:+ newline +:+ "---" +:+ newline +:+ newline)
         text = true.
Proof.
  intros location limit resolve nearby Hcoord Hpoint Hstations Hin Hobs.
  subst location limit resolve nearby.
  eexists. split; [| split].
  - unfold Weather.find_weather_stations, Weather.guarded.
    apply tryCatch_ok.
    unfold Weather.find_weather_stations_body, Weather.stationsBody.
    erewrite (bind_ok _ _ log _ log);
      [| unfold Weather.parseLocation; now rewrite Hcoord].
    rewrite (bind_ok _ _ _ _ _ (getPointMetadata_ok rt up _ _ log point Hpoint)).
    erewrite bind_ok;
      [| now rewrite weatherApiRequest_settle, (settle_succeeded _ _ Hstations)].
    cbn [Weather.station_features default from_option id].
    unfold id.
    destruct stations as [|first rest]; [destruct Hin |]. cbv iota.
    rewrite (bind_ok _ _ _ _ _ (forEach_stationStep rt up _ _ _)).
    unfold ret. rewrite <- !app_assoc. reflexivity.
  - rewrite !append_assoc. apply prefix_append.
  - apply includes_app_r.
    destruct (settle_failed _ Hobs) as [e He].
    pose proof (stationBlocks_includes rt up stations station Hin) as Hblock.
    unfold Outcome.stationBlock in Hblock at 1. rewrite He in Hblock.
    exact Hblock.
Qed.

(** ** Reports built by appending *)

Lemma filter_none {A} (p : A -> bool) (xs : list A) :
  (forall x, In x xs -> p x = false) -> List.filter p xs = [].
Proof.
  induction xs as [|x xs IH]; [reflexivity |].
  intros H. simpl. rewrite (H x (or_introl eq_refl)).
  apply IH. intros y Hy. apply H. now right.
Qed.

Lemma fold_left_append_prefix {A} (f : A -> string) (xs : list A) (p init : string) :
  String.prefix p init = true ->
  String.prefix p (fold_left (fun acc x => acc +:+ f x) xs init) = true.
Proof.
  revert init. induction xs as [|x xs IH]; intros init H; [exact H |].
  cbn [fold_left]. apply IH. now apply prefix_app_l.
Qed.

Lemma fold_left_append_includes {A} (f : A -> string) (xs : list A) (init : string)
    (x : A) :
  In x xs ->
  includes (f x) (fold_left (fun acc x => acc +:+ f x) xs init) = true.
Proof.
  revert init. induction xs as [|y xs IH]; intros init; [intros [] |].
  cbn [fold_left]. intros [-> | Hin]; [| now apply IH].
  assert (forall ys acc, includes (f x) acc = true ->
            includes (f x) (fold_left (fun acc x => acc +:+ f x) ys acc) = true)
    as Hkeep.
  { induction ys as [|z ys IHys]; intros acc Hacc; [exact Hacc |].
    cbn [fold_left]. apply IHys. now apply includes_app_l. }
  apply Hkeep. apply includes_app_r.
  rewrite <- (append_nil_r (f x)) at 2. apply includes_here.
Qed.


Lemma includes_trans (a b c : string) :
  includes a b = true -> includes b c = true -> includes a c = true.
Proof.
  intros (p1 & q1 & ->)%includes_spec (p2 & q2 & ->)%includes_spec.
  apply includes_spec. exists (p2 +:+ p1), (q1 +:+ q2).
  now rewrite !append_assoc.
Qed.

Lemma alertsResult_textual (rt : Runtime) (location severity : string)
    (alertsData : Weather.AlertCollection) :
  exists s, Weather.alertsResult rt location severity alertsData = textResult s.
Proof.
  unfold Weather.alertsResult.
  destruct (if String.eqb severity "all" then _ else _); eauto.
Qed.

(** The two shapes of the alert report, by what the severity filter leaves. *)
Lemma alertsResult_nothing (rt : Runtime) (location severity : string)
    (alertsData : Weather.AlertCollection) :
  (if String.eqb severity "all" then default [] (Weather.alert_features alertsData)
   else List.filter (Weather.severityIs rt severity)
          (default [] (Weather.alert_features alertsData))) = [] ->
  Weather.alertsResult rt location severity alertsData
  = textResult ("# Weather Alerts" +:+ newline +:+ newline
                +:+ "No active weather alerts found for " +:+ location +:+ ".").
Proof. intros Hshown. unfold Weather.alertsResult. now rewrite Hshown. Qed.

Lemma alertsResult_lists (rt : Runtime) (location severity : string)
    (alertsData : Weather.AlertCollection)
    (first : Weather.Alert) (others : list Weather.Alert) :
  (if String.eqb severity "all" then default [] (Weather.alert_features alertsData)
   else List.filter (Weather.severityIs rt severity)
          (default [] (Weather.alert_features alertsData))) = first :: others ->
  exists text,
    Weather.alertsResult rt location severity alertsData = textResult text
    /\ String.prefix
         ("# Weather Alerts for " +:+ location +:+ newline +:+ newline
          +:+ "Found " +:+ pretty (S (length others)) +:+ " active alert(s)")
         text = true
    /\ forall alert, In alert (first :: others) ->
         includes ("## " +:+ Weather.event alert) text = true.
Proof.
  intros Hshown. unfold Weather.alertsResult. rewrite Hshown. cbv iota.
  eexists. split; [reflexivity |]. split.
  - apply fold_left_append_prefix.
    match goal with
    | |- String.prefix ?p ?t = true =>
        replace t with (p +:+ newline +:+ newline) by now rewrite !append_assoc
    end.
    apply prefix_append.
  - intros alert Hin.
    apply (includes_trans _ (Weather.alertMarkdown rt alert)).
    + unfold Weather.alertMarkdown. rewrite <- append_assoc. apply includes_here.
    + now apply (fold_left_append_includes (Weather.alertMarkdown rt)).
Qed.

(** ** The alerts tool *)

(** The inner [catch] of the alerts tool turns a location that cannot be
    parsed into the nationwide listing. *)
Lemma alerts_fallback (rt : Runtime) (up : Weather.Upstream)
    (location severity : string) (log : list Weather.Request) :
  Weather.isStateCode location = false ->
  Weather.coordMatch location = None ->
  Weather.guarded (Weather.alertsBody rt up location severity) log
  = (Ok match Outcome.settle (Weather.fetchAlerts up (Weather.request "/alerts/active")) with
        | Ok alertsData => Weather.alertsResult rt location severity alertsData
        | Throw e => Weather.errorResult e
        end,
     (log ++ [Weather.request "/alerts/active"])%list).
Proof.
  intros Hstate Hcoord.
  unfold Weather.guarded, Weather.alertsBody.
  assert (Weather.chooseAlertsEndpoint rt location log = (Ok "/alerts/active", log))
    as Hendpoint.
  { unfold Weather.chooseAlertsEndpoint. rewrite Hstate.
    erewrite tryCatch_throw; [reflexivity |].
    apply bind_throw. unfold Weather.parseLocation. now rewrite Hcoord. }
  destruct (Outcome.settle (Weather.fetchAlerts up (Weather.request "/alerts/active")))
    as [alertsData | e] eqn:Hsettle.
  - apply tryCatch_ok.
    rewrite (bind_ok _ _ _ _ _ Hendpoint).
    erewrite bind_ok; [reflexivity |].
    now rewrite weatherApiRequest_settle, Hsettle.
  - erewrite tryCatch_throw; [reflexivity |].
    rewrite (bind_ok _ _ _ _ _ Hendpoint).
    apply bind_throw.
    now rewrite weatherApiRequest_settle, Hsettle.
Qed.

(** C9: for a location that is neither a two-letter upper-case state code
    nor a coordinate pair, the alerts tool swallows the parsing error and
    issues exactly one request, the GET of
    https://api.weather.gov/alerts/active with the two headers, and
    returns one text block, never a failure.  When that request is
    answered with a 2xx status and a decodable body, the text is the
    report on the alerts the severity filter leaves: "No active weather
    alerts found for" the location when it leaves none, else the heading
    for the location, the number of alerts left and the event heading of
    each of them.  When it is answered 404 the text is "Error: Location
    not found or no data available"; when the request is rejected with an
    error the text is "Error: " and the message of the error, or the
    cannot-connect message if that message mentions fetch. *)
Theorem alerts_fall_back_to_nationwide (rt : Runtime) (up : Weather.Upstream)
    (args : Args) (log : list Weather.Request) :
  let location := asString (field args "location") in
  let severity := asString (field args "severity") in
  let nationwide : Weather.Request :=
    {| Weather.url := "https://api.weather.gov/alerts/active";
       Weather.headers :=
         [("User-Agent", "us-weather-mcp-server/1.0.0 (contact@smithery.ai)");
          ("Accept", "application/json")] |} in
  let shown (alertsData : Weather.AlertCollection) : list Weather.Alert :=
    let alerts := default [] (Weather.alert_features alertsData) in
    if String.eqb severity "all" then alerts
    else List.filter
           (fun alert =>
              match Weather.severity alert with
              | Some given => String.eqb (toLowerCase rt given) severity
              | None => false
              end) alerts in
  Weather.isStateCode location = false ->
  Weather.coordMatch location = None ->
  exists text,
    Weather.get_weather_alerts rt up args log
    = (Ok (textResult text), (log ++ [nationwide])%list)
    /\ (forall status statusText alertsData,
          Weather.fetchAlerts up nationwide
          = FetchResponse status statusText (BodyJson alertsData) ->
          ok status = true ->
          (shown alertsData = [] ->
           text = "# Weather Alerts" +:+ newline +:+ newline
                  +:+ "No active weather alerts found for " +:+ location +:+ ".")
          /\ forall first others,
               shown alertsData = first :: others ->
               String.prefix
                 ("# Weather Alerts for " +:+ location +:+ newline +:+ newline
                  +:+ "Found " +:+ pretty (S (length others)) +:+ " active alert(s)")
                 text = true
               /\ forall alert, In alert (first :: others) ->
                    includes ("## " +:+ Weather.event alert) text = true)
    /\ (forall statusText body,
          Weather.fetchAlerts up nationwide = FetchResponse 404 statusText body ->
          text = "Error: Location not found or no data available")
    /\ (forall message,
          Weather.fetchAlerts up nationwide = FetchRejected (JsError message) ->
          text = "Error: "
                 +:+ (if includes "fetch" message
                      then "Unable to connect to weather service. Please check your internet connection."
                      else message)).
Proof.
  intros location severity nationwide shown Hstate Hcoord.
  unfold Weather.get_weather_alerts, Weather.get_weather_alerts_body.
  fold location severity.
  rewrite (alerts_fallback rt up location severity log Hstate Hcoord).
  change (Weather.request "/alerts/active") with nationwide.
  destruct (Outcome.settle (Weather.fetchAlerts up nationwide))
    as [received | e] eqn:Hsettle.
  - destruct (alertsResult_textual rt location severity received) as [text Htext].
    exists text. rewrite Htext. split; [reflexivity |].
    split; [| split].
    + intros status statusText alertsData Hfetch Hok.
      rewrite Hfetch in Hsettle. simpl in Hsettle. rewrite Hok in Hsettle.
      injection Hsettle as <-. split.
      * intros Hshown.
        rewrite (alertsResult_nothing rt location severity alertsData Hshown) in Htext.
        now injection Htext.
      * intros first others Hshown.
        destruct (alertsResult_lists rt location severity alertsData first others Hshown)
          as [text' [Htext' Hreport]].
        rewrite Htext' in Htext. injection Htext as ->. exact Hreport.
    + intros statusText body Hfetch.
      rewrite Hfetch in Hsettle. discriminate Hsettle.
    + intros message Hfetch.
      rewrite Hfetch in Hsettle. discriminate Hsettle.
  - exists ("Error: " +:+ Weather.errorMessage e). split; [reflexivity |].
    split; [| split].
    + intros status statusText alertsData Hfetch Hok.
      rewrite Hfetch in Hsettle. simpl in Hsettle. rewrite Hok in Hsettle.
      discriminate Hsettle.
    + intros statusText body Hfetch.
      rewrite Hfetch in Hsettle. injection Hsettle as <-. reflexivity.
    + intros message Hfetch.
      rewrite Hfetch in Hsettle. injection Hsettle as <-.
      simpl. now destruct (includes "fetch" message).
Qed.

(** Through the registry: a raw input that holds nothing but such a
    location passes validation, takes the default severity and ends in the
    same single request. *)
Lemma alerts_invocation_falls_back (rt : Runtime) (up : Weather.Upstream)
    (location : string) (log : list Weather.Request) :
  Weather.isStateCode location = false ->
  Weather.coordMatch location = None ->
  Envelope.invoke (Weather.tools rt up) "get_weather_alerts"
    {[ "location" := JStr location ]} log
  = (Ok match Outcome.settle (Weather.fetchAlerts up (Weather.request "/alerts/active")) with
        | Ok alertsData => Weather.alertsResult rt location "all" alertsData
        | Throw e => Weather.errorResult e
        end,
     (log ++ [Weather.request "/alerts/active"])%list).
Proof.
  intros Hstate Hcoord.
  change (Envelope.invoke (Weather.tools rt up) "get_weather_alerts"
            {[ "location" := JStr location ]})
    with (tryCatch (Weather.guarded (Weather.alertsBody rt up location "all"))
            (fun e => ret (Envelope.failure (Envelope.raisedMessage e)))).
  apply tryCatch_ok.
  exact (alerts_fallback rt up location "all" log Hstate Hcoord).
Qed.


(** ** The pull-request stubs *)

(** C10: update_pull_request_branch and get_pull_request_comments are
    registered with the pull-request tools; for every argument record
    their callbacks issue no upstream call and return the single text
    block "Not implemented yet". *)
Theorem pull_request_stubs (rt : Runtime) (octokit : GitHub.Call -> GitHub.Reply) :
  In GitHub.update_pull_request_branch_tool (GitHub.pullRequestTools rt octokit)
  /\ In GitHub.get_pull_request_comments_tool (GitHub.pullRequestTools rt octokit)
  /\ forall (args : Args) (log : list GitHub.Call),
       handler GitHub.update_pull_request_branch_tool args log
         = (Ok (textResult "Not implemented yet"), log)
       /\ handler GitHub.get_pull_request_comments_tool args log
         = (Ok (textResult "Not implemented yet"), log).
Proof.
  split; [| split].
  - unfold GitHub.pullRequestTools. apply in_or_app. right. now left.
  - unfold GitHub.pullRequestTools. apply in_or_app. right. right. now left.
  - intros args log. split; reflexivity.
Qed.

(** ** Every tried body returns a single text block *)

Lemma textual_ret {C} (s : string) : Outcome.textual (C := C) (ret (textResult s)).
Proof. intros log r log' [= <- _]. now exists s. Qed.

Lemma textual_throw {C} (e : Thrown) : Outcome.textual (C := C) (throw e).
Proof. intros log r log' [=]. Qed.

Lemma textual_bind {C A} (m : M C A) (k : A -> M C CallToolResult) :
  (forall a, Outcome.textual (k a)) -> Outcome.textual (bind m k).
Proof.
  intros Hk log r log'. unfold bind.
  destruct (m log) as [[a | e] log1]; [apply Hk | discriminate].
Qed.

Ltac textual :=
  repeat first
    [ apply textual_ret
    | apply textual_throw
    | apply textual_bind; intros
    | match goal with
      | |- Outcome.textual (match ?x with _ => _ end) => destruct x
      end ].

Lemma weather_bodies_textual (rt : Runtime) (up : Weather.Upstream) t body :
  In (t, body) (Weather.triedTools rt up) ->
  (forall args, handler t args = Weather.guarded (body args))
  /\ forall args, Outcome.textual (body args).
Proof.
  unfold Weather.triedTools.
  intros [[= <- <-] | [[= <- <-] | [[= <- <-] | [[= <- <-] | [[= <- <-] | []]]]]];
    (split; [reflexivity | intros args]).
  - unfold Weather.get_current_weather_body, Weather.currentWeatherBody. textual.
  - unfold Weather.get_weather_forecast_body, Weather.forecastBody. textual.
  - unfold Weather.get_hourly_forecast_body, Weather.hourlyBody. textual.
  - unfold Weather.get_weather_alerts_body, Weather.alertsBody.
    apply textual_bind; intros alertsEndpoint.
    apply textual_bind; intros alertsData.
    destruct (alertsResult_textual rt (asString (field args "location"))
                (asString (field args "severity")) alertsData) as [s ->].
    apply textual_ret.
  - unfold Weather.find_weather_stations_body, Weather.stationsBody. textual.
Qed.

Lemma forward_textual (rt : Runtime) (octokit : GitHub.Call -> GitHub.Reply)
    (method : string) (parameters : list (string * Value)) :
  Outcome.textual (GitHub.forward rt octokit method parameters).
Proof. unfold GitHub.forward, GitHub.jsonResult. textual. Qed.

Lemma github_bodies_textual (rt : Runtime) (octokit : GitHub.Call -> GitHub.Reply)
    t body :
  In (t, body) (GitHub.triedTools rt octokit) ->
  (forall args, handler t args = GitHub.guarded (body args))
  /\ forall args, Outcome.textual (body args).
Proof.
  unfold GitHub.triedTools, GitHub.searchTools, GitHub.issueTools,
    GitHub.repositoryTools, GitHub.pullRequestTried.
  cbn [map app].
  intros H.
  repeat (destruct H as [[= <- <-] | H];
          [split; [reflexivity | intros args; try apply forward_textual] |]);
    [.. | destruct H].
  - unfold GitHub.get_repository_body. textual.
  - unfold GitHub.get_file_contents_body. textual.
  - unfold GitHub.get_repository_tree_body. textual; apply forward_textual.
  - unfold GitHub.create_branch_body. textual; apply forward_textual.
  - unfold GitHub.get_tag_body. textual; apply forward_textual.
  - unfold GitHub.push_files_body. textual; apply forward_textual.
  - unfold GitHub.get_pull_request_status_body, GitHub.jsonResult. textual.
Qed.

(** A [try] around a textual body always returns a single text block, the
    failure block when the body throws. *)
Lemma guarded_uniform {C} (body : M C CallToolResult)
    (onError : Thrown -> CallToolResult) (log : list C) :
  Outcome.textual body ->
  (forall e, exists s, onError e = textResult s) ->
  (exists s log',
      tryCatch body (fun e => ret (onError e)) log = (Ok (textResult s), log'))
  /\ forall e log',
      body log = (Throw e, log') ->
      tryCatch body (fun e => ret (onError e)) log = (Ok (onError e), log').
Proof.
  intros Hbody Herror. unfold tryCatch.
  destruct (body log) as [[r | e] log1] eqn:Hrun.
  - destruct (Hbody _ _ _ Hrun) as [s ->]. split; [eauto | discriminate].
  - split.
    + destruct (Herror e) as [s Hs]. exists s, log1. unfold ret. now rewrite Hs.
    + now intros e' log' [= <- <-].
Qed.

(** The [catch] of the hosting adapter reads the message of what was
    thrown; reading it off [undefined] or [null] throws in its turn. *)
Lemma errorResult_run (e : Thrown) (log : list GitHub.Call) :
  GitHub.errorResult e log
  = (match e with
     | JsError message | JsOther (Some message) =>
         Ok (textResult ("Error: " +:+ message))
     | JsOther None => Ok (textResult "Error: undefined")
     | JsNullish null =>
         Throw (JsError ("Cannot read properties of "
                         +:+ (if null then "null" else "undefined")
                         +:+ " (reading 'message')"))
     end, log).
Proof. now destruct e as [message | [message |] | [|]]. Qed.

(** C1 (as amended): the tools of the weather adapter are the five named
    below and those of the hosting adapter whose callback is a [try] are
    the thirty named below (all but the two stubs).  A weather tool always
    returns a single text block; when the body of its [try] throws, the
    block holds "Error: " followed by the message of the error, or by
    "Unknown error" when what was thrown is no error.  A hosting tool
    returns the text block of its body when the body returns; when the
    body throws a value other than undefined and null, it returns the
    block "Error: " followed by the message property of the value
    ("undefined" when the value has none); when the body throws undefined
    or null, the [catch] itself fails with the type error of reading
    their message.  The calls logged so far are kept throughout. *)
Theorem tried_tools_fail_uniformly (rt : Runtime) :
  (forall up,
     map (fun tried => name (fst tried)) (Weather.triedTools rt up)
     = ["get_current_weather"; "get_weather_forecast"; "get_hourly_forecast";
        "get_weather_alerts"; "find_weather_stations"])
  /\ (forall up t body, In (t, body) (Weather.triedTools rt up) ->
       forall (args : Args) (log : list Weather.Request),
         (exists s log', handler t args log = (Ok (textResult s), log'))
         /\ forall e log',
              body args log = (Throw e, log') ->
              handler t args log
              = (Ok (textResult
                       ("Error: "
                        +:+ match e with
                            | JsError message => message
                            | JsOther _ | JsNullish _ => "Unknown error"
                            end)), log'))
  /\ (forall octokit,
       map (fun tried => name (fst tried)) (GitHub.triedTools rt octokit)
       = ["search_repositories"; "search_code"; "search_users"; "get_issue";
          "add_issue_comment"; "search_issues"; "create_issue";
          "list_issues"; "update_issue"; "get_issue_comments";
          "get_repository"; "get_commit"; "list_commits"; "list_branches";
          "create_or_update_file"; "create_repository"; "get_file_contents";
          "get_repository_tree"; "fork_repository"; "create_branch";
          "list_tags"; "get_tag"; "push_files"; "get_pull_request";
          "update_pull_request"; "list_pull_requests"; "merge_pull_request";
          "get_pull_request_files"; "get_pull_request_status";
          "create_pull_request"])
  /\ (forall octokit t body,
        In (t, body) (GitHub.triedTools rt octokit) ->
        forall (args : Args) (log : list GitHub.Call),
          (forall r log',
             body args log = (Ok r, log') ->
             handler t args log = (Ok r, log')
             /\ exists s, r = textResult s)
          /\ forall e log',
               body args log = (Throw e, log') ->
               handler t args log
               = (match e with
                  | JsError message | JsOther (Some message) =>
                      Ok (textResult ("Error: " +:+ message))
                  | JsOther None => Ok (textResult "Error: undefined")
                  | JsNullish null =>
                      Throw (JsError ("Cannot read properties of "
                                      +:+ (if null then "null" else "undefined")
                                      +:+ " (reading 'message')"))
                  end, log')).
Proof.
  split; [reflexivity |]. split; [| split; [reflexivity |]].
  - intros up t body Hin args log.
    destruct (weather_bodies_textual rt up t body Hin) as [Hhandler Htext].
    rewrite Hhandler. unfold Weather.guarded.
    destruct (guarded_uniform (body args) Weather.errorResult log (Htext args))
      as [Hblock Hcaught].
    { intros e. eexists. reflexivity. }
    split; [exact Hblock |].
    intros e log' Hrun. rewrite (Hcaught e log' Hrun).
    now destruct e as [message | other | null].
  - intros octokit t body Hin args log.
    destruct (github_bodies_textual rt octokit t body Hin) as [Hhandler Htext].
    rewrite Hhandler. unfold GitHub.guarded. split.
    + intros r log' Hrun. split; [now apply tryCatch_ok |].
      exact (Htext args log r log' Hrun).
    + intros e log' Hrun.
      rewrite (tryCatch_throw _ _ log e log' Hrun).
      apply errorResult_run.
Qed.

(** C1 (as stated) fails for the mapping adapter, whose callbacks have no
    [try]: when the service answers a geocoding request with status
    ZERO_RESULTS, the failure raised by the helper leaves the callback of
    maps_geocode as a thrown error, not as a returned text block. *)
Lemma maps_geocode_failure_propagates :
  let args : Args := {[ "address" := JStr "nowhere" ]} in
  let sent : Maps.Request :=
    {| Maps.base := "https://maps.googleapis.com/maps/api/geocode/json";
       Maps.searchParams := [("address", "nowhere"); ("key", "KEY")] |} in
  (exists t, In t (Maps.tools Sample.runtime "KEY" Sample.maps)
             /\ name t = "maps_geocode"
             /\ handler t args [] = (Throw (JsError "Geocoding failed: ZERO_RESULTS"), [sent]))
  /\ forall s log',
       Maps.maps_geocode Sample.runtime "KEY" Sample.maps args []
       <> (Ok (textResult s), log').
Proof.
  intros args sent. split.
  - eexists. split; [left; reflexivity |]. split; reflexivity.
  - intros s log'. vm_compute. discriminate.
Qed.

(** ** The registry *)

Section RegistryFacts.
Context {C : Type}.
Implicit Types (registry : Envelope.Registry C) (t : ToolDefinition C).

Lemma lookup_none registry toolName :
  Envelope.lookup toolName registry = None <-> ~ In toolName (map name registry).
Proof.
  unfold Envelope.lookup. induction registry as [|t registry IH]; simpl.
  - tauto.
  - destruct (String.eqb_spec (name t) toolName) as [-> | Hne].
    + split; [discriminate | intros H; elim H; now left].
    + rewrite IH. tauto.
Qed.

Lemma lookup_app_new registry t :
  Envelope.lookup (name t) registry = None ->
  Envelope.lookup (name t) (registry ++ [t])%list = Some t.
Proof.
  unfold Envelope.lookup. induction registry as [|t' registry IH]; simpl.
  - now rewrite String.eqb_refl.
  - destruct (String.eqb (name t') (name t)); [discriminate | exact IH].
Qed.

Lemma same_name_none registry toolName :
  Envelope.lookup toolName registry = None ->
  List.filter (fun t => String.eqb (name t) toolName) registry = [].
Proof.
  unfold Envelope.lookup. induction registry as [|t registry IH]; simpl; [reflexivity |].
  destruct (String.eqb (name t) toolName); [discriminate | exact IH].
Qed.

(** Every reachable registry has pairwise distinct names. *)
Lemma reachable_nodup registry :
  Envelope.Reachable registry -> NoDup (map name registry).
Proof.
  induction 1 as [|t registry _ IH]; [constructor |].
  unfold Envelope.register.
  destruct (Envelope.lookup (name t) registry) eqn:Hlookup; simpl; [exact IH |].
  rewrite map_app. simpl.
  apply NoDup_app. split; [exact IH | split].
  - intros x Hx Hx'. apply list_elem_of_In in Hx. apply list_elem_of_In in Hx'.
    destruct Hx' as [<- | []]. now apply lookup_none in Hlookup.
  - apply NoDup_singleton.
Qed.

(** C5: registering a second definition under a name that a call of
    [register] has just been given fails with [DuplicateToolError] and
    leaves the registry as it was; if the first call succeeded, the
    registry holds exactly the first definition under that name.  No
    reachable registry holds two definitions with the same name. *)
Theorem register_twice_fails :
  (forall registry t1 t2,
      name t2 = name t1 ->
      let registry1 := snd (Envelope.register t1 registry) in
      Envelope.register t2 registry1
        = (Some (Envelope.DuplicateToolError (name t1)), registry1)
      /\ (fst (Envelope.register t1 registry) = None ->
          Envelope.lookup (name t1) registry1 = Some t1
          /\ List.filter (fun t => String.eqb (name t) (name t1)) registry1 = [t1]))
  /\ (forall registry,
        Envelope.Reachable registry -> NoDup (map name registry)).
Proof.
  split; [| exact reachable_nodup].
  intros registry t1 t2 Hname registry1. subst registry1.
  unfold Envelope.register at 2 3 4 5 6.
  destruct (Envelope.lookup (name t1) registry) as [t0 |] eqn:Hlookup; simpl.
  - split; [| discriminate].
    unfold Envelope.register. now rewrite Hname, Hlookup.
  - pose proof (lookup_app_new registry t1 Hlookup) as Hnew.
    split; [| intros _; split; [exact Hnew |]].
    + unfold Envelope.register. now rewrite Hname, Hnew.
    + rewrite List.filter_app, (same_name_none _ _ Hlookup). simpl.
      now rewrite String.eqb_refl.
Qed.

End RegistryFacts.

(** The registrations of the hosting server never collide: the names of
    its four tool groups are pairwise distinct, and construction registers
    them all. *)
Lemma github_names_distinct (rt : Runtime) (octokit : GitHub.Call -> GitHub.Reply) :
  NoDup (map name (GitHub.tools rt octokit)).
Proof. refine (bool_decide_unpack _ _). vm_compute. exact I. Qed.

Lemma github_registration_succeeds (rt : Runtime) (octokit : GitHub.Call -> GitHub.Reply) :
  Envelope.registerAll (GitHub.tools rt octokit) [] = (None, GitHub.tools rt octokit).
Proof. reflexivity. Qed.

Lemma weather_registration_succeeds (rt : Runtime) (up : Weather.Upstream) :
  Envelope.registerAll (Weather.tools rt up) [] = (None, Weather.tools rt up).
Proof. reflexivity. Qed.

Lemma maps_registration_succeeds (rt : Runtime) (key : string) (up : Maps.Upstream) :
  Envelope.registerAll (Maps.tools rt key up) [] = (None, Maps.tools rt key up).
Proof. reflexivity. Qed.

(** ** Validation *)

(** Validation reads the raw input at the declared parameters only. *)
Lemma validate_declared_only (shape : list (string * Schema)) (raw raw' : Args) :
  (forall k, In k (map fst shape) -> raw !! k = raw' !! k) ->
  Envelope.validate shape raw = Envelope.validate shape raw'.
Proof.
  induction shape as [|[k s] shape IH]; intros Hsame; [reflexivity |].
  simpl. unfold field. rewrite (Hsame k) by now left.
  rewrite IH by (intros k' Hk'; apply Hsame; now right).
  reflexivity.
Qed.

(** A declared parameter that fails its check makes validation fail, and
    the failure names a declared parameter and the expectation it missed. *)
Lemma validate_fails (shape : list (string * Schema)) (raw : Args)
    (k : string) (s : Schema) (e : string) :
  In (k, s) shape ->
  Envelope.check s (field raw k) = inl e ->
  exists err,
    Envelope.validate shape raw = inl err
    /\ exists s',
         In (Envelope.parameter err, s') shape
         /\ Envelope.check s' (field raw (Envelope.parameter err))
            = inl (Envelope.expectation err).
Proof.
  induction shape as [|[k' s'] shape IH]; intros Hin Hcheck; [destruct Hin |].
  simpl.
  destruct (Envelope.check s' (field raw k')) as [e' | v] eqn:Hfirst.
  - eexists. split; [reflexivity |]. exists s'. split; [now left | exact Hfirst].
  - destruct Hin as [[= -> ->] | Hin]; [congruence |].
    destruct (IH Hin Hcheck) as (err & -> & s'' & Hin' & Hcheck').
    exists err. split; [reflexivity |]. exists s''. split; [now right | exact Hcheck'].
Qed.

(** The validated record has no parameter that was not declared. *)
Lemma validate_undeclared (shape : list (string * Schema)) (raw args : Args)
    (k : string) :
  Envelope.validate shape raw = inr args ->
  ~ In k (map fst shape) -> args !! k = None.
Proof.
  revert args. induction shape as [|[k' s'] shape IH]; intros args; simpl.
  - intros [= <-] _. apply lookup_empty.
  - destruct (Envelope.check s' (field raw k')) as [e' | v]; [discriminate |].
    destruct (Envelope.validate shape raw) as [err | args']; [discriminate |].
    intros Hargs Hk.
    assert (args' !! k = None) as Hrest by (apply IH; [reflexivity | tauto]).
    destruct v; injection Hargs as <-; try exact Hrest;
      rewrite lookup_insert_ne; auto.
Qed.

(** The validated record holds, at each declared parameter, what the check
    of that parameter handed on. *)
Lemma validate_field (shape : list (string * Schema)) (raw args : Args)
    (k : string) (s : Schema) :
  NoDup (map fst shape) ->
  In (k, s) shape ->
  Envelope.validate shape raw = inr args ->
  Envelope.check s (field raw k) = inr (field args k).
Proof.
  revert args. induction shape as [|[k' s'] shape IH]; intros args Hnodup Hin;
    [destruct Hin |].
  simpl in *. apply NoDup_cons in Hnodup as [Hfresh Hnodup].
  destruct (Envelope.check s' (field raw k')) as [e' | v] eqn:Hfirst; [discriminate |].
  destruct (Envelope.validate shape raw) as [err | args'] eqn:Hrest; [discriminate |].
  intros Hargs.
  destruct Hin as [[= -> ->] | Hin].
  - rewrite Hfirst. f_equal.
    assert (args' !! k = None) as Hnone.
    { apply (validate_undeclared shape raw); [exact Hrest |].
      intros H. apply Hfresh. now apply list_elem_of_In. }
    unfold field.
    destruct v; injection Hargs as <-;
      rewrite ?lookup_insert_eq, ?Hnone; reflexivity.
  - assert (k <> k') as Hne.
    { intros ->. apply Hfresh. apply list_elem_of_In.
      change k' with (fst (k', s)). now apply in_map. }
    rewrite (IH args' Hnodup Hin eq_refl). f_equal. unfold field.
    destruct v; injection Hargs as <-; try reflexivity;
      now rewrite lookup_insert_ne by auto.
Qed.

(** The three kinds of validation failure. *)
Lemma check_required_missing (s : Schema) :
  (forall inner, s <> ZOptional inner) ->
  (forall inner d, s <> ZDefault inner d) ->
  Envelope.check s JUndefined = inl "required".
Proof.
  intros Hopt Hdef. destruct s; try reflexivity.
  - now elim (Hopt s).
  - now elim (Hdef s value).
Qed.

Lemma check_enum_outside (values : list string) (x : string) :
  ~ In x values ->
  Envelope.check (ZEnum values) (JStr x)
  = inl ("expected one of " +:+ join " | " values).
Proof.
  intros Hout. simpl.
  destruct (existsb (String.eqb x) values) eqn:Hex; [| reflexivity].
  apply existsb_exists in Hex as (y & Hy & ->%String.eqb_eq). contradiction.
Qed.

Lemma check_type_mismatch :
  (forall v, (forall x, v <> JStr x) -> exists e, Envelope.check ZString v = inl e)
  /\ (forall v, (forall q, v <> JNum q) -> exists e, Envelope.check ZNumber v = inl e)
  /\ (forall v, (forall b, v <> JBool b) -> exists e, Envelope.check ZBoolean v = inl e).
Proof.
  repeat split; intros v Hv; destruct v; simpl; eauto; exfalso; eapply Hv; reflexivity.
Qed.

Section EnvelopeFacts.
Context {C : Type}.
Implicit Types (registry : Envelope.Registry C) (t : ToolDefinition C).

(** C2: when a declared parameter of a registered tool fails its check
    (required but missing, of the wrong type, or outside the declared
    enum), invoking the tool returns the failure block, whose message
    names a declared parameter; the log of upstream calls is unchanged and
    the result is the same whatever the handler is, so the handler is not
    run. *)
Theorem invalid_input_is_rejected registry toolName t (rawInput : Args)
    (k : string) (s : Schema) (e : string) (log : list C) :
  Envelope.lookup toolName registry = Some t ->
  In (k, s) (inputSchema t) ->
  Envelope.check s (field rawInput k) = inl e ->
  exists err,
    In (Envelope.parameter err) (map fst (inputSchema t))
    /\ Envelope.invoke registry toolName rawInput log
       = (Ok (textResult ("Error: " +:+ Envelope.errorMessage err)), log)
    /\ forall h,
         Envelope.envelope (Envelope.withHandler t h) rawInput log
         = Envelope.invoke registry toolName rawInput log.
Proof.
  intros Hlookup Hin Hcheck.
  destruct (validate_fails _ _ _ _ _ Hin Hcheck) as (err & Hval & s' & Hin' & _).
  exists err. unfold Envelope.invoke, Envelope.envelope. rewrite Hlookup. simpl.
  rewrite Hval. repeat split.
  change (Envelope.parameter err) with (fst (Envelope.parameter err, s')).
  now apply in_map.
Qed.

(** C6: when a registered tool declares a parameter with a default and
    the raw input omits it, the record that validation hands to the
    handler holds the declared default at that parameter, and the
    invocation is the handler run on that record inside the catch of the
    envelope: what the handler returns is returned with the calls it
    made, and what it throws comes back as the failure block "Error: "
    with the message of what was thrown (a placeholder when there is
    none).  The same holds with any other handler in the place of the
    registered one. *)
Theorem default_is_substituted registry toolName t (rawInput args : Args)
    (k : string) (inner : Schema) (d : Value) :
  let observed (run : M C CallToolResult) (h : Args -> M C CallToolResult) :=
    forall log,
      match h args log with
      | (Ok r, log') => run log = (Ok r, log')
      | (Throw (JsError message), log') | (Throw (JsOther (Some message)), log') =>
          run log = (Ok (textResult ("Error: " +:+ message)), log')
      | (Throw _, log') =>
          exists placeholder,
            run log = (Ok (textResult ("Error: " +:+ placeholder)), log')
      end in
  Envelope.lookup toolName registry = Some t ->
  NoDup (map fst (inputSchema t)) ->
  In (k, ZDefault inner d) (inputSchema t) ->
  rawInput !! k = None ->
  Envelope.validate (inputSchema t) rawInput = inr args ->
  field args k = d
  /\ observed (Envelope.invoke registry toolName rawInput) (handler t)
  /\ forall h, observed (Envelope.envelope (Envelope.withHandler t h) rawInput) h.
Proof.
  intros observed Hlookup Hnodup Hin Habsent Hval.
  assert (forall h, observed (Envelope.envelope (Envelope.withHandler t h) rawInput) h)
    as Hany.
  { intros h log. unfold Envelope.envelope, Envelope.withHandler.
    cbn [inputSchema handler]. rewrite Hval. unfold tryCatch, ret.
    destruct (h args log) as [[r | [message | [message |] | null]] log'];
      eauto. }
  split; [| split; [| exact Hany]].
  - pose proof (validate_field _ _ _ _ _ Hnodup Hin Hval) as Hcheck.
    unfold field at 1 in Hcheck. rewrite Habsent in Hcheck. simpl in Hcheck.
    now injection Hcheck as <-.
  - intros log. specialize (Hany (handler t) log).
    unfold Envelope.invoke. rewrite Hlookup.
    unfold Envelope.envelope, Envelope.withHandler in *.
    cbn [inputSchema handler] in Hany. exact Hany.
Qed.

(** C8: invoking a registered tool with an extra parameter that its
    schema does not declare is the same computation as invoking it without
    that parameter. *)
Theorem undeclared_parameter_is_ignored registry toolName t (rawInput : Args)
    (k : string) (v : Value) :
  Envelope.lookup toolName registry = Some t ->
  ~ In k (map fst (inputSchema t)) ->
  Envelope.invoke registry toolName (<[k := v]> rawInput)
  = Envelope.invoke registry toolName rawInput.
Proof.
  intros Hlookup Hundeclared.
  unfold Envelope.invoke, Envelope.envelope. rewrite Hlookup.
  rewrite (validate_declared_only _ (<[k := v]> rawInput) rawInput); [reflexivity |].
  intros k' Hk'. apply lookup_insert_ne. now intros ->.
Qed.

End EnvelopeFacts.

(** The callback of the repository search reads the three parameters it
    destructures and no other: a further field of the record it is given
    changes nothing. *)
Lemma search_repositories_reads_declared_only (rt : Runtime)
    (octokit : GitHub.Call -> GitHub.Reply) (args : Args) (k : string) (v : Value) :
  ~ In k ["query"; "per_page"; "page"] ->
  handler (GitHub.search_repositories_tool rt octokit) (<[k := v]> args)
  = handler (GitHub.search_repositories_tool rt octokit) args.
Proof.
  intros Hk.
  assert (forall x, In x ["query"; "per_page"; "page"] ->
                    field (<[k := v]> args) x = field args x) as Hfield.
  { intros x Hx. unfold field. rewrite lookup_insert_ne; [reflexivity |].
    now intros ->. }
  unfold GitHub.search_repositories_tool, GitHub.tried, handler,
    GitHub.search_repositories_body.
  rewrite !Hfield by (simpl; tauto). reflexivity.
Qed.

(** ** The statements on sample inputs *)

(** The forecast chain on the sample service. *)
Lemma forecast_resolves_then_fetches_witness :
  let sent (url : string) :=
    {| Weather.url := url;
       Weather.headers :=
         [("User-Agent", "us-weather-mcp-server/1.0.0 (contact@smithery.ai)");
          ("Accept", "application/json")] |} in
  let resolve := sent "https://api.weather.gov/points/40.7128,-74.006" in
  let forecast := sent "https://api.weather.gov/gridpoints/OKX/32,34/forecast" in
  let args : Args :=
    <["location" := JStr "40.7128,-74.0060"]> (<["days" := JNum 1]> ∅) in
  (numToString Sample.runtime (parseFloat Sample.runtime "40.7128") = "40.7128"
   /\ numToString Sample.runtime (parseFloat Sample.runtime "-74.0060") = "-74.006"
   /\ Weather.gridId Sample.okx = "OKX"
   /\ (Weather.gridX Sample.okx == 32)%Q
   /\ (Weather.gridY Sample.okx == 34)%Q
   /\ ok 200 = true
   /\ Weather.fetchPoint Sample.weather resolve
      = FetchResponse 200 "OK" (BodyJson {| Weather.point_properties := Sample.okx |})
   /\ Weather.fetchForecast Sample.weather forecast
      = FetchResponse 200 "OK"
          (BodyJson {| Weather.updateTime := "2025-01-01T00:00:00Z";
                       Weather.periods := [Sample.period "Today";
                                           Sample.period "Tonight"] |}))
  /\ exists text,
       Weather.get_weather_forecast Sample.runtime Sample.weather args []
       = (Ok (textResult text), [resolve; forecast])
       /\ String.prefix
            ("# 1-Day Weather Forecast" +:+ newline +:+ newline
             +:+ "**Location:** 40.7128, -74.006" +:+ newline) text = true
       /\ exists before between after,
            text = before +:+ "## Today" +:+ newline
                   +:+ between +:+ "## Tonight" +:+ newline +:+ after.
Proof.
  intros sent resolve forecast args.
  split; [repeat split |].
  exact (forecast_resolves_then_fetches Sample.runtime Sample.weather []
           Sample.okx (Sample.period "Today") (Sample.period "Tonight")
           "2025-01-01T00:00:00Z" 200 200 "OK" "OK"
           eq_refl eq_refl eq_refl (Qeq_refl _) (Qeq_refl _)
           eq_refl eq_refl eq_refl eq_refl).
Defined.

(** The station lookup on the sample service, whose observation endpoint
    answers 503. *)
Lemma station_lookup_tolerates_missing_observation_witness :
  let args : Args :=
    <["location" := JStr "40.7128,-74.0060"]> (<["limit" := JNum 10]> ∅) in
  let resolve := Weather.request "/points/40.7128,-74.006" in
  let nearby := Weather.request "/gridpoints/OKX/32,34/stations?limit=10" in
  let latest := Weather.request "/stations/KNYC/observations/latest" in
  (Weather.coordMatch "40.7128,-74.0060" = Some ("40.7128", "-74.0060")
   /\ Outcome.succeeded (Weather.fetchPoint Sample.weather resolve)
      = Some {| Weather.point_properties := Sample.okx |}
   /\ Outcome.succeeded (Weather.fetchStations Sample.weather nearby)
      = Some {| Weather.station_features := Some [Sample.centralPark] |}
   /\ In Sample.centralPark [Sample.centralPark]
   /\ Outcome.succeeded (Weather.fetchObservation Sample.weather latest) = None)
  /\ exists text,
       Weather.find_weather_stations Sample.runtime Sample.weather args []
       = (Ok (textResult text), [resolve; nearby; latest])
       /\ String.prefix "# Weather Stations Near " text = true
       /\ includes
            (Weather.stationHeading Sample.runtime Sample.centralPark
             +:+ "**Latest Report:** Not available" +:+ newline
             +:+ newline +:+ "---" +:+ newline +:+ newline)
            text = true.
Proof.
  intros args resolve nearby latest.
  split; [repeat split; now left |].
  exact (station_lookup_tolerates_missing_observation Sample.runtime Sample.weather
           args [] "40.7128" "-74.0060"
           {| Weather.point_properties := Sample.okx |}
           [Sample.centralPark] Sample.centralPark
           eq_refl eq_refl eq_refl (or_introl eq_refl) eq_refl).
Defined.

(** The alerts tool on a city name, against a service with two alerts of
    which one is rated severe. *)
Lemma alerts_fall_back_to_nationwide_witness :
  let args : Args :=
    <["location" := JStr "Springfield"]> (<["severity" := JStr "severe"]> ∅) in
  let nationwide : Weather.Request :=
    {| Weather.url := "https://api.weather.gov/alerts/active";
       Weather.headers :=
         [("User-Agent", "us-weather-mcp-server/1.0.0 (contact@smithery.ai)");
          ("Accept", "application/json")] |} in
  let up :=
    Cases.alerting
      (FetchResponse 200 "OK"
         (BodyJson {| Weather.alert_features :=
                        Some [Cases.storm (Some "severe"); Cases.storm None] |})) in
  (Weather.isStateCode "Springfield" = false
   /\ Weather.coordMatch "Springfield" = None)
  /\ exists text,
       Weather.get_weather_alerts Sample.runtime up args []
       = (Ok (textResult text), [nationwide])
       /\ String.prefix
            ("# Weather Alerts for Springfield" +:+ newline +:+ newline
             +:+ "Found 1 active alert(s)") text = true
       /\ includes "## Winter Storm Warning" text = true.
Proof.
  intros args nationwide up. split; [split; reflexivity |].
  destruct (alerts_fall_back_to_nationwide Sample.runtime up args [] eq_refl eq_refl)
    as [text [Hrun [Hanswered _]]].
  exists text. split; [exact Hrun |].
  destruct (Hanswered 200%Z "OK" _ eq_refl eq_refl) as [_ Hlisted].
  destruct (Hlisted (Cases.storm (Some "severe")) [] eq_refl) as [Hprefix Hevents].
  split; [exact Hprefix |].
  exact (Hevents _ (or_introl eq_refl)).
Defined.

(** A repository search that the hosting service rejects, with an error
    and with undefined. *)
Lemma tried_tools_fail_uniformly_witness :
  let search : Args :=
    <["query" := JStr "rocq"]> (<["per_page" := JNum 30]> (<["page" := JNum 1]> ∅)) in
  let sent : GitHub.Call :=
    {| GitHub.method := "search.repos";
       GitHub.parameters := [("q", JStr "rocq"); ("per_page", JNum 30);
                             ("page", JNum 1)] |} in
  let rejecting : GitHub.Call -> GitHub.Reply :=
    fun _ => GitHub.Rejected (JsNullish false) in
  (exists t body,
     (In (t, body) (GitHub.triedTools Sample.runtime Sample.octokit)
      /\ name t = "search_repositories"
      /\ body search [] = (Throw (JsError "Not Found"), [sent]))
     /\ handler t search [] = (Ok (textResult "Error: Not Found"), [sent]))
  /\ (exists t body,
        (In (t, body) (GitHub.triedTools Sample.runtime rejecting)
         /\ name t = "search_repositories"
         /\ body search [] = (Throw (JsNullish false), [sent]))
        /\ handler t search []
           = (Throw (JsError "Cannot read properties of undefined (reading 'message')"),
              [sent])).
Proof.
  intros search sent rejecting.
  assert (forall octokit,
            In (GitHub.search_repositories_tool Sample.runtime octokit,
                GitHub.search_repositories_body Sample.runtime octokit)
               (GitHub.triedTools Sample.runtime octokit)) as Hin
    by (intros octokit; left; reflexivity).
  split; eexists; eexists.
  - split; [split; [exact (Hin Sample.octokit) | split; reflexivity] |].
    exact (proj2 (proj2 (proj2 (proj2 (tried_tools_fail_uniformly Sample.runtime)))
                    Sample.octokit _ _ (Hin Sample.octokit) search [])
             (JsError "Not Found") [sent] eq_refl).
  - split; [split; [exact (Hin rejecting) | split; reflexivity] |].
    exact (proj2 (proj2 (proj2 (proj2 (tried_tools_fail_uniformly Sample.runtime)))
                    rejecting _ _ (Hin rejecting) search [])
             (JsNullish false) [sent] eq_refl).
Defined.

(** The forecast tool and a second definition under its name. *)
Lemma register_twice_fails_witness :
  let t1 := Weather.get_weather_forecast_tool Sample.runtime Sample.weather in
  let t2 := Envelope.withHandler t1 (fun _ => ret (textResult "second")) in
  name t2 = name t1
  /\ Envelope.register t1 [] = (None, [t1])
  /\ Envelope.register t2 [t1]
     = (Some (Envelope.DuplicateToolError "get_weather_forecast"), [t1])
  /\ Envelope.lookup "get_weather_forecast" [t1] = Some t1
  /\ NoDup (map name [t1]).
Proof.
  intros t1 t2.
  pose proof (proj1 (register_twice_fails (C := Weather.Request)) [] t1 t2 eq_refl)
    as [Hsecond Hfirst].
  split; [reflexivity |]. split; [reflexivity |]. split; [exact Hsecond |].
  split; [exact (proj1 (Hfirst eq_refl)) |].
  exact (proj2 (register_twice_fails (C := Weather.Request)) [t1]
           (Envelope.reach_register t1 [] Envelope.reach_empty)).
Defined.

(** The directions tool called with mode "flying". *)
Lemma invalid_input_is_rejected_witness :
  let rawInput : Args :=
    <["origin" := JStr "Boston"]>
      (<["destination" := JStr "Albany"]> (<["mode" := JStr "flying"]> ∅)) in
  let t := Maps.maps_directions_tool Sample.runtime "KEY" Sample.maps in
  let mode := ZOptional (ZEnum ["driving"; "walking"; "bicycling"; "transit"]) in
  (Envelope.lookup "maps_directions" Sample.mapsRegistry = Some t
   /\ In ("mode", mode) (inputSchema t)
   /\ Envelope.check mode (field rawInput "mode")
      = inl "expected one of driving | walking | bicycling | transit")
  /\ (exists err,
        In (Envelope.parameter err) (map fst (inputSchema t))
        /\ Envelope.invoke Sample.mapsRegistry "maps_directions" rawInput []
           = (Ok (textResult ("Error: " +:+ Envelope.errorMessage err)), [])
        /\ forall h,
             Envelope.envelope (Envelope.withHandler t h) rawInput []
             = Envelope.invoke Sample.mapsRegistry "maps_directions" rawInput [])
  /\ Envelope.invoke Sample.mapsRegistry "maps_directions" rawInput []
     = (Ok (textResult
              "Error: Invalid parameter mode: expected one of driving | walking | bicycling | transit"),
        []).
Proof.
  intros rawInput t mode.
  assert (In ("mode", mode) (inputSchema t)) as Hin
    by (right; right; left; reflexivity).
  split; [split; [reflexivity | split; [exact Hin | reflexivity]] |].
  split; [| reflexivity].
  exact (invalid_input_is_rejected Sample.mapsRegistry "maps_directions" t
           rawInput "mode" mode _ [] eq_refl Hin eq_refl).
Defined.

(** The forecast tool called without days, and the repository search
    called without per_page: against a service that rejects the search,
    and with a handler in its place that throws what it was given. *)
Lemma default_is_substituted_witness :
  let forecast := Weather.get_weather_forecast_tool Sample.runtime Sample.weather in
  let rawInput : Args := {[ "location" := JStr "40.7128,-74.0060" ]} in
  let args : Args :=
    <["location" := JStr "40.7128,-74.0060"]> (<["days" := JNum 7]> ∅) in
  let search := GitHub.search_repositories_tool Sample.runtime Sample.octokit in
  let rawSearch : Args := {[ "query" := JStr "rocq" ]} in
  let searchArgs : Args :=
    <["query" := JStr "rocq"]> (<["per_page" := JNum 30]> (<["page" := JNum 1]> ∅)) in
  let sent : GitHub.Call :=
    {| GitHub.method := "search.repos";
       GitHub.parameters := [("q", JStr "rocq"); ("per_page", JNum 30);
                             ("page", JNum 1)] |} in
  let telling : Args -> M GitHub.Call CallToolResult :=
    fun given =>
      match field given "per_page" with
      | JNum _ => throw (JsError "per_page is a number")
      | _ => ret (textResult "per_page is missing")
      end in
  (Envelope.lookup "get_weather_forecast" Sample.weatherRegistry = Some forecast
   /\ NoDup (map fst (inputSchema forecast))
   /\ In ("days", ZDefault (ZOptional ZNumber) (JNum 7)) (inputSchema forecast)
   /\ rawInput !! "days" = None
   /\ Envelope.validate (inputSchema forecast) rawInput = inr args)
  /\ field args "days" = JNum 7
  /\ field searchArgs "per_page" = JNum 30
  /\ Envelope.invoke Sample.githubRegistry "search_repositories" rawSearch []
     = (Ok (textResult "Error: Not Found"), [sent])
  /\ Envelope.envelope (Envelope.withHandler search telling) rawSearch []
     = (Ok (textResult "Error: per_page is a number"), []).
Proof.
  intros forecast rawInput args search rawSearch searchArgs sent telling.
  assert (NoDup (map fst (inputSchema forecast))) as Hnodup
    by (refine (bool_decide_unpack _ _); vm_compute; exact I).
  assert (NoDup (map fst (inputSchema search))) as Hnodup'
    by (refine (bool_decide_unpack _ _); vm_compute; exact I).
  assert (In ("days", ZDefault (ZOptional ZNumber) (JNum 7)) (inputSchema forecast))
    as Hin by (right; left; reflexivity).
  assert (In ("per_page", ZDefault (ZOptional ZNumber) (JNum 30)) (inputSchema search))
    as Hin' by (right; left; reflexivity).
  split; [repeat split; assumption || reflexivity |]. split.
  - exact (proj1 (default_is_substituted Sample.weatherRegistry "get_weather_forecast"
                    forecast rawInput args "days" (ZOptional ZNumber) (JNum 7)
                    eq_refl Hnodup Hin eq_refl eq_refl)).
  - pose proof (default_is_substituted Sample.githubRegistry "search_repositories"
                  search rawSearch searchArgs "per_page" (ZOptional ZNumber) (JNum 30)
                  eq_refl Hnodup' Hin' eq_refl eq_refl) as [Hfield [Hinvoke Hany]].
    split; [exact Hfield |].
    split; [exact (Hinvoke []) | exact (Hany telling [])].
Defined.

(** The repository search called with an extra parameter. *)
Lemma undeclared_parameter_is_ignored_witness :
  let search := GitHub.search_repositories_tool Sample.runtime Sample.octokit in
  let rawInput : Args := {[ "query" := JStr "rocq" ]} in
  (Envelope.lookup "search_repositories" Sample.githubRegistry = Some search
   /\ ~ In "verbose" (map fst (inputSchema search)))
  /\ Envelope.invoke Sample.githubRegistry "search_repositories"
       (<["verbose" := JBool true]> rawInput)
     = Envelope.invoke Sample.githubRegistry "search_repositories" rawInput.
Proof.
  intros search rawInput.
  assert (~ In "verbose" (map fst (inputSchema search))) as Hundeclared.
  { simpl. intros [H | [H | [H | []]]]; discriminate H. }
  split; [split; [reflexivity | exact Hundeclared] |].
  exact (undeclared_parameter_is_ignored Sample.githubRegistry "search_repositories"
           search rawInput "verbose" (JBool true) eq_refl Hundeclared).
Defined.

(** * Further properties of the adapters *)

(** ** The weather adapter *)

Lemma parseLocation_ok (rt : Runtime) (location a b : string)
    (log : list Weather.Request) :
  Weather.coordMatch location = Some (a, b) ->
  Weather.parseLocation rt location log
  = (Ok {| Weather.latitude := parseFloat rt a;
           Weather.longitude := parseFloat rt b |}, log).
Proof. intros H. unfold Weather.parseLocation. now rewrite H. Qed.

Lemma parseLocation_throws (rt : Runtime) (location : string)
    (log : list Weather.Request) :
  Weather.coordMatch location = None ->
  exists message,
    Weather.parseLocation rt location log = (Throw (JsError message), log)
    /\ String.prefix "Location parsing not yet implemented for " message = true
    /\ includes location message = true.
Proof.
  intros H. unfold Weather.parseLocation. rewrite H.
  eexists. split; [reflexivity |]. split.
  - apply prefix_append.
  - apply includes_app_r, includes_app_r, includes_here.
Qed.

(** X1: the location parser issues no request and decides the coordinate
    pattern.  A location made of a number, a comma, optional white space and a
    number, with nothing before or after, is returned as the two numbers
    parsed from its two groups; every other location makes the parser throw an
    error whose message starts with "Location parsing not yet implemented
    for" and quotes the location. *)
Theorem parseLocation_decides_coordinate_pairs (rt : Runtime)
    (location : string) (log : list Weather.Request) :
  (exists a b,
      Outcome.CoordinatePair location a b
      /\ Weather.parseLocation rt location log
         = (Ok {| Weather.latitude := parseFloat rt a;
                  Weather.longitude := parseFloat rt b |}, log))
  \/ ((forall a b, Outcome.CoordinatePair location a b -> False)
      /\ exists message,
           Weather.parseLocation rt location log = (Throw (JsError message), log)
           /\ String.prefix "Location parsing not yet implemented for " message = true
           /\ includes location message = true).
Proof.
  destruct (Weather.coordMatch location) as [[a b] |] eqn:Hmatch.
  - left. exists a, b. split; [now apply coordMatch_spec |].
    now apply parseLocation_ok.
  - right. split; [| now apply parseLocation_throws].
    intros a b Hpair. apply coordMatch_spec in Hpair. congruence.
Qed.

(** X2: every call of the request helper of the weather adapter issues
    exactly one request, to the base URL followed by the endpoint and with the
    User-Agent and Accept headers, whether it returns or throws.  It returns
    if and only if the answer has a status from 200 to 299 and a body that
    decodes, and what it returns is that body. *)
Theorem weatherApiRequest_sends_one_request {T}
    (fetch : Weather.Request -> FetchOutcome T) (endpoint : string)
    (log : list Weather.Request) :
  let sent :=
    {| Weather.url := "https://api.weather.gov" +:+ endpoint;
       Weather.headers :=
         [("User-Agent", "us-weather-mcp-server/1.0.0 (contact@smithery.ai)");
          ("Accept", "application/json")] |} in
  let run := Weather.weatherApiRequest fetch endpoint log in
  snd run = (log ++ [sent])%list
  /\ forall data,
       fst run = Ok data <->
       exists status statusText,
         fetch sent = FetchResponse status statusText (BodyJson data)
         /\ (200 <= status <= 299)%Z.
Proof.
  intros sent run. subst run. rewrite weatherApiRequest_settle.
  change (Weather.request endpoint) with sent.
  split; [reflexivity |].
  intros data. cbn [fst]. unfold Outcome.settle. split.
  - destruct (fetch sent) as [e | status statusText body].
    + destruct e as [m | m | n]; simpl; [destruct (includes "fetch" m) | |];
        discriminate.
    + destruct (ok status) eqn:Hok.
      * destruct body as [v | e].
        -- intros [= ->]. exists status, statusText. split; [reflexivity |].
           unfold ok in Hok. apply andb_prop in Hok as [H1 H2]. lia.
        -- destruct e as [m | m | n]; simpl; [destruct (includes "fetch" m) | |];
             discriminate.
      * unfold Outcome.rethrown.
        destruct (Outcome.statusError status statusText) as [m | m | n];
          [destruct (includes "fetch" m) | |]; discriminate.
  - intros (status & statusText & -> & Hrange).
    assert (ok status = true) as ->; [| reflexivity].
    unfold ok. apply andb_true_intro. split; lia.
Qed.

(** X3: the catch clause of the request helper also sees the errors the
    helper constructs itself.  A response with a failing status other than 404
    and 500 whose status text contains "fetch" is therefore reported with the
    connectivity message, not with the generic message that quotes the status. *)
Theorem status_text_with_fetch_reads_as_offline {T}
    (fetch : Weather.Request -> FetchOutcome T) (endpoint : string)
    (log : list Weather.Request) (status : Z) (statusText : string)
    (body : Body T) :
  fetch (Weather.request endpoint) = FetchResponse status statusText body ->
  ok status = false ->
  status <> 404%Z ->
  status <> 500%Z ->
  includes "fetch" statusText = true ->
  Weather.weatherApiRequest fetch endpoint log
  = (Throw (JsError "Unable to connect to weather service. Please check your internet connection."),
     (log ++ [Weather.request endpoint])%list).
Proof.
  intros Hanswer Hok H404 H500 Hfetch.
  rewrite weatherApiRequest_settle, Hanswer.
  unfold Outcome.settle, Outcome.statusError. rewrite Hok.
  destruct (Z.eqb_spec status 404) as [? | _]; [contradiction |].
  destruct (Z.eqb_spec status 500) as [? | _]; [contradiction |].
  unfold Outcome.rethrown.
  now rewrite generic_message_fetch, Hfetch.
Qed.

Lemma status_text_with_fetch_reads_as_offline_witness :
  let refused : Weather.Request -> FetchOutcome unit :=
    fun _ => FetchResponse 403 "Prefetch forbidden" (BodyJson tt) in
  (ok 403 = false /\ includes "fetch" "Prefetch forbidden" = true)
  /\ Weather.weatherApiRequest refused "/alerts/active" []
     = (Throw (JsError "Unable to connect to weather service. Please check your internet connection."),
        [Weather.request "/alerts/active"]).
Proof.
  intros refused. split; [split; reflexivity |].
  refine (status_text_with_fetch_reads_as_offline refused "/alerts/active" []
            403%Z "Prefetch forbidden" (BodyJson tt) eq_refl eq_refl _ _ eq_refl);
    lia.
Defined.

(** X4: a location that is not a coordinate pair makes the current-weather,
    forecast, hourly-forecast and station tools return the failure block of
    the parser's error ("Error: Location parsing not yet implemented for
    ...", quoting the location) without issuing any request. *)
Theorem unparsable_location_is_rejected_unasked (rt : Runtime)
    (up : Weather.Upstream) (args : Args) (log : list Weather.Request) :
  let location := asString (field args "location") in
  Weather.coordMatch location = None ->
  exists message,
    String.prefix "Location parsing not yet implemented for " message = true
    /\ includes location message = true
    /\ Weather.get_current_weather rt up args log
       = (Ok (textResult ("Error: " +:+ message)), log)
    /\ Weather.get_weather_forecast rt up args log
       = (Ok (textResult ("Error: " +:+ message)), log)
    /\ Weather.get_hourly_forecast rt up args log
       = (Ok (textResult ("Error: " +:+ message)), log)
    /\ Weather.find_weather_stations rt up args log
       = (Ok (textResult ("Error: " +:+ message)), log).
Proof.
  intros location Hmatch.
  destruct (parseLocation_throws rt location log Hmatch)
    as (message & Hparse & Hprefix & Hincludes).
  exists message. split; [exact Hprefix |]. split; [exact Hincludes |].
  repeat split.
  - unfold Weather.get_current_weather, Weather.guarded.
    rewrite (tryCatch_throw _ _ log (JsError message) log); [reflexivity |].
    now apply bind_throw.
  - unfold Weather.get_weather_forecast, Weather.guarded.
    rewrite (tryCatch_throw _ _ log (JsError message) log); [reflexivity |].
    now apply bind_throw.
  - unfold Weather.get_hourly_forecast, Weather.guarded.
    rewrite (tryCatch_throw _ _ log (JsError message) log); [reflexivity |].
    now apply bind_throw.
  - unfold Weather.find_weather_stations, Weather.guarded.
    rewrite (tryCatch_throw _ _ log (JsError message) log); [reflexivity |].
    now apply bind_throw.
Qed.

Lemma unparsable_location_is_rejected_unasked_witness :
  let args : Args := {[ "location" := JStr "New York, NY" ]} in
  Weather.coordMatch "New York, NY" = None
  /\ exists message,
       String.prefix "Location parsing not yet implemented for " message = true
       /\ includes "New York, NY" message = true
       /\ Weather.get_current_weather Sample.runtime Sample.weather args []
          = (Ok (textResult ("Error: " +:+ message)), [])
       /\ Weather.get_weather_forecast Sample.runtime Sample.weather args []
          = (Ok (textResult ("Error: " +:+ message)), [])
       /\ Weather.get_hourly_forecast Sample.runtime Sample.weather args []
          = (Ok (textResult ("Error: " +:+ message)), [])
       /\ Weather.find_weather_stations Sample.runtime Sample.weather args []
          = (Ok (textResult ("Error: " +:+ message)), []).
Proof.
  intros args. split; [reflexivity |].
  exact (unparsable_location_is_rejected_unasked Sample.runtime Sample.weather
           args [] eq_refl).
Defined.

(** X5: when the point lookup of a parsed location fails, the
    current-weather, forecast, hourly-forecast and station tools all return
    the failure block of that error, and the point request is the only request
    they have issued. *)
Theorem point_lookup_failure_ends_the_call (rt : Runtime)
    (up : Weather.Upstream) (args : Args) (log log' : list Weather.Request)
    (a b : string) (e : Thrown) :
  let location := asString (field args "location") in
  let resolve :=
    Weather.request ("/points/" +:+ numToString rt (parseFloat rt a)
                     +:+ "," +:+ numToString rt (parseFloat rt b)) in
  let failure := (Ok (textResult ("Error: " +:+ Weather.errorMessage e)), log') in
  Weather.coordMatch location = Some (a, b) ->
  Weather.getPointMetadata rt up (parseFloat rt a) (parseFloat rt b) log
  = (Throw e, log') ->
  log' = (log ++ [resolve])%list
  /\ Weather.get_current_weather rt up args log = failure
  /\ Weather.get_weather_forecast rt up args log = failure
  /\ Weather.get_hourly_forecast rt up args log = failure
  /\ Weather.find_weather_stations rt up args log = failure.
Proof.
  intros location resolve failure Hmatch Hpoint. subst failure.
  pose proof (parseLocation_ok rt location a b log Hmatch) as Hparse.
  split.
  - unfold Weather.getPointMetadata, bind in Hpoint.
    rewrite weatherApiRequest_settle in Hpoint.
    destruct (Outcome.settle _); now inversion Hpoint.
  - repeat split.
    + unfold Weather.get_current_weather, Weather.guarded.
      erewrite tryCatch_throw; [reflexivity |].
      unfold Weather.get_current_weather_body, Weather.currentWeatherBody.
      fold location. rewrite (bind_ok _ _ _ _ _ Hparse). now apply bind_throw.
    + unfold Weather.get_weather_forecast, Weather.guarded.
      erewrite tryCatch_throw; [reflexivity |].
      unfold Weather.get_weather_forecast_body, Weather.forecastBody.
      fold location. rewrite (bind_ok _ _ _ _ _ Hparse). now apply bind_throw.
    + unfold Weather.get_hourly_forecast, Weather.guarded.
      erewrite tryCatch_throw; [reflexivity |].
      unfold Weather.get_hourly_forecast_body, Weather.hourlyBody.
      fold location. rewrite (bind_ok _ _ _ _ _ Hparse). now apply bind_throw.
    + unfold Weather.find_weather_stations, Weather.guarded.
      erewrite tryCatch_throw; [reflexivity |].
      unfold Weather.find_weather_stations_body, Weather.stationsBody.
      fold location. rewrite (bind_ok _ _ _ _ _ Hparse). now apply bind_throw.
Qed.

Lemma point_lookup_failure_ends_the_call_witness :
  let args : Args := {[ "location" := JStr "40.7128,-74.0060" ]} in
  let resolve := Weather.request "/points/40.7128,-74.006" in
  let failure :=
    (Ok (textResult "Error: Location not found or no data available"), [resolve]) in
  (Weather.coordMatch "40.7128,-74.0060" = Some ("40.7128", "-74.0060")
   /\ Weather.getPointMetadata Sample.runtime Cases.nowhere
        (parseFloat Sample.runtime "40.7128") (parseFloat Sample.runtime "-74.0060") []
      = (Throw (JsError "Location not found or no data available"), [resolve]))
  /\ [resolve] = ([] ++ [resolve])%list
  /\ Weather.get_current_weather Sample.runtime Cases.nowhere args [] = failure
  /\ Weather.get_weather_forecast Sample.runtime Cases.nowhere args [] = failure
  /\ Weather.get_hourly_forecast Sample.runtime Cases.nowhere args [] = failure
  /\ Weather.find_weather_stations Sample.runtime Cases.nowhere args [] = failure.
Proof.
  intros args resolve failure. split; [split; reflexivity |].
  exact (point_lookup_failure_ends_the_call Sample.runtime Cases.nowhere args
           [] [resolve] "40.7128" "-74.0060"
           (JsError "Location not found or no data available") eq_refl eq_refl).
Defined.

Lemma truncate_integer (q : Q) (z : Z) : (q == inject_Z z)%Q -> truncate q = z.
Proof.
  unfold Qeq, truncate. simpl. intros Hq.
  rewrite Z.mul_1_r in Hq. rewrite Hq. now rewrite Z.quot_mul.
Qed.

Lemma slice0_first {A} (xs : list A) (q : Q) (n : nat) :
  truncate q = Z.of_nat n -> slice0 xs q = take n xs.
Proof.
  intros Hq. unfold slice0. rewrite Hq.
  destruct (Z.ltb_spec (Z.of_nat n) 0) as [? | _]; [lia |].
  destruct (Nat.le_ge_cases n (length xs)) as [Hle | Hge].
  - now rewrite Z.min_l, Nat2Z.id by lia.
  - rewrite Z.min_r, Nat2Z.id by lia.
    now rewrite !firstn_all2 by lia.
Qed.

Lemma slice0_but_last {A} (xs : list A) (q : Q) (n : nat) :
  truncate q = (- Z.of_nat n)%Z -> (0 < n)%nat ->
  slice0 xs q = take (length xs - n) xs.
Proof.
  intros Hq Hn. unfold slice0. rewrite Hq.
  destruct (Z.ltb_spec (- Z.of_nat n) 0) as [_ | ?]; [| lia].
  f_equal. lia.
Qed.

Lemma twice_integer (q : Q) (z : Z) :
  (q == inject_Z z)%Q -> truncate (q * 2) = (2 * z)%Z.
Proof.
  intros Hq. apply truncate_integer.
  rewrite Hq. unfold Qeq. simpl. lia.
Qed.

(** X6: once the point and the forecast have been fetched, the forecast tool
    called with a whole number of days shows the first two periods per day,
    all of them when fewer are available; for a negative number of days it
    shows all periods but the last two per day asked.  Nothing bounds the
    number of days. *)
Theorem forecast_shows_two_periods_per_day (rt : Runtime) (up : Weather.Upstream)
    (args : Args) (log : list Weather.Request) (a b : string)
    (point : Weather.PointResponse) (data : Weather.ForecastResponse) (z : Z) :
  let location := asString (field args "location") in
  let days := asNumber (field args "days") in
  let coords := {| Weather.latitude := parseFloat rt a;
                   Weather.longitude := parseFloat rt b |} in
  let resolve :=
    Weather.request (Weather.pointsEndpoint rt (parseFloat rt a) (parseFloat rt b)) in
  let forecast :=
    Weather.request (Weather.gridpoint rt (Weather.point_properties point) +:+ "/forecast") in
  let available := Weather.periods data in
  let shown :=
    if (0 <=? z)%Z then take (Z.to_nat (2 * z)) available
    else take (length available - Z.to_nat (- (2 * z))) available in
  Weather.coordMatch location = Some (a, b) ->
  (days == inject_Z z)%Q ->
  Outcome.succeeded (Weather.fetchPoint up resolve) = Some point ->
  Outcome.succeeded (Weather.fetchForecast up forecast) = Some data ->
  Weather.get_weather_forecast rt up args log
  = (Ok (textResult (Weather.forecastMarkdown rt days coords data shown)),
     (log ++ [resolve; forecast])%list).
Proof.
  intros location days coords resolve forecast available shown
    Hmatch Hdays Hpoint Hforecast.
  unfold Weather.get_weather_forecast, Weather.guarded.
  apply tryCatch_ok.
  unfold Weather.get_weather_forecast_body. fold location days.
  rewrite (forecastBody_ok rt up location days log a b point data
             Hmatch Hpoint Hforecast).
  fold available. pose proof (twice_integer _ _ Hdays) as Htwice.
  subst shown. destruct (Z.leb_spec 0 z) as [Hsign | Hsign].
  - rewrite (slice0_first _ _ (Z.to_nat (2 * z))); [reflexivity |].
    rewrite Htwice. lia.
  - rewrite (slice0_but_last _ _ (Z.to_nat (- (2 * z)))); [reflexivity | | lia].
    rewrite Htwice. lia.
Qed.

Lemma forecast_shows_two_periods_per_day_witness :
  let coords := {| Weather.latitude := parseFloat Sample.runtime "40.7128";
                   Weather.longitude := parseFloat Sample.runtime "-74.0060" |} in
  let data := {| Weather.updateTime := "2025-01-01T00:00:00Z";
                 Weather.periods := [Sample.period "Today"; Sample.period "Tonight";
                                     Sample.period "Thursday"] |} in
  let up := Cases.forecasting data in
  let resolve := Weather.request "/points/40.7128,-74.006" in
  let forecast := Weather.request "/gridpoints/OKX/32,34/forecast" in
  let asked (days : Q) : Args :=
    <["location" := JStr "40.7128,-74.0060"]> (<["days" := JNum days]> ∅) in
  (Weather.coordMatch "40.7128,-74.0060" = Some ("40.7128", "-74.0060")
   /\ (1 == inject_Z 1)%Q
   /\ (-1 == inject_Z (-1))%Q
   /\ Outcome.succeeded (Weather.fetchPoint up resolve)
      = Some {| Weather.point_properties := Sample.okx |}
   /\ Outcome.succeeded (Weather.fetchForecast up forecast) = Some data)
  /\ Weather.get_weather_forecast Sample.runtime up (asked 1%Q) []
     = (Ok (textResult
              (Weather.forecastMarkdown Sample.runtime 1 coords data
                 [Sample.period "Today"; Sample.period "Tonight"])),
        [resolve; forecast])
  /\ Weather.get_weather_forecast Sample.runtime up (asked (-1)%Q) []
     = (Ok (textResult
              (Weather.forecastMarkdown Sample.runtime (-1) coords data
                 [Sample.period "Today"])),
        [resolve; forecast]).
Proof.
  intros coords data up resolve forecast asked.
  split; [repeat split |]. split.
  - exact (forecast_shows_two_periods_per_day Sample.runtime up (asked 1%Q) []
             "40.7128" "-74.0060" {| Weather.point_properties := Sample.okx |}
             data 1 eq_refl (Qeq_refl _) eq_refl eq_refl).
  - exact (forecast_shows_two_periods_per_day Sample.runtime up (asked (-1)%Q) []
             "40.7128" "-74.0060" {| Weather.point_properties := Sample.okx |}
             data (-1) eq_refl (Qeq_refl _) eq_refl eq_refl).
Defined.

Lemma hourlyBody_ok (rt : Runtime) (up : Weather.Upstream) (location : string)
    (hours : Q) (log : list Weather.Request) (a b : string)
    (point : Weather.PointResponse) (data : Weather.HourlyForecastResponse) :
  let coords := {| Weather.latitude := parseFloat rt a;
                   Weather.longitude := parseFloat rt b |} in
  let resolve :=
    Weather.request (Weather.pointsEndpoint rt (parseFloat rt a) (parseFloat rt b)) in
  let hourly :=
    Weather.request (Weather.gridpoint rt (Weather.point_properties point)
                     +:+ "/forecast/hourly") in
  Weather.coordMatch location = Some (a, b) ->
  Outcome.succeeded (Weather.fetchPoint up resolve) = Some point ->
  Outcome.succeeded (Weather.fetchHourly up hourly) = Some data ->
  Weather.hourlyBody rt up location hours log
  = (Ok (textResult
           (Weather.hourlyMarkdown rt hours coords data
              (slice0 (Weather.hourly_periods data) hours))),
     (log ++ [resolve; hourly])%list).
Proof.
  intros coords resolve hourly Hcoord Hpoint Hhourly.
  subst coords resolve hourly.
  unfold Weather.hourlyBody.
  rewrite (bind_ok _ _ _ _ _ (parseLocation_ok rt location a b log Hcoord)).
  rewrite (bind_ok _ _ _ _ _ (getPointMetadata_ok rt up _ _ log point Hpoint)).
  erewrite bind_ok;
    [| now rewrite weatherApiRequest_settle, (settle_succeeded _ _ Hhourly)].
  unfold ret. now rewrite <- app_assoc.
Qed.

(** X7: once the point and the hourly forecast have been fetched, the
    hourly tool called with a whole number of hours shows the first that many
    periods, all of them when fewer are available, after exactly two requests. *)
Theorem hourly_forecast_shows_the_first_hours (rt : Runtime) (up : Weather.Upstream)
    (args : Args) (log : list Weather.Request) (a b : string)
    (point : Weather.PointResponse) (data : Weather.HourlyForecastResponse)
    (h : nat) :
  let location := asString (field args "location") in
  let hours := asNumber (field args "hours") in
  let coords := {| Weather.latitude := parseFloat rt a;
                   Weather.longitude := parseFloat rt b |} in
  let resolve :=
    Weather.request (Weather.pointsEndpoint rt (parseFloat rt a) (parseFloat rt b)) in
  let hourly :=
    Weather.request (Weather.gridpoint rt (Weather.point_properties point)
                     +:+ "/forecast/hourly") in
  Weather.coordMatch location = Some (a, b) ->
  (hours == inject_Z (Z.of_nat h))%Q ->
  Outcome.succeeded (Weather.fetchPoint up resolve) = Some point ->
  Outcome.succeeded (Weather.fetchHourly up hourly) = Some data ->
  Weather.get_hourly_forecast rt up args log
  = (Ok (textResult
           (Weather.hourlyMarkdown rt hours coords data
              (take h (Weather.hourly_periods data)))),
     (log ++ [resolve; hourly])%list).
Proof.
  intros location hours coords resolve hourly Hmatch Hhours Hpoint Hhourly.
  unfold Weather.get_hourly_forecast, Weather.guarded.
  apply tryCatch_ok.
  unfold Weather.get_hourly_forecast_body. fold location hours.
  rewrite (hourlyBody_ok rt up location hours log a b point data
             Hmatch Hpoint Hhourly).
  now rewrite (slice0_first _ _ h (truncate_integer _ _ Hhours)).
Qed.

Lemma hourly_forecast_shows_the_first_hours_witness :
  let args : Args :=
    <["location" := JStr "40.7128,-74.0060"]> (<["hours" := JNum 2]> ∅) in
  let coords := {| Weather.latitude := parseFloat Sample.runtime "40.7128";
                   Weather.longitude := parseFloat Sample.runtime "-74.0060" |} in
  let data := {| Weather.hourly_updateTime := "2025-01-01T00:00:00Z";
                 Weather.hourly_periods :=
                   [Cases.hour "2025-01-01T00:00:00Z"; Cases.hour "2025-01-01T01:00:00Z";
                    Cases.hour "2025-01-01T02:00:00Z"] |} in
  let up := Cases.weatherWith None (FetchRejected (JsOther None)) in
  let resolve := Weather.request "/points/40.7128,-74.006" in
  let hourly := Weather.request "/gridpoints/OKX/32,34/forecast/hourly" in
  (Weather.coordMatch "40.7128,-74.0060" = Some ("40.7128", "-74.0060")
   /\ (2 == inject_Z (Z.of_nat 2))%Q
   /\ Outcome.succeeded (Weather.fetchPoint up resolve)
      = Some {| Weather.point_properties := Sample.okx |}
   /\ Outcome.succeeded (Weather.fetchHourly up hourly) = Some data)
  /\ Weather.get_hourly_forecast Sample.runtime up args []
     = (Ok (textResult
              (Weather.hourlyMarkdown Sample.runtime 2 coords data
                 [Cases.hour "2025-01-01T00:00:00Z"; Cases.hour "2025-01-01T01:00:00Z"])),
        [resolve; hourly]).
Proof.
  intros args coords data up resolve hourly.
  split; [repeat split |].
  exact (hourly_forecast_shows_the_first_hours Sample.runtime up args []
           "40.7128" "-74.0060" {| Weather.point_properties := Sample.okx |}
           data 2 eq_refl (Qeq_refl _) eq_refl eq_refl).
Defined.

Section StationLists.
Context (rt : Runtime) (up : Weather.Upstream).

(** The first two requests of the tools that start from a gridpoint. *)
Lemma gridpoint_chain {T R} (fetch : Weather.Request -> FetchOutcome T)
    (suffix : string)
    (location a b : string) (point : Weather.PointResponse) (v : T)
    (log : list Weather.Request)
    (rest : Weather.Coordinates -> Weather.PointMetadata -> T -> M Weather.Request R) :
  let resolve :=
    Weather.request (Weather.pointsEndpoint rt (parseFloat rt a) (parseFloat rt b)) in
  let second :=
    Weather.request (Weather.gridpoint rt (Weather.point_properties point) +:+ suffix) in
  Weather.coordMatch location = Some (a, b) ->
  Outcome.succeeded (Weather.fetchPoint up resolve) = Some point ->
  Outcome.succeeded (fetch second) = Some v ->
  bind (Weather.parseLocation rt location) (fun coords =>
    bind (Weather.getPointMetadata rt up (Weather.latitude coords) (Weather.longitude coords))
      (fun pointData =>
         bind (Weather.weatherApiRequest fetch (Weather.gridpoint rt pointData +:+ suffix))
           (rest coords pointData))) log
  = rest {| Weather.latitude := parseFloat rt a; Weather.longitude := parseFloat rt b |}
      (Weather.point_properties point) v (log ++ [resolve; second])%list.
Proof.
  intros resolve second Hmatch Hpoint Hsecond. subst resolve second.
  rewrite (bind_ok _ _ _ _ _ (parseLocation_ok rt location a b log Hmatch)).
  cbn [Weather.latitude Weather.longitude].
  rewrite (bind_ok _ _ _ _ _ (getPointMetadata_ok rt up _ _ log point Hpoint)).
  erewrite bind_ok;
    [| now rewrite weatherApiRequest_settle, (settle_succeeded _ _ Hsecond)].
  now rewrite <- app_assoc.
Qed.

End StationLists.

(** X8: when the station list of the gridpoint is missing or empty, the
    current-weather tool returns "Error: No weather stations found for this
    location" after the point request and the station request, and asks for no
    observation. *)
Theorem current_weather_needs_a_station (rt : Runtime) (up : Weather.Upstream)
    (args : Args) (log : list Weather.Request) (a b : string)
    (point : Weather.PointResponse) (stationsData : Weather.StationCollection) :
  let location := asString (field args "location") in
  let resolve :=
    Weather.request (Weather.pointsEndpoint rt (parseFloat rt a) (parseFloat rt b)) in
  let nearby :=
    Weather.request (Weather.gridpoint rt (Weather.point_properties point)
                     +:+ "/stations") in
  Weather.coordMatch location = Some (a, b) ->
  Outcome.succeeded (Weather.fetchPoint up resolve) = Some point ->
  Outcome.succeeded (Weather.fetchStations up nearby) = Some stationsData ->
  default [] (Weather.station_features stationsData) = [] ->
  Weather.get_current_weather rt up args log
  = (Ok (textResult "Error: No weather stations found for this location"),
     (log ++ [resolve; nearby])%list).
Proof.
  intros location resolve nearby Hmatch Hpoint Hstations Hnone.
  unfold Weather.get_current_weather, Weather.guarded.
  rewrite (tryCatch_throw _ _ log
             (JsError "No weather stations found for this location")
             (log ++ [resolve; nearby])%list); [reflexivity |].
  unfold Weather.get_current_weather_body, Weather.currentWeatherBody.
  fold location.
  rewrite (gridpoint_chain rt up (Weather.fetchStations up) "/stations" location a b point stationsData log
             (fun coords pointData stationsData => _) Hmatch Hpoint Hstations).
  destruct (Weather.station_features stationsData) as [[| first rest] |];
    [reflexivity | discriminate | reflexivity].
Qed.

Lemma current_weather_needs_a_station_witness :
  let args : Args := {[ "location" := JStr "40.7128,-74.0060" ]} in
  let up := Cases.weatherWith None (FetchRejected (JsOther None)) in
  let resolve := Weather.request "/points/40.7128,-74.006" in
  let nearby := Weather.request "/gridpoints/OKX/32,34/stations" in
  (Weather.coordMatch "40.7128,-74.0060" = Some ("40.7128", "-74.0060")
   /\ Outcome.succeeded (Weather.fetchPoint up resolve)
      = Some {| Weather.point_properties := Sample.okx |}
   /\ Outcome.succeeded (Weather.fetchStations up nearby)
      = Some {| Weather.station_features := None |}
   /\ default [] (None : option (list Weather.Station)) = [])
  /\ Weather.get_current_weather Sample.runtime up args []
     = (Ok (textResult "Error: No weather stations found for this location"),
        [resolve; nearby]).
Proof.
  intros args up resolve nearby.
  split; [repeat split |].
  exact (current_weather_needs_a_station Sample.runtime up args []
           "40.7128" "-74.0060" {| Weather.point_properties := Sample.okx |}
           {| Weather.station_features := None |} eq_refl eq_refl eq_refl eq_refl).
Defined.

(** X9: when stations are listed, the current-weather tool asks for the
    latest observation of the first one only and returns the report built from
    that observation: three requests in all, whatever the number of stations. *)
Theorem current_weather_asks_the_first_station (rt : Runtime)
    (up : Weather.Upstream) (args : Args) (log : list Weather.Request)
    (a b : string) (point : Weather.PointResponse)
    (first : Weather.Station) (others : list Weather.Station)
    (obs : Weather.Observation) :
  let location := asString (field args "location") in
  let coords := {| Weather.latitude := parseFloat rt a;
                   Weather.longitude := parseFloat rt b |} in
  let resolve :=
    Weather.request (Weather.pointsEndpoint rt (parseFloat rt a) (parseFloat rt b)) in
  let nearby :=
    Weather.request (Weather.gridpoint rt (Weather.point_properties point)
                     +:+ "/stations") in
  let latest :=
    Weather.request ("/stations/" +:+ Weather.stationIdentifier first
                     +:+ "/observations/latest") in
  Weather.coordMatch location = Some (a, b) ->
  Outcome.succeeded (Weather.fetchPoint up resolve) = Some point ->
  Outcome.succeeded (Weather.fetchStations up nearby)
    = Some {| Weather.station_features := Some (first :: others) |} ->
  Outcome.succeeded (Weather.fetchObservation up latest)
    = Some {| Weather.obs_properties := Some obs |} ->
  Weather.get_current_weather rt up args log
  = (Ok (textResult
           (Weather.currentWeatherMarkdown rt coords (Weather.stationIdentifier first) obs)),
     (log ++ [resolve; nearby; latest])%list).
Proof.
  intros location coords resolve nearby latest Hmatch Hpoint Hstations Hobs.
  unfold Weather.get_current_weather, Weather.guarded.
  apply tryCatch_ok.
  unfold Weather.get_current_weather_body, Weather.currentWeatherBody.
  fold location.
  rewrite (gridpoint_chain rt up (Weather.fetchStations up) "/stations" location a b point _ log
             (fun coords pointData stationsData => _) Hmatch Hpoint Hstations).
  cbn [Weather.station_features]. subst latest.
  erewrite bind_ok;
    [| now rewrite weatherApiRequest_settle, (settle_succeeded _ _ Hobs)].
  cbn [Weather.obs_properties]. unfold ret.
  now rewrite <- app_assoc.
Qed.

Lemma current_weather_asks_the_first_station_witness :
  let args : Args := {[ "location" := JStr "40.7128,-74.0060" ]} in
  let answer := FetchResponse 200 "OK"
                  (BodyJson {| Weather.obs_properties := Some Cases.calm |}) in
  let up := Cases.weatherWith (Some [Sample.centralPark; Cases.laGuardia]) answer in
  let coords := {| Weather.latitude := parseFloat Sample.runtime "40.7128";
                   Weather.longitude := parseFloat Sample.runtime "-74.0060" |} in
  let resolve := Weather.request "/points/40.7128,-74.006" in
  let nearby := Weather.request "/gridpoints/OKX/32,34/stations" in
  let latest := Weather.request "/stations/KNYC/observations/latest" in
  (Weather.coordMatch "40.7128,-74.0060" = Some ("40.7128", "-74.0060")
   /\ Outcome.succeeded (Weather.fetchPoint up resolve)
      = Some {| Weather.point_properties := Sample.okx |}
   /\ Outcome.succeeded (Weather.fetchStations up nearby)
      = Some {| Weather.station_features := Some [Sample.centralPark; Cases.laGuardia] |}
   /\ Outcome.succeeded (Weather.fetchObservation up latest)
      = Some {| Weather.obs_properties := Some Cases.calm |})
  /\ Weather.get_current_weather Sample.runtime up args []
     = (Ok (textResult
              (Weather.currentWeatherMarkdown Sample.runtime coords "KNYC" Cases.calm)),
        [resolve; nearby; latest]).
Proof.
  intros args answer up coords resolve nearby latest.
  split; [repeat split |].
  exact (current_weather_asks_the_first_station Sample.runtime up args []
           "40.7128" "-74.0060" {| Weather.point_properties := Sample.okx |}
           Sample.centralPark [Cases.laGuardia] Cases.calm
           eq_refl eq_refl eq_refl eq_refl).
Defined.

(** X10: when the station list of the gridpoint is missing or empty, the
    station tool does not fail: it returns the text "No weather stations found
    near" followed by the location, after the point request and the station
    request. *)
Theorem station_lookup_reports_an_empty_list (rt : Runtime) (up : Weather.Upstream)
    (args : Args) (log : list Weather.Request) (a b : string)
    (point : Weather.PointResponse) (stationsData : Weather.StationCollection) :
  let location := asString (field args "location") in
  let limit := asNumber (field args "limit") in
  let resolve :=
    Weather.request (Weather.pointsEndpoint rt (parseFloat rt a) (parseFloat rt b)) in
  let nearby :=
    Weather.request (Weather.gridpoint rt (Weather.point_properties point)
                     +:+ "/stations?limit=" +:+ numToString rt limit) in
  Weather.coordMatch location = Some (a, b) ->
  Outcome.succeeded (Weather.fetchPoint up resolve) = Some point ->
  Outcome.succeeded (Weather.fetchStations up nearby) = Some stationsData ->
  default [] (Weather.station_features stationsData) = [] ->
  Weather.find_weather_stations rt up args log
  = (Ok (textResult ("# Weather Stations" +:+ newline +:+ newline
                     +:+ "No weather stations found near " +:+ location +:+ ".")),
     (log ++ [resolve; nearby])%list).
Proof.
  intros location limit resolve nearby Hmatch Hpoint Hstations Hnone.
  unfold Weather.find_weather_stations, Weather.guarded.
  apply tryCatch_ok.
  unfold Weather.find_weather_stations_body, Weather.stationsBody.
  fold location limit.
  rewrite (gridpoint_chain rt up (Weather.fetchStations up)
             ("/stations?limit=" +:+ Weather.num rt limit) location a b point stationsData log
             (fun coords pointData stationsData => _) Hmatch Hpoint Hstations).
  now rewrite Hnone.
Qed.

Lemma station_lookup_reports_an_empty_list_witness :
  let args : Args :=
    <["location" := JStr "40.7128,-74.0060"]> (<["limit" := JNum 10]> ∅) in
  let up := Cases.weatherWith (Some []) (FetchRejected (JsOther None)) in
  let resolve := Weather.request "/points/40.7128,-74.006" in
  let nearby := Weather.request "/gridpoints/OKX/32,34/stations?limit=10" in
  (Weather.coordMatch "40.7128,-74.0060" = Some ("40.7128", "-74.0060")
   /\ Outcome.succeeded (Weather.fetchPoint up resolve)
      = Some {| Weather.point_properties := Sample.okx |}
   /\ Outcome.succeeded (Weather.fetchStations up nearby)
      = Some {| Weather.station_features := Some [] |}
   /\ default [] (Some [] : option (list Weather.Station)) = [])
  /\ Weather.find_weather_stations Sample.runtime up args []
     = (Ok (textResult ("# Weather Stations" +:+ newline +:+ newline
                        +:+ "No weather stations found near 40.7128,-74.0060.")),
        [resolve; nearby]).
Proof.
  intros args up resolve nearby.
  split; [repeat split |].
  exact (station_lookup_reports_an_empty_list Sample.runtime up args []
           "40.7128" "-74.0060" {| Weather.point_properties := Sample.okx |}
           {| Weather.station_features := Some [] |} eq_refl eq_refl eq_refl eq_refl).
Defined.

Lemma stationBlocks_heading (rt : Runtime) (up : Weather.Upstream)
    (stations : list Weather.Station) (station : Weather.Station) :
  In station stations ->
  includes (Weather.stationHeading rt station)
    (Outcome.stationBlocks rt up stations) = true.
Proof.
  intros Hin.
  apply (includes_trans _ (Outcome.stationBlock rt up station)).
  - unfold Outcome.stationBlock. apply includes_here.
  - now apply stationBlocks_includes.
Qed.

(** X11: when stations are listed, the station tool always returns a report,
    whatever the observation requests answer.  It issues one observation
    request per station, in the order of the list, after the point and the
    station request; the report starts with the heading and the number of
    stations and holds the heading lines of every station. *)
Theorem station_lookup_asks_every_station (rt : Runtime) (up : Weather.Upstream)
    (args : Args) (log : list Weather.Request) (a b : string)
    (point : Weather.PointResponse) (first : Weather.Station)
    (others : list Weather.Station) :
  let location := asString (field args "location") in
  let limit := asNumber (field args "limit") in
  let stations := first :: others in
  let resolve :=
    Weather.request (Weather.pointsEndpoint rt (parseFloat rt a) (parseFloat rt b)) in
  let nearby :=
    Weather.request (Weather.gridpoint rt (Weather.point_properties point)
                     +:+ "/stations?limit=" +:+ numToString rt limit) in
  let latest (station : Weather.Station) :=
    Weather.request ("/stations/" +:+ Weather.stationIdentifier station
                     +:+ "/observations/latest") in
  Weather.coordMatch location = Some (a, b) ->
  Outcome.succeeded (Weather.fetchPoint up resolve) = Some point ->
  Outcome.succeeded (Weather.fetchStations up nearby)
    = Some {| Weather.station_features := Some stations |} ->
  exists text,
    Weather.find_weather_stations rt up args log
    = (Ok (textResult text), (log ++ [resolve; nearby] ++ map latest stations)%list)
    /\ String.prefix
         ("# Weather Stations Near " +:+ location +:+ newline +:+ newline
          +:+ "Found " +:+ pretty (length stations) +:+ " station(s)") text = true
    /\ forall station, In station stations ->
         includes (Weather.stationHeading rt station) text = true.
Proof.
  intros location limit stations resolve nearby latest Hmatch Hpoint Hstations.
  eexists. split; [| split].
  - unfold Weather.find_weather_stations, Weather.guarded.
    apply tryCatch_ok.
    unfold Weather.find_weather_stations_body, Weather.stationsBody.
    fold location limit.
    rewrite (gridpoint_chain rt up (Weather.fetchStations up)
               ("/stations?limit=" +:+ Weather.num rt limit) location a b point _ log
               (fun coords pointData stationsData => _) Hmatch Hpoint Hstations).
    cbn [Weather.station_features default from_option id]. unfold id.
    subst stations. cbv iota.
    rewrite (bind_ok _ _ _ _ _ (forEach_stationStep rt up _ _ _)).
    unfold ret. rewrite <- !app_assoc. reflexivity.
  - subst stations.
    match goal with
    | |- String.prefix ?p ?t = true =>
        replace t with (p +:+ newline +:+ newline
                        +:+ Outcome.stationBlocks rt up (first :: others))
          by now rewrite !append_assoc
    end.
    apply prefix_append.
  - intros station Hin. apply includes_app_r.
    now apply stationBlocks_heading.
Qed.

Lemma station_lookup_asks_every_station_witness :
  let args : Args :=
    <["location" := JStr "40.7128,-74.0060"]> (<["limit" := JNum 10]> ∅) in
  let answer := FetchResponse 200 "OK"
                  (BodyJson {| Weather.obs_properties := Some Cases.calm |}) in
  let up := Cases.weatherWith (Some [Sample.centralPark; Cases.laGuardia]) answer in
  let resolve := Weather.request "/points/40.7128,-74.006" in
  let nearby := Weather.request "/gridpoints/OKX/32,34/stations?limit=10" in
  (Weather.coordMatch "40.7128,-74.0060" = Some ("40.7128", "-74.0060")
   /\ Outcome.succeeded (Weather.fetchPoint up resolve)
      = Some {| Weather.point_properties := Sample.okx |}
   /\ Outcome.succeeded (Weather.fetchStations up nearby)
      = Some {| Weather.station_features := Some [Sample.centralPark; Cases.laGuardia] |})
  /\ exists text,
       Weather.find_weather_stations Sample.runtime up args []
       = (Ok (textResult text),
          [resolve; nearby;
           Weather.request "/stations/KNYC/observations/latest";
           Weather.request "/stations/KLGA/observations/latest"])
       /\ String.prefix
            ("# Weather Stations Near 40.7128,-74.0060" +:+ newline +:+ newline
             +:+ "Found 2 station(s)") text = true
       /\ forall station, In station [Sample.centralPark; Cases.laGuardia] ->
            includes (Weather.stationHeading Sample.runtime station) text = true.
Proof.
  intros args answer up resolve nearby.
  split; [repeat split |].
  exact (station_lookup_asks_every_station Sample.runtime up args []
           "40.7128" "-74.0060" {| Weather.point_properties := Sample.okx |}
           Sample.centralPark [Cases.laGuardia] eq_refl eq_refl eq_refl).
Defined.

Lemma state_code_is_no_coordinate_pair (location : string) :
  Weather.isStateCode location = true -> Weather.coordMatch location = None.
Proof.
  destruct location as [|x [|y [|z rest]]]; try discriminate.
  simpl. intros [Hx Hy]%andb_prop. unfold Weather.coordMatch. simpl.
  destruct (Ascii.eqb_spec x ",") as [-> | _]; [discriminate |].
  destruct (Ascii.eqb_spec y ",") as [-> | _]; [discriminate | reflexivity].
Qed.

(** Once the endpoint is chosen, the alerts tool issues one request and
    reports what it yields. *)
Lemma alerts_at (rt : Runtime) (up : Weather.Upstream)
    (location severity endpoint : string) (log : list Weather.Request) :
  Weather.chooseAlertsEndpoint rt location log = (Ok endpoint, log) ->
  Weather.guarded (Weather.alertsBody rt up location severity) log
  = (Ok match Outcome.settle (Weather.fetchAlerts up (Weather.request endpoint)) with
        | Ok alertsData => Weather.alertsResult rt location severity alertsData
        | Throw e => Weather.errorResult e
        end,
     (log ++ [Weather.request endpoint])%list).
Proof.
  intros Hendpoint.
  unfold Weather.guarded, Weather.alertsBody.
  destruct (Outcome.settle (Weather.fetchAlerts up (Weather.request endpoint)))
    as [alertsData | e] eqn:Hsettle.
  - apply tryCatch_ok.
    rewrite (bind_ok _ _ _ _ _ Hendpoint).
    erewrite bind_ok; [reflexivity |].
    now rewrite weatherApiRequest_settle, Hsettle.
  - erewrite tryCatch_throw; [reflexivity |].
    rewrite (bind_ok _ _ _ _ _ Hendpoint).
    apply bind_throw.
    now rewrite weatherApiRequest_settle, Hsettle.
Qed.

(** X12: for a location made of two upper-case letters the alerts tool
    issues exactly one request, to the area listing of that code, and returns
    the alert report for its body, or the failure block of the request. *)
Theorem alerts_for_a_state_code (rt : Runtime) (up : Weather.Upstream)
    (args : Args) (log : list Weather.Request) :
  let location := asString (field args "location") in
  let severity := asString (field args "severity") in
  let area := Weather.request ("/alerts/active/area/" +:+ location) in
  Weather.isStateCode location = true ->
  Weather.get_weather_alerts rt up args log
  = (Ok match Outcome.settle (Weather.fetchAlerts up area) with
        | Ok alertsData => Weather.alertsResult rt location severity alertsData
        | Throw e => Weather.errorResult e
        end,
     (log ++ [area])%list).
Proof.
  intros location severity area Hstate.
  apply alerts_at. unfold Weather.chooseAlertsEndpoint.
  now rewrite Hstate.
Qed.

Lemma alerts_for_a_state_code_witness :
  let args : Args :=
    <["location" := JStr "CA"]> (<["severity" := JStr "all"]> ∅) in
  Weather.isStateCode "CA" = true
  /\ Weather.get_weather_alerts Sample.runtime Sample.weather args []
     = (Ok (textResult ("# Weather Alerts" +:+ newline +:+ newline
                        +:+ "No active weather alerts found for CA.")),
        [Weather.request "/alerts/active/area/CA"]).
Proof.
  intros args. split; [reflexivity |].
  exact (alerts_for_a_state_code Sample.runtime Sample.weather args [] eq_refl).
Defined.

(** X13: for a coordinate pair the alerts tool issues exactly one request,
    to the active alerts at that point (the two parsed numbers, printed as
    numbers), and returns the alert report for its body, or the failure block
    of the request. *)
Theorem alerts_for_a_coordinate_pair (rt : Runtime) (up : Weather.Upstream)
    (args : Args) (log : list Weather.Request) (a b : string) :
  let location := asString (field args "location") in
  let severity := asString (field args "severity") in
  let point :=
    Weather.request ("/alerts/active?point=" +:+ numToString rt (parseFloat rt a)
                     +:+ "," +:+ numToString rt (parseFloat rt b)) in
  Weather.coordMatch location = Some (a, b) ->
  Weather.get_weather_alerts rt up args log
  = (Ok match Outcome.settle (Weather.fetchAlerts up point) with
        | Ok alertsData => Weather.alertsResult rt location severity alertsData
        | Throw e => Weather.errorResult e
        end,
     (log ++ [point])%list).
Proof.
  intros location severity point Hmatch.
  apply alerts_at. unfold Weather.chooseAlertsEndpoint.
  destruct (Weather.isStateCode location) eqn:Hstate.
  - apply state_code_is_no_coordinate_pair in Hstate. congruence.
  - apply tryCatch_ok.
    now rewrite (bind_ok _ _ _ _ _ (parseLocation_ok rt location a b log Hmatch)).
Qed.

Lemma alerts_for_a_coordinate_pair_witness :
  let args : Args :=
    <["location" := JStr "40.7128,-74.0060"]> (<["severity" := JStr "all"]> ∅) in
  Weather.coordMatch "40.7128,-74.0060" = Some ("40.7128", "-74.0060")
  /\ Weather.get_weather_alerts Sample.runtime Sample.weather args []
     = (Ok (textResult ("# Weather Alerts" +:+ newline +:+ newline
                        +:+ "No active weather alerts found for 40.7128,-74.0060.")),
        [Weather.request "/alerts/active?point=40.7128,-74.006"]).
Proof.
  intros args. split; [reflexivity |].
  exact (alerts_for_a_coordinate_pair Sample.runtime Sample.weather args []
           "40.7128" "-74.0060" eq_refl).
Defined.

(** X14: when no alert is left to show (the list is missing or empty, or a
    severity filter is set and no alert has that severity in lower case, which
    includes every alert without a severity) the alert report is the text "No
    active weather alerts found for" followed by the location. *)
Theorem alerts_report_says_when_nothing_matches (rt : Runtime)
    (location severity : string) (alertsData : Weather.AlertCollection) :
  (forall alert, In alert (default [] (Weather.alert_features alertsData)) ->
     severity <> "all" /\ Weather.severityIs rt severity alert = false) ->
  Weather.alertsResult rt location severity alertsData
  = textResult ("# Weather Alerts" +:+ newline +:+ newline
                +:+ "No active weather alerts found for " +:+ location +:+ ".").
Proof.
  intros Hnone. unfold Weather.alertsResult.
  set (alerts := default [] (Weather.alert_features alertsData)) in *.
  assert ((if String.eqb severity "all" then alerts
           else List.filter (Weather.severityIs rt severity) alerts) = []) as ->;
    [| reflexivity].
  destruct (String.eqb_spec severity "all") as [Hall | _].
  - destruct alerts as [|alert rest]; [reflexivity |].
    now destruct (Hnone alert (or_introl eq_refl)).
  - apply filter_none. intros alert Hin. now destruct (Hnone alert Hin).
Qed.

Lemma alerts_report_says_when_nothing_matches_witness :
  let unrated : Weather.Alert :=
    {| Weather.event := "Flood Watch"; Weather.severity := None;
       Weather.urgency := "Future"; Weather.areaDesc := "Kings";
       Weather.effective := None; Weather.expires := None;
       Weather.alert_description := "Flooding is possible.";
       Weather.instruction := None |} in
  let alertsData := {| Weather.alert_features := Some [unrated] |} in
  (forall alert, In alert (default [] (Weather.alert_features alertsData)) ->
     "severe" <> "all" /\ Weather.severityIs Sample.runtime "severe" alert = false)
  /\ Weather.alertsResult Sample.runtime "NY" "severe" alertsData
     = textResult ("# Weather Alerts" +:+ newline +:+ newline
                   +:+ "No active weather alerts found for NY.").
Proof.
  intros unrated alertsData.
  assert (forall alert, In alert (default [] (Weather.alert_features alertsData)) ->
            "severe" <> "all"
            /\ Weather.severityIs Sample.runtime "severe" alert = false) as Hnone.
  { intros alert [<- | []]. split; [discriminate | reflexivity]. }
  split; [exact Hnone |].
  exact (alerts_report_says_when_nothing_matches Sample.runtime "NY" "severe"
           alertsData Hnone).
Defined.

(** X15: when some alert is left to show after the severity filter, the
    alert report starts with the heading for the location and the number of
    alerts shown, and holds the event heading of each of them. *)
Theorem alerts_report_lists_the_matches (rt : Runtime)
    (location severity : string) (alertsData : Weather.AlertCollection)
    (first : Weather.Alert) (others : list Weather.Alert) :
  let alerts := default [] (Weather.alert_features alertsData) in
  (if String.eqb severity "all" then alerts
   else List.filter
          (fun alert =>
             match Weather.severity alert with
             | Some given => String.eqb (toLowerCase rt given) severity
             | None => false
             end) alerts)
  = first :: others ->
  exists text,
    Weather.alertsResult rt location severity alertsData = textResult text
    /\ String.prefix
         ("# Weather Alerts for " +:+ location +:+ newline +:+ newline
          +:+ "Found " +:+ pretty (S (length others)) +:+ " active alert(s)")
         text = true
    /\ forall alert, In alert (first :: others) ->
         includes ("## " +:+ Weather.event alert) text = true.
Proof.
  intros alerts Hshown. unfold Weather.alertsResult. fold alerts.
  change (Weather.severityIs rt severity)
    with (fun alert =>
            match Weather.severity alert with
            | Some given => String.eqb (toLowerCase rt given) severity
            | None => false
            end).
  rewrite Hshown. cbv iota.
  eexists. split; [reflexivity |]. split.
  - apply fold_left_append_prefix.
    match goal with
    | |- String.prefix ?p ?t = true =>
        replace t with (p +:+ newline +:+ newline) by now rewrite !append_assoc
    end.
    apply prefix_append.
  - intros alert Hin.
    apply (includes_trans _ (Weather.alertMarkdown rt alert)).
    + unfold Weather.alertMarkdown. rewrite <- append_assoc. apply includes_here.
    + now apply (fold_left_append_includes (Weather.alertMarkdown rt)).
Qed.

Lemma alerts_report_lists_the_matches_witness :
  let storm (given : option string) : Weather.Alert :=
    {| Weather.event := "Winter Storm Warning"; Weather.severity := given;
       Weather.urgency := "Expected"; Weather.areaDesc := "Kings";
       Weather.effective := None; Weather.expires := None;
       Weather.alert_description := "Heavy snow.";
       Weather.instruction := None |} in
  let alertsData :=
    {| Weather.alert_features := Some [storm (Some "severe"); storm None] |} in
  (if String.eqb "severe" "all" then default [] (Weather.alert_features alertsData)
   else List.filter
          (fun alert =>
             match Weather.severity alert with
             | Some given => String.eqb (toLowerCase Sample.runtime given) "severe"
             | None => false
             end) (default [] (Weather.alert_features alertsData)))
  = [storm (Some "severe")]
  /\ exists text,
       Weather.alertsResult Sample.runtime "NY" "severe" alertsData = textResult text
       /\ String.prefix
            ("# Weather Alerts for NY" +:+ newline +:+ newline
             +:+ "Found 1 active alert(s)") text = true
       /\ forall alert, In alert [storm (Some "severe")] ->
            includes ("## " +:+ Weather.event alert) text = true.
Proof.
  intros storm alertsData. split; [reflexivity |].
  exact (alerts_report_lists_the_matches Sample.runtime "NY" "severe" alertsData
           (storm (Some "severe")) [] eq_refl).
Defined.

(** ** The mapping adapter *)

(** A computation that issues no call. *)
Lemma bind_silent {C A B} (m : M C A) (k : A -> M C B) (log log1 : list C) :
  snd (m log) = log1 ->
  (forall a l, snd (k a l) = l) ->
  snd (bind m k log) = log1.
Proof.
  intros Hm Hk. unfold bind. destruct (m log) as [[a | e] l]; simpl in *.
  - now rewrite Hk.
  - exact Hm.
Qed.

Lemma mapM_silent {C A B} (f : A -> M C B) (xs : list A) (log : list C) :
  (forall x l, snd (f x l) = l) -> snd (mapM f xs log) = log.
Proof.
  intros Hf. revert log. induction xs as [|x xs IH]; intros log; [reflexivity |].
  cbn [mapM]. apply bind_silent; [apply Hf |].
  intros y l. apply bind_silent; [apply IH | reflexivity].
Qed.

Lemma fetchJson_log {T} (fetch : Maps.Request -> FetchOutcome T) (r : Maps.Request)
    (log : list Maps.Request) :
  snd (Maps.fetchJson fetch r log) = (log ++ [r])%list.
Proof.
  unfold Maps.fetchJson, bind, call.
  destruct (fetch r) as [e | status statusText [data | e]]; reflexivity.
Qed.

Lemma requireOk_silent {P} (what : string) (data : Maps.Answer P)
    (log : list Maps.Request) :
  snd (Maps.requireOk what data log) = log.
Proof. unfold Maps.requireOk. now destruct (String.eqb _ _). Qed.

Lemma routeValue_silent (route : Maps.Route) (log : list Maps.Request) :
  snd (Maps.routeValue route log) = log.
Proof. unfold Maps.routeValue. now destruct (Maps.legs route). Qed.

Ltac silent :=
  intros; repeat first
    [ reflexivity
    | apply requireOk_silent
    | apply routeValue_silent
    | apply mapM_silent; intros
    | apply bind_silent; intros
    | match goal with
      | |- snd (match ?x with _ => _ end _) = _ => destruct x
      end ].

(** X16: every tool of the mapping adapter issues exactly one request,
    whether it returns or throws; the request goes to an endpoint of the
    mapping API and carries the configured API key among its parameters. *)
Theorem maps_tools_send_one_keyed_request (rt : Runtime) (key : string)
    (up : Maps.Upstream) (t : ToolDefinition Maps.Request) (args : Args)
    (log : list Maps.Request) :
  In t (Maps.tools rt key up) ->
  exists r,
    snd (handler t args log) = (log ++ [r])%list
    /\ In ("key", key) (Maps.searchParams r)
    /\ String.prefix "https://maps.googleapis.com/maps/api/" (Maps.base r) = true.
Proof.
  unfold Maps.tools.
  intros [<- | [<- | [<- | [<- | [<- | [<- | [<- | []]]]]]]]; cbn [handler].
  - eexists. split; [| split].
    + unfold Maps.maps_geocode, Maps.handleGeocode.
      apply bind_silent; [| silent].
      apply bind_silent; [apply fetchJson_log | silent].
    + simpl; tauto.
    + reflexivity.
  - eexists. split; [| split].
    + unfold Maps.maps_reverse_geocode, Maps.handleReverseGeocode.
      apply bind_silent; [| silent].
      apply bind_silent; [apply fetchJson_log | silent].
    + simpl; tauto.
    + reflexivity.
  - eexists. split; [| split].
    + unfold Maps.maps_search_places, Maps.handlePlaceSearch.
      apply bind_silent; [| silent].
      apply bind_silent; [apply fetchJson_log | silent].
    + cbn [Maps.searchParams].
      destruct (field args "location"), (field args "radius");
        try (destruct (truthyNum _)); rewrite ?in_app_iff; simpl; tauto.
    + reflexivity.
  - eexists. split; [| split].
    + unfold Maps.maps_place_details, Maps.handlePlaceDetails.
      apply bind_silent; [| silent].
      apply bind_silent; [apply fetchJson_log | silent].
    + simpl; tauto.
    + reflexivity.
  - eexists. split; [| split].
    + unfold Maps.maps_distance_matrix, Maps.handleDistanceMatrix.
      apply bind_silent; [| silent].
      apply bind_silent; [apply fetchJson_log | silent].
    + simpl; tauto.
    + reflexivity.
  - eexists. split; [| split].
    + unfold Maps.maps_elevation, Maps.handleElevation.
      apply bind_silent; [| silent].
      apply bind_silent; [apply fetchJson_log | silent].
    + simpl; tauto.
    + reflexivity.
  - eexists. split; [| split].
    + unfold Maps.maps_directions_tool, handler, Maps.maps_directions,
        Maps.handleDirections.
      apply bind_silent; [| silent].
      apply bind_silent; [apply fetchJson_log | silent].
    + simpl; tauto.
    + reflexivity.
Qed.

Lemma maps_tools_send_one_keyed_request_witness :
  let args : Args :=
    <["origin" := JStr "Paris"]> (<["destination" := JStr "Lyon"]> ∅) in
  let t := Maps.maps_directions_tool Sample.runtime "KEY" Sample.maps in
  In t (Maps.tools Sample.runtime "KEY" Sample.maps)
  /\ exists r,
       snd (handler t args []) = ([] ++ [r])%list
       /\ In ("key", "KEY") (Maps.searchParams r)
       /\ String.prefix "https://maps.googleapis.com/maps/api/" (Maps.base r) = true.
Proof.
  intros args t.
  assert (In t (Maps.tools Sample.runtime "KEY" Sample.maps)) as Hin
    by (do 6 right; left; reflexivity).
  split; [exact Hin |].
  exact (maps_tools_send_one_keyed_request Sample.runtime "KEY" Sample.maps t args [] Hin).
Defined.

Lemma refused_answer {P R} (fetch : Maps.Request -> FetchOutcome (Maps.Answer P))
    (r : Maps.Request) (what status : string) (error_message : option string)
    (k : Maps.Answer P -> unit -> M Maps.Request R) (log : list Maps.Request) :
  status <> "OK" ->
  MapsOutcome.answersWith fetch status error_message ->
  bind (Maps.fetchJson fetch r) (fun data => bind (Maps.requireOk what data) (k data)) log
  = (Throw (JsError (what +:+ ": "
                     +:+ match error_message with
                         | Some m => if String.eqb m "" then status else m
                         | None => status
                         end)),
     (log ++ [r])%list).
Proof.
  intros Hstatus Hanswer.
  destruct (Hanswer r) as (httpStatus & httpText & payload & Hr).
  erewrite bind_ok;
    [| unfold Maps.fetchJson, bind, call; rewrite Hr; reflexivity].
  apply bind_throw.
  unfold Maps.requireOk. cbn [Maps.status].
  destruct (String.eqb_spec status "OK") as [? | _]; [contradiction |].
  unfold throw, Maps.reason. cbn [Maps.error_message Maps.status].
  destruct error_message as [m |]; [| reflexivity].
  unfold truthyStr. now destruct (String.eqb m "").
Qed.

(** X17: when the mapping service answers with a status other than "OK",
    every tool of the mapping adapter throws, after its single request, an
    error whose message is the failure prefix of the tool, a colon, and the
    error message of the answer, or the status when the answer has no error
    message or an empty one.  The payload and the HTTP status play no part. *)
Theorem maps_tools_throw_the_reason (rt : Runtime) (key : string)
    (up : Maps.Upstream) (status : string) (error_message : option string)
    (t : ToolDefinition Maps.Request) (args : Args) (log : list Maps.Request) :
  status <> "OK" ->
  MapsOutcome.answersWith (Maps.fetchGeocode up) status error_message ->
  MapsOutcome.answersWith (Maps.fetchPlaces up) status error_message ->
  MapsOutcome.answersWith (Maps.fetchDetails up) status error_message ->
  MapsOutcome.answersWith (Maps.fetchMatrix up) status error_message ->
  MapsOutcome.answersWith (Maps.fetchElevation up) status error_message ->
  MapsOutcome.answersWith (Maps.fetchDirections up) status error_message ->
  In t (Maps.tools rt key up) ->
  exists what r,
    In (name t, what)
      [("maps_geocode", "Geocoding failed");
       ("maps_reverse_geocode", "Reverse geocoding failed");
       ("maps_search_places", "Place search failed");
       ("maps_place_details", "Place details request failed");
       ("maps_distance_matrix", "Distance matrix request failed");
       ("maps_elevation", "Elevation request failed");
       ("maps_directions", "Directions request failed")]
    /\ handler t args log
       = (Throw (JsError (what +:+ ": "
                          +:+ match error_message with
                              | Some m => if String.eqb m "" then status else m
                              | None => status
                              end)),
          (log ++ [r])%list).
Proof.
  intros Hstatus Hgeocode Hplaces Hdetails Hmatrix Helevation Hdirections.
  unfold Maps.tools.
  intros [<- | [<- | [<- | [<- | [<- | [<- | [<- | []]]]]]]]; cbn [handler name].
  - eexists _, _. split; [left; reflexivity |].
    apply bind_throw. now apply refused_answer.
  - eexists _, _. split; [right; left; reflexivity |].
    apply bind_throw. now apply refused_answer.
  - eexists _, _. split; [do 2 right; left; reflexivity |].
    apply bind_throw. unfold Maps.handlePlaceSearch.
    now apply (refused_answer _ _ _ _ _ (fun data _ => ret _)).
  - eexists _, _. split; [do 3 right; left; reflexivity |].
    apply bind_throw. unfold Maps.handlePlaceDetails.
    now apply (refused_answer _ _ _ _ _ (fun data _ => ret _)).
  - eexists _, _. split; [do 4 right; left; reflexivity |].
    apply bind_throw. unfold Maps.handleDistanceMatrix.
    now apply (refused_answer _ _ _ _ _ (fun data _ => ret _)).
  - eexists _, _. split; [do 5 right; left; reflexivity |].
    apply bind_throw. unfold Maps.handleElevation.
    now apply (refused_answer _ _ _ _ _ (fun data _ => ret _)).
  - eexists _, _. split; [do 6 right; left; reflexivity |].
    apply bind_throw. unfold Maps.handleDirections.
    now apply (refused_answer _ _ _ _ _ (fun data _ => bind _ _)).
Qed.

Lemma sample_maps_answer {P} (p : P) :
  MapsOutcome.answersWith (fun _ : Maps.Request => Sample.noResults p) "ZERO_RESULTS" None.
Proof. intros r. now exists 200%Z, "OK", p. Defined.

Lemma maps_tools_throw_the_reason_witness :
  let args : Args :=
    <["origin" := JStr "Paris"]> (<["destination" := JStr "Lyon"]> ∅) in
  let t := Maps.maps_directions_tool Sample.runtime "KEY" Sample.maps in
  ("ZERO_RESULTS" <> "OK"
   /\ In t (Maps.tools Sample.runtime "KEY" Sample.maps))
  /\ exists what r,
       In (name t, what)
         [("maps_geocode", "Geocoding failed");
          ("maps_reverse_geocode", "Reverse geocoding failed");
          ("maps_search_places", "Place search failed");
          ("maps_place_details", "Place details request failed");
          ("maps_distance_matrix", "Distance matrix request failed");
          ("maps_elevation", "Elevation request failed");
          ("maps_directions", "Directions request failed")]
       /\ handler t args []
          = (Throw (JsError (what +:+ ": " +:+ "ZERO_RESULTS")), ([] ++ [r])%list).
Proof.
  intros args t.
  assert ("ZERO_RESULTS" <> "OK") as Hstatus by discriminate.
  assert (In t (Maps.tools Sample.runtime "KEY" Sample.maps)) as Hin
    by (do 6 right; left; reflexivity).
  split; [split; assumption |].
  exact (maps_tools_throw_the_reason Sample.runtime "KEY" Sample.maps
           "ZERO_RESULTS" None t args [] Hstatus
           (sample_maps_answer _) (sample_maps_answer _) (sample_maps_answer _)
           (sample_maps_answer _) (sample_maps_answer _) (sample_maps_answer _) Hin).
Defined.

(** X18: when the geocoding answer has status "OK", the geocode tool returns
    the location, address and place id of the first result as indented JSON;
    the other results, the error message and the HTTP status of the response
    (which may be a failing one) are not looked at. *)
Theorem maps_geocode_returns_the_first_result (rt : Runtime) (key : string)
    (up : Maps.Upstream) (args : Args) (log : list Maps.Request)
    (httpStatus : Z) (httpText : string) (error_message : option string)
    (first : Maps.GeocodeEntry) (others : list Maps.GeocodeEntry) :
  let sent :=
    {| Maps.base := "https://maps.googleapis.com/maps/api/geocode/json";
       Maps.searchParams := [("address", asString (field args "address"));
                             ("key", key)] |} in
  Maps.fetchGeocode up sent
  = FetchResponse httpStatus httpText
      (BodyJson {| Maps.status := "OK"; Maps.error_message := error_message;
                   Maps.payload := first :: others |}) ->
  Maps.maps_geocode rt key up args log
  = (Ok (textResult
           (JSON_stringify_indent rt
              (JObj [("location", Maps.geometry_location first);
                     ("formatted_address", Maps.formatted_address first);
                     ("place_id", Maps.place_id first)]) 2)),
     (log ++ [sent])%list).
Proof.
  intros sent Hanswer.
  unfold Maps.maps_geocode, Maps.handleGeocode, Maps.fetchJson, bind, call.
  fold sent. now rewrite Hanswer.
Qed.

Lemma maps_geocode_returns_the_first_result_witness :
  let args : Args := {[ "address" := JStr "Paris" ]} in
  let sent :=
    {| Maps.base := "https://maps.googleapis.com/maps/api/geocode/json";
       Maps.searchParams := [("address", "Paris"); ("key", "KEY")] |} in
  let entry (id : string) : Maps.GeocodeEntry :=
    {| Maps.place_id := JStr id; Maps.formatted_address := JStr "Paris, France";
       Maps.geometry_location := JObj [("lat", JNum 48); ("lng", JNum 2)];
       Maps.address_components := JArr [] |} in
  let up := Cases.geocoding 500 (Some "ignored") [entry "a"; entry "b"] in
  Maps.fetchGeocode up sent
  = FetchResponse 500 "Internal Server Error"
      (BodyJson {| Maps.status := "OK"; Maps.error_message := Some "ignored";
                   Maps.payload := [entry "a"; entry "b"] |})
  /\ Maps.maps_geocode Sample.runtime "KEY" up args []
     = (Ok (textResult
              (JSON_stringify_indent Sample.runtime
                 (JObj [("location", JObj [("lat", JNum 48); ("lng", JNum 2)]);
                        ("formatted_address", JStr "Paris, France");
                        ("place_id", JStr "a")]) 2)),
        [sent]).
Proof.
  intros args sent entry up. split; [reflexivity |].
  exact (maps_geocode_returns_the_first_result Sample.runtime "KEY" up args []
           500%Z "Internal Server Error" (Some "ignored") (entry "a") [entry "b"]
           eq_refl).
Defined.

(** X19: when the geocoding answer has status "OK" and no result, the
    geocode tool and the reverse-geocode tool throw an error after their
    request: they have no reply for an empty list. *)
Theorem maps_geocoders_throw_on_an_empty_result (rt : Runtime) (key : string)
    (up : Maps.Upstream) (args : Args) (log : list Maps.Request) :
  (forall r, exists httpStatus httpText error_message,
      Maps.fetchGeocode up r
      = FetchResponse httpStatus httpText
          (BodyJson {| Maps.status := "OK"; Maps.error_message := error_message;
                       Maps.payload := [] |})) ->
  exists message message' r r',
    Maps.maps_geocode rt key up args log
    = (Throw (JsError message), (log ++ [r])%list)
    /\ Maps.maps_reverse_geocode rt key up args log
       = (Throw (JsError message'), (log ++ [r'])%list).
Proof.
  intros Hempty.
  eexists _, _, _, _. split.
  - unfold Maps.maps_geocode, Maps.handleGeocode, Maps.fetchJson, bind, call.
    match goal with
    | |- context [Maps.fetchGeocode up ?r] =>
        destruct (Hempty r) as (? & ? & ? & ->)
    end.
    reflexivity.
  - unfold Maps.maps_reverse_geocode, Maps.handleReverseGeocode, Maps.fetchJson,
      bind, call.
    match goal with
    | |- context [Maps.fetchGeocode up ?r] =>
        destruct (Hempty r) as (? & ? & ? & ->)
    end.
    reflexivity.
Qed.

Lemma maps_geocoders_throw_on_an_empty_result_witness :
  let args : Args := {[ "address" := JStr "Paris" ]} in
  let up := Cases.geocoding 200 None [] in
  (forall r, exists httpStatus httpText error_message,
      Maps.fetchGeocode up r
      = FetchResponse httpStatus httpText
          (BodyJson {| Maps.status := "OK"; Maps.error_message := error_message;
                       Maps.payload := [] |}))
  /\ exists message message' r r',
       Maps.maps_geocode Sample.runtime "KEY" up args []
       = (Throw (JsError message), ([] ++ [r])%list)
       /\ Maps.maps_reverse_geocode Sample.runtime "KEY" up args []
          = (Throw (JsError message'), ([] ++ [r'])%list).
Proof.
  intros args up.
  assert (forall r, exists httpStatus httpText error_message,
            Maps.fetchGeocode up r
            = FetchResponse httpStatus httpText
                (BodyJson {| Maps.status := "OK"; Maps.error_message := error_message;
                             Maps.payload := [] |})) as Hempty.
  { intros r. now exists 200%Z, "", None. }
  split; [exact Hempty |].
  exact (maps_geocoders_throw_on_an_empty_result Sample.runtime "KEY" up args [] Hempty).
Defined.

(** X20: a radius of zero is not sent: the place search behaves with radius
    0 exactly as it does without a radius. *)
Theorem maps_search_places_drops_a_zero_radius (rt : Runtime) (key : string)
    (up : Maps.Upstream) (args : Args) (log : list Maps.Request) (radius : Q) :
  (radius == 0)%Q ->
  Maps.maps_search_places rt key up (<["radius" := JNum radius]> args) log
  = Maps.maps_search_places rt key up (delete "radius" args) log.
Proof.
  intros Hzero.
  assert (truthyNum radius = false) as Htruthy.
  { unfold truthyNum, Qeq in *. simpl in Hzero.
    rewrite Z.mul_1_r in Hzero. now rewrite Hzero. }
  assert (field (<["radius" := JNum radius]> args) "radius" = JNum radius) as Hset
    by (unfold field; now simplify_map_eq).
  assert (field (delete "radius" args) "radius" = JUndefined) as Hunset
    by (unfold field; now simplify_map_eq).
  assert (forall p, p <> "radius" ->
            field (<["radius" := JNum radius]> args) p
            = field (delete "radius" args) p) as Hother
    by (intros p Hp; unfold field; now simplify_map_eq).
  unfold Maps.maps_search_places, Maps.handlePlaceSearch.
  rewrite Hset, Hunset, Htruthy, !Hother by discriminate.
  reflexivity.
Qed.

Lemma maps_search_places_drops_a_zero_radius_witness :
  let args : Args := {[ "query" := JStr "cafe" ]} in
  (0 == 0)%Q
  /\ Maps.maps_search_places Sample.runtime "KEY" Sample.maps
       (<["radius" := JNum 0]> args) []
     = Maps.maps_search_places Sample.runtime "KEY" Sample.maps
         (delete "radius" args) [].
Proof.
  intros args. split; [reflexivity |].
  exact (maps_search_places_drops_a_zero_radius Sample.runtime "KEY" Sample.maps
           args [] 0 (Qeq_refl 0)).
Defined.

(** ** The hosting adapter *)

Section Client.
Context (rt : Runtime) (octokit : GitHub.Call -> GitHub.Reply).

Lemma rest_run (method : string) (parameters : list (string * Value))
    (log : list GitHub.Call) :
  let c := {| GitHub.method := method; GitHub.parameters := parameters |} in
  GitHub.rest octokit method parameters log
  = (match octokit c with
     | GitHub.Rejected e => Throw e
     | GitHub.Resolved data => Ok data
     end, (log ++ [c])%list).
Proof.
  intros c. unfold GitHub.rest, bind, call. fold c.
  now destruct (octokit c).
Qed.

Lemma forward_run (method : string) (parameters : list (string * Value))
    (log : list GitHub.Call) :
  let c := {| GitHub.method := method; GitHub.parameters := parameters |} in
  GitHub.guarded (GitHub.forward rt octokit method parameters) log
  = (match octokit c with
     | GitHub.Resolved data => Ok (textResult (JSON_stringify rt data))
     | GitHub.Rejected e =>
         match e with
         | JsError message | JsOther (Some message) =>
             Ok (textResult ("Error: " +:+ message))
         | JsOther None => Ok (textResult "Error: undefined")
         | JsNullish null =>
             Throw (JsError ("Cannot read properties of "
                             +:+ (if null then "null" else "undefined")
                             +:+ " (reading 'message')"))
         end
     end, (log ++ [c])%list).
Proof.
  intros c. unfold GitHub.guarded, GitHub.forward, tryCatch, bind.
  rewrite rest_run. fold c.
  destruct (octokit c) as [e | data]; [apply errorResult_run | reflexivity].
Qed.

End Client.

(** X21: every tool of the hosting adapter other than get_repository,
    get_file_contents, get_repository_tree, create_branch, get_tag, push_files
    and get_pull_request_status issues exactly one call of the client, the
    method listed for it below.  It returns the JSON text of the data when the
    call resolves.  When the call rejects with a value other than undefined
    and null it returns the block "Error: " followed by the message property
    of that value ("undefined" when it has none); when it rejects with
    undefined or null the tool itself fails, with the type error of reading
    their message. *)
Theorem forwarding_tools_make_one_call (rt : Runtime)
    (octokit : GitHub.Call -> GitHub.Reply) (t : ToolDefinition GitHub.Call)
    (body : Args -> M GitHub.Call CallToolResult) (args : Args)
    (log : list GitHub.Call) :
  In (t, body) (GitHub.triedTools rt octokit) ->
  ~ In (name t) ["get_repository"; "get_file_contents"; "get_repository_tree";
                 "create_branch"; "get_tag"; "push_files";
                 "get_pull_request_status"] ->
  exists c,
    In (name t, GitHub.method c)
      [("search_repositories", "search.repos");
       ("search_code", "search.code");
       ("search_users", "search.users");
       ("get_issue", "issues.get");
       ("add_issue_comment", "issues.createComment");
       ("search_issues", "search.issuesAndPullRequests");
       ("create_issue", "issues.create");
       ("list_issues", "issues.listForRepo");
       ("update_issue", "issues.update");
       ("get_issue_comments", "issues.listComments");
       ("get_commit", "repos.getCommit");
       ("list_commits", "repos.listCommits");
       ("list_branches", "repos.listBranches");
       ("create_or_update_file", "repos.createOrUpdateFileContents");
       ("create_repository", "repos.createForAuthenticatedUser");
       ("fork_repository", "repos.createFork");
       ("list_tags", "repos.listTags");
       ("get_pull_request", "pulls.get");
       ("update_pull_request", "pulls.update");
       ("list_pull_requests", "pulls.list");
       ("merge_pull_request", "pulls.merge");
       ("get_pull_request_files", "pulls.listFiles");
       ("create_pull_request", "pulls.create")]
    /\ handler t args log
       = (match octokit c with
          | GitHub.Resolved data => Ok (textResult (JSON_stringify rt data))
          | GitHub.Rejected e =>
              match e with
              | JsError message | JsOther (Some message) =>
                  Ok (textResult ("Error: " +:+ message))
              | JsOther None => Ok (textResult "Error: undefined")
              | JsNullish null =>
                  Throw (JsError ("Cannot read properties of "
                                  +:+ (if null then "null" else "undefined")
                                  +:+ " (reading 'message')"))
              end
          end,
          (log ++ [c])%list).
Proof.
  unfold GitHub.triedTools, GitHub.searchTools, GitHub.issueTools,
    GitHub.repositoryTools, GitHub.pullRequestTried.
  cbn [map app].
  intros H Hnot.
  repeat (destruct H as [[= <- <-] | H];
          [first [ exfalso; apply Hnot; cbn [name GitHub.tried]; simpl; tauto
                 | eexists; split;
                   [| apply forward_run];
                   cbn [name GitHub.tried GitHub.search_repositories_tool
                        GitHub.method];
                   repeat first [left; reflexivity | right] ] |]).
  destruct H.
Qed.

Lemma forwarding_tools_make_one_call_witness :
  let args : Args :=
    <["query" := JStr "rocq"]> (<["per_page" := JNum 30]> (<["page" := JNum 1]> ∅)) in
  let answering (reply : GitHub.Reply) : GitHub.Call -> GitHub.Reply :=
    fun _ => reply in
  let run (reply : GitHub.Reply) :=
    handler (GitHub.search_repositories_tool Sample.runtime (answering reply)) args [] in
  let found := JObj [("total_count", JNum 0)] in
  (forall reply,
     In (GitHub.search_repositories_tool Sample.runtime (answering reply),
         GitHub.search_repositories_body Sample.runtime (answering reply))
        (GitHub.triedTools Sample.runtime (answering reply)))
  /\ ~ In "search_repositories"
         ["get_repository"; "get_file_contents"; "get_repository_tree";
          "create_branch"; "get_tag"; "push_files"; "get_pull_request_status"]
  /\ (exists c,
        GitHub.method c = "search.repos"
        /\ run (GitHub.Resolved found)
           = (Ok (textResult (JSON_stringify Sample.runtime found)), [c]))
  /\ (exists c,
        GitHub.method c = "search.repos"
        /\ run (GitHub.Rejected (JsError "Not Found"))
           = (Ok (textResult "Error: Not Found"), [c]))
  /\ (exists c,
        GitHub.method c = "search.repos"
        /\ run (GitHub.Rejected (JsOther None))
           = (Ok (textResult "Error: undefined"), [c]))
  /\ (exists c,
        GitHub.method c = "search.repos"
        /\ run (GitHub.Rejected (JsNullish true))
           = (Throw (JsError "Cannot read properties of null (reading 'message')"),
              [c])).
Proof.
  intros args answering run found.
  assert (forall reply,
            In (GitHub.search_repositories_tool Sample.runtime (answering reply),
                GitHub.search_repositories_body Sample.runtime (answering reply))
               (GitHub.triedTools Sample.runtime (answering reply))) as Hin
    by (intros reply; left; reflexivity).
  assert (~ In "search_repositories"
              ["get_repository"; "get_file_contents"; "get_repository_tree";
               "create_branch"; "get_tag"; "push_files";
               "get_pull_request_status"]) as Hnot.
  { cbn. intros H. repeat (destruct H as [H | H]; [discriminate H |]). exact H. }
  assert (forall reply,
            exists c,
              GitHub.method c = "search.repos"
              /\ run reply
                 = (match reply with
                    | GitHub.Resolved data =>
                        Ok (textResult (JSON_stringify Sample.runtime data))
                    | GitHub.Rejected e =>
                        match e with
                        | JsError message | JsOther (Some message) =>
                            Ok (textResult ("Error: " +:+ message))
                        | JsOther None => Ok (textResult "Error: undefined")
                        | JsNullish null =>
                            Throw (JsError ("Cannot read properties of "
                                            +:+ (if null then "null" else "undefined")
                                            +:+ " (reading 'message')"))
                        end
                    end, [c])) as Hrun.
  { intros reply.
    destruct (forwarding_tools_make_one_call Sample.runtime (answering reply)
                _ _ args [] (Hin reply) Hnot) as [c [Hmethod Hc]].
    exists c. split; [| exact Hc].
    cbn in Hmethod.
    destruct Hmethod as [Hmethod | Hmethod]; [now injection Hmethod | exfalso].
    repeat (destruct Hmethod as [Hmethod | Hmethod]; [discriminate Hmethod |]).
    exact Hmethod. }
  split; [exact Hin |]. split; [exact Hnot |].
  split; [exact (Hrun _) |]. split; [exact (Hrun _) |].
  split; exact (Hrun _).
Defined.

(** X22: the status tool first fetches the pull request.  When that call
    rejects, nothing else is asked for: the tool returns the block "Error: "
    followed by the message property of what the call rejected with
    ("undefined" when it has none), and fails with the type error of reading
    the message when the call rejected with undefined or null.  When the call
    resolves, the combined status is requested for the head commit named in
    the answer, and the tool returns the JSON text of its data, or what the
    catch makes of its rejection.  When the answer has no head, the tool
    returns the block with the type error of reading its sha after the first
    call. *)
Theorem pull_request_status_follows_the_head (rt : Runtime)
    (octokit : GitHub.Call -> GitHub.Reply) (args : Args) (log : list GitHub.Call) :
  let pull :=
    {| GitHub.method := "pulls.get";
       GitHub.parameters := [("owner", field args "owner");
                             ("repo", field args "repo");
                             ("pull_number", field args "pullNumber")] |} in
  let combined (sha : Value) :=
    {| GitHub.method := "repos.getCombinedStatusForRef";
       GitHub.parameters := [("owner", field args "owner");
                             ("repo", field args "repo");
                             ("ref", sha)] |} in
  let caught (e : Thrown) : Res CallToolResult :=
    match e with
    | JsError message | JsOther (Some message) =>
        Ok (textResult ("Error: " +:+ message))
    | JsOther None => Ok (textResult "Error: undefined")
    | JsNullish null =>
        Throw (JsError ("Cannot read properties of "
                        +:+ (if null then "null" else "undefined")
                        +:+ " (reading 'message')"))
    end in
  let run := GitHub.guarded (GitHub.get_pull_request_status_body rt octokit args) log in
  (forall e, octokit pull = GitHub.Rejected e ->
     run = (caught e, (log ++ [pull])%list))
  /\ (forall fields headFields,
        octokit pull = GitHub.Resolved (JObj fields) ->
        lookupField fields "head" = JObj headFields ->
        let status := combined (lookupField headFields "sha") in
        run = (match octokit status with
               | GitHub.Resolved data => Ok (textResult (JSON_stringify rt data))
               | GitHub.Rejected e => caught e
               end,
               (log ++ [pull; status])%list))
  /\ (forall fields,
        octokit pull = GitHub.Resolved (JObj fields) ->
        lookupField fields "head" = JUndefined ->
        run = (Ok (textResult
                     "Error: Cannot read properties of undefined (reading 'sha')"),
               (log ++ [pull])%list)).
Proof.
  intros pull combined caught run. subst run.
  unfold GitHub.guarded, GitHub.get_pull_request_status_body, GitHub.pullParams,
    tryCatch, bind.
  rewrite rest_run. fold pull.
  split; [| split].
  - intros e ->. apply errorResult_run.
  - intros fields headFields -> Hhead. cbn [GitHub.getProp ret]. rewrite Hhead.
    cbn [GitHub.getProp ret]. rewrite rest_run.
    fold (combined (lookupField headFields "sha")).
    rewrite <- app_assoc.
    destruct (octokit (combined (lookupField headFields "sha"))) as [e | data];
      [apply errorResult_run | reflexivity].
  - intros fields -> Hhead. cbn [GitHub.getProp ret]. rewrite Hhead.
    reflexivity.
Qed.

Lemma pull_request_status_follows_the_head_witness :
  let args : Args :=
    <["owner" := JStr "o"]> (<["repo" := JStr "r"]> (<["pullNumber" := JNum 7]> ∅)) in
  let pull :=
    {| GitHub.method := "pulls.get";
       GitHub.parameters := [("owner", JStr "o"); ("repo", JStr "r");
                             ("pull_number", JNum 7)] |} in
  let status :=
    {| GitHub.method := "repos.getCombinedStatusForRef";
       GitHub.parameters := [("owner", JStr "o"); ("repo", JStr "r");
                             ("ref", JStr "c0")] |} in
  let rejecting : GitHub.Call -> GitHub.Reply :=
    fun _ => GitHub.Rejected (JsNullish false) in
  (Sample.octokit pull = GitHub.Rejected (JsError "Not Found")
   /\ GitHub.guarded
        (GitHub.get_pull_request_status_body Sample.runtime Sample.octokit args) []
      = (Ok (textResult "Error: Not Found"), [pull]))
  /\ (Cases.hosting pull = GitHub.Resolved (JObj [("head", JObj [("sha", JStr "c0")])])
      /\ GitHub.guarded
           (GitHub.get_pull_request_status_body Sample.runtime Cases.hosting args) []
         = (Ok (textResult
                  (JSON_stringify Sample.runtime (JObj [("state", JStr "success")]))),
            [pull; status]))
  /\ (rejecting pull = GitHub.Rejected (JsNullish false)
      /\ GitHub.guarded
           (GitHub.get_pull_request_status_body Sample.runtime rejecting args) []
         = (Throw (JsError "Cannot read properties of undefined (reading 'message')"),
            [pull])).
Proof.
  intros args pull status rejecting.
  split; [| split]; (split; [reflexivity |]).
  - exact (proj1 (pull_request_status_follows_the_head Sample.runtime Sample.octokit
                    args [])
             (JsError "Not Found") eq_refl).
  - exact (proj1 (proj2 (pull_request_status_follows_the_head Sample.runtime
                           Cases.hosting args []))
             [("head", JObj [("sha", JStr "c0")])] [("sha", JStr "c0")]
             eq_refl eq_refl).
  - exact (proj1 (pull_request_status_follows_the_head Sample.runtime rejecting
                    args [])
             (JsNullish false) eq_refl).
Defined.

Lemma bind_assoc {C A B D} (m : M C A) (f : A -> M C B) (k : B -> M C D)
    (log : list C) :
  bind (bind m f) k log = bind m (fun x => bind (f x) k) log.
Proof. unfold bind. now destruct (m log) as [[a | e] l]. Qed.

Lemma bind_rest {B} (octokit : GitHub.Call -> GitHub.Reply) (method : string)
    (parameters : list (string * Value)) (k : Value -> M GitHub.Call B)
    (log : list GitHub.Call) :
  let c := {| GitHub.method := method; GitHub.parameters := parameters |} in
  bind (GitHub.rest octokit method parameters) k log
  = match octokit c with
    | GitHub.Rejected e => (Throw e, (log ++ [c])%list)
    | GitHub.Resolved data => k data (log ++ [c])%list
    end.
Proof.
  intros c. unfold bind. rewrite rest_run. fold c. now destruct (octokit c).
Qed.

(** Reading a property issues no call. *)
Lemma getProp_silent (base : Value) (property : string) (log : list GitHub.Call) :
  snd (GitHub.getProp base property log) = log.
Proof. now destruct base. Qed.

Lemma bind_getProp {B} (base : Value) (property : string)
    (k : Value -> M GitHub.Call B) (log : list GitHub.Call) :
  bind (GitHub.getProp base property) k log
  = match fst (GitHub.getProp base property log) with
    | Ok v => k v log
    | Throw e => (Throw e, log)
    end.
Proof. unfold bind. now destruct base. Qed.

Lemma guarded_log (m : M GitHub.Call CallToolResult) (log : list GitHub.Call) :
  snd (GitHub.guarded m log) = snd (m log).
Proof.
  unfold GitHub.guarded, tryCatch.
  destruct (m log) as [[r | e] l]; [reflexivity |]. now rewrite errorResult_run.
Qed.

(** Case analysis on the reply to the call the goal is waiting for. *)
Ltac answer data H :=
  match goal with
  | |- context [match ?octokit ?c with GitHub.Rejected _ => _ | _ => _ end] =>
      destruct (octokit c) as [? | data] eqn:H
  end.

(** A run that stopped after the first [n] calls of the push sequence. *)
Ltac stopped n :=
  rewrite <- ?app_assoc; eexists; split; [reflexivity |];
  split; [exists n; reflexivity |];
  intros c Hc Hmethod; cbn [In] in Hc;
  repeat (destruct Hc as [<- | Hc]; [try discriminate Hmethod |]);
  try contradiction.

(** X23: the calls issued by push_files are a prefix of the sequence getRef,
    getCommit, createTree, createCommit, updateRef.  The branch is updated
    only when the four calls before it have resolved, and never by force. *)
Theorem push_files_moves_the_branch_last (rt : Runtime)
    (octokit : GitHub.Call -> GitHub.Reply) (args : Args) (log : list GitHub.Call) :
  exists calls,
    snd (GitHub.guarded (GitHub.push_files_body rt octokit args) log)
    = (log ++ calls)%list
    /\ (exists n, map GitHub.method calls
                  = take n ["git.getRef"; "git.getCommit"; "git.createTree";
                            "git.createCommit"; "git.updateRef"])
    /\ forall c, In c calls -> GitHub.method c = "git.updateRef" ->
         In ("force", JBool false) (GitHub.parameters c)
         /\ forall earlier, In earlier calls ->
              GitHub.method earlier = "git.updateRef"
              \/ exists data, octokit earlier = GitHub.Resolved data.
Proof.
  rewrite guarded_log. unfold GitHub.push_files_body, GitHub.objectSha.
  rewrite bind_rest.
  answer refData H1; [stopped 1%nat |].
  rewrite bind_assoc, bind_getProp.
  destruct (fst (GitHub.getProp refData "object" _)) as [object | e]; [| stopped 1%nat].
  rewrite bind_getProp.
  destruct (fst (GitHub.getProp object "sha" _)) as [baseSha | e]; [| stopped 1%nat].
  rewrite bind_rest.
  answer baseCommit H2; [stopped 2%nat |].
  rewrite bind_getProp.
  destruct (fst (GitHub.getProp baseCommit "tree" _)) as [baseTree | e]; [| stopped 2%nat].
  rewrite bind_getProp.
  destruct (fst (GitHub.getProp baseTree "sha" _)) as [baseTreeSha | e]; [| stopped 2%nat].
  rewrite bind_rest.
  answer newTree H3; [stopped 3%nat |].
  rewrite bind_getProp.
  destruct (fst (GitHub.getProp newTree "sha" _)) as [newTreeSha | e]; [| stopped 3%nat].
  rewrite bind_rest.
  answer newCommit H4; [stopped 4%nat |].
  rewrite bind_getProp.
  destruct (fst (GitHub.getProp newCommit "sha" _)) as [newCommitSha | e]; [| stopped 4%nat].
  unfold GitHub.forward. rewrite bind_rest.
  answer updated H5;
    (stopped 5%nat; split; [simpl; tauto |];
     intros earlier Hearlier; cbn [In] in Hearlier;
     repeat (destruct Hearlier as [<- | Hearlier]; [eauto |]);
     contradiction).
Qed.

(** X24: create_branch with a source branch looks that branch up and creates
    the new reference at the commit found: two calls.  Without a source
    branch (or with an empty one) it first fetches the repository and starts
    from its default branch: three calls.  The tool then returns the JSON text
    of the created reference, or what the catch makes of the rejection of
    that last call.  When the lookup of the source branch rejects, no
    reference is created.  A rejection with a value other than undefined and
    null is returned as the block "Error: " followed by the message property
    of the value ("undefined" when it has none); a rejection with undefined
    or null makes the tool fail with the type error of reading their
    message. *)
Theorem create_branch_starts_from_the_source (rt : Runtime)
    (octokit : GitHub.Call -> GitHub.Reply) (args : Args) (log : list GitHub.Call) :
  let run := GitHub.guarded (GitHub.create_branch_body rt octokit args) log in
  let repository :=
    {| GitHub.method := "repos.get";
       GitHub.parameters := [("owner", field args "owner");
                             ("repo", field args "repo")] |} in
  let lookup (source : string) :=
    {| GitHub.method := "git.getRef";
       GitHub.parameters := [("owner", field args "owner");
                             ("repo", field args "repo");
                             ("ref", JStr ("heads/" +:+ source))] |} in
  let create (sha : Value) :=
    {| GitHub.method := "git.createRef";
       GitHub.parameters :=
         [("owner", field args "owner");
          ("repo", field args "repo");
          ("ref", JStr ("refs/heads/" +:+ toStr rt (field args "branch")));
          ("sha", sha)] |} in
  let outcome (reply : GitHub.Reply) : Res CallToolResult :=
    match reply with
    | GitHub.Resolved data => Ok (textResult (JSON_stringify rt data))
    | GitHub.Rejected e =>
        match e with
        | JsError message | JsOther (Some message) =>
            Ok (textResult ("Error: " +:+ message))
        | JsOther None => Ok (textResult "Error: undefined")
        | JsNullish null =>
            Throw (JsError ("Cannot read properties of "
                            +:+ (if null then "null" else "undefined")
                            +:+ " (reading 'message')"))
        end
    end in
  (forall source refFields objectFields,
      field args "from_branch" = JStr source ->
      source <> "" ->
      octokit (lookup source) = GitHub.Resolved (JObj refFields) ->
      lookupField refFields "object" = JObj objectFields ->
      let sha := lookupField objectFields "sha" in
      run = (outcome (octokit (create sha)),
             (log ++ [lookup source; create sha])%list))
  /\ (forall repoFields main refFields objectFields,
        truthy (field args "from_branch") = false ->
        octokit repository = GitHub.Resolved (JObj repoFields) ->
        lookupField repoFields "default_branch" = JStr main ->
        octokit (lookup main) = GitHub.Resolved (JObj refFields) ->
        lookupField refFields "object" = JObj objectFields ->
        let sha := lookupField objectFields "sha" in
        run = (outcome (octokit (create sha)),
               (log ++ [repository; lookup main; create sha])%list))
  /\ (forall source e,
        field args "from_branch" = JStr source ->
        source <> "" ->
        octokit (lookup source) = GitHub.Rejected e ->
        run = (outcome (GitHub.Rejected e), (log ++ [lookup source])%list)).
Proof.
  intros run repository lookup create outcome. subst run.
  assert (forall source, source <> "" -> truthy (JStr source) = true) as Hgiven.
  { intros source Hne. unfold truthy, truthyStr.
    now destruct (String.eqb_spec source "") as [? | _]. }
  unfold GitHub.guarded, GitHub.create_branch_body, GitHub.branchOrDefault,
    GitHub.objectSha, GitHub.forward, GitHub.str, tryCatch.
  split; [| split].
  - intros source refFields objectFields Hfrom Hne Hlookup Hobject.
    set (sha := lookupField objectFields "sha").
    rewrite Hfrom, (Hgiven source Hne). cbn [negb].
    unfold bind at 1. unfold ret at 1.
    rewrite bind_rest. cbn [toStr]. fold (lookup source). rewrite Hlookup.
    rewrite bind_assoc, bind_getProp. cbn [GitHub.getProp ret fst]. rewrite Hobject.
    rewrite bind_getProp. cbn [GitHub.getProp ret fst].
    rewrite bind_rest. fold sha. fold (create sha). rewrite <- app_assoc.
    destruct (octokit (create sha)) as [e | data];
      [apply errorResult_run | reflexivity].
  - intros repoFields main refFields objectFields Hfrom Hrepo Hdefault Hlookup
      Hobject.
    set (sha := lookupField objectFields "sha").
    rewrite Hfrom. cbn [negb].
    rewrite !bind_assoc, bind_rest.
    unfold GitHub.pick. cbn [map]. fold repository. rewrite Hrepo.
    rewrite bind_getProp. cbn [GitHub.getProp ret fst]. rewrite Hdefault.
    rewrite bind_rest. cbn [toStr]. fold (lookup main). rewrite Hlookup.
    rewrite bind_assoc, bind_getProp. cbn [GitHub.getProp ret fst]. rewrite Hobject.
    rewrite bind_getProp. cbn [GitHub.getProp ret fst].
    rewrite bind_rest. fold sha. fold (create sha). rewrite <- !app_assoc.
    destruct (octokit (create sha)) as [e | data];
      [apply errorResult_run | reflexivity].
  - intros source e Hfrom Hne Hlookup.
    rewrite Hfrom, (Hgiven source Hne). cbn [negb].
    unfold bind at 1. unfold ret at 1.
    rewrite bind_rest. cbn [toStr]. fold (lookup source). rewrite Hlookup.
    apply errorResult_run.
Qed.

Lemma create_branch_starts_from_the_source_witness :
  let given : Args :=
    <["owner" := JStr "o"]> (<["repo" := JStr "r"]>
      (<["branch" := JStr "topic"]> (<["from_branch" := JStr "dev"]> ∅))) in
  let absent : Args :=
    <["owner" := JStr "o"]> (<["repo" := JStr "r"]> (<["branch" := JStr "topic"]> ∅)) in
  let repository :=
    {| GitHub.method := "repos.get";
       GitHub.parameters := [("owner", JStr "o"); ("repo", JStr "r")] |} in
  let lookup (source : string) :=
    {| GitHub.method := "git.getRef";
       GitHub.parameters := [("owner", JStr "o"); ("repo", JStr "r");
                             ("ref", JStr ("heads/" +:+ source))] |} in
  let create :=
    {| GitHub.method := "git.createRef";
       GitHub.parameters := [("owner", JStr "o"); ("repo", JStr "r");
                             ("ref", JStr "refs/heads/topic"); ("sha", JStr "c0")] |} in
  let created :=
    textResult (JSON_stringify Sample.runtime (JObj [("ref", JStr "refs/heads/topic")])) in
  ((field given "from_branch" = JStr "dev" /\ "dev" <> "")
   /\ GitHub.guarded (GitHub.create_branch_body Sample.runtime Cases.hosting given) []
      = (Ok created, [lookup "dev"; create]))
  /\ (truthy (field absent "from_branch") = false
      /\ GitHub.guarded (GitHub.create_branch_body Sample.runtime Cases.hosting absent) []
         = (Ok created, [repository; lookup "main"; create]))
  /\ GitHub.guarded (GitHub.create_branch_body Sample.runtime Sample.octokit given) []
     = (Ok (textResult "Error: Not Found"), [lookup "dev"])
  /\ GitHub.guarded
       (GitHub.create_branch_body Sample.runtime
          (fun _ => GitHub.Rejected (JsNullish false)) given) []
     = (Throw (JsError "Cannot read properties of undefined (reading 'message')"),
        [lookup "dev"]).
Proof.
  intros given absent repository lookup create created.
  assert ("dev" <> "") as Hdev by discriminate.
  split; [split; [split; [reflexivity | exact Hdev] |]
         | split; [split; [reflexivity |] | split]].
  - exact (proj1 (create_branch_starts_from_the_source Sample.runtime Cases.hosting
                    given [])
             "dev" [("object", JObj [("sha", JStr "c0")])] [("sha", JStr "c0")]
             eq_refl Hdev eq_refl eq_refl).
  - exact (proj1 (proj2 (create_branch_starts_from_the_source Sample.runtime
                           Cases.hosting absent []))
             [("default_branch", JStr "main")] "main"
             [("object", JObj [("sha", JStr "c0")])] [("sha", JStr "c0")]
             eq_refl eq_refl eq_refl eq_refl eq_refl).
  - exact (proj2 (proj2 (create_branch_starts_from_the_source Sample.runtime
                           Sample.octokit given []))
             "dev" (JsError "Not Found") eq_refl Hdev eq_refl).
  - exact (proj2 (proj2 (create_branch_starts_from_the_source Sample.runtime
                           (fun _ => GitHub.Rejected (JsNullish false)) given []))
             "dev" (JsNullish false) eq_refl Hdev eq_refl).
Defined.

(** ** Paths *)

Lemma split_nonempty (sep : ascii) (s : string) : split sep s <> [].
Proof.
  destruct s as [|c s]; [discriminate |]. simpl.
  destruct (Ascii.eqb c sep); [discriminate |].
  destruct (split sep s); discriminate.
Qed.

Lemma split_avoids (sep : ascii) (s : string) :
  Outcome.avoids sep s = true -> split sep s = [s].
Proof.
  unfold Outcome.avoids. induction s as [|c s IH]; [reflexivity |].
  simpl. intros [Hc Hs]%andb_prop. apply negb_true_iff in Hc.
  now rewrite Hc, (IH Hs).
Qed.

Lemma split_app (sep : ascii) (a b : string) :
  split sep (a +:+ String sep b) = (split sep a ++ split sep b)%list.
Proof.
  induction a as [|c a IH].
  - rewrite append_nil_l. simpl. now rewrite Ascii.eqb_refl.
  - rewrite append_cons. simpl. rewrite IH.
    destruct (Ascii.eqb c sep); [reflexivity |].
    pose proof (split_nonempty sep a) as Hne.
    now destruct (split sep a).
Qed.

Lemma split_join (sep : ascii) (first : string) (others : list string) :
  Forall (fun s => Outcome.avoids sep s = true) (first :: others) ->
  split sep (join (String sep "") (first :: others)) = first :: others.
Proof.
  revert first. induction others as [|second others IH]; intros first Hall.
  - apply split_avoids. now inversion Hall.
  - inversion Hall as [|? ? Hfirst Hrest]; subst.
    change (join (String sep "") (first :: second :: others))
      with (first +:+ String sep (join (String sep "") (second :: others))).
    rewrite split_app, (split_avoids _ _ Hfirst), (IH second Hrest).
    reflexivity.
Qed.

(** X25: the language tag that get_file_contents puts on the code fence is
    what follows the last dot of the path; a path without any dot is taken as
    its own extension. *)
Theorem extension_is_what_follows_the_last_dot (stem ext : string) :
  Outcome.avoids "." ext = true ->
  GitHub.extension (stem +:+ "." +:+ ext) = ext
  /\ GitHub.extension ext = ext.
Proof.
  intros Hext. unfold GitHub.extension.
  change ("." +:+ ext) with (String "." ext).
  rewrite split_app, (split_avoids _ _ Hext).
  split; [| reflexivity].
  now rewrite last_last.
Qed.

Lemma extension_is_what_follows_the_last_dot_witness :
  Outcome.avoids "." "gz" = true
  /\ GitHub.extension ("archive.tar" +:+ "." +:+ "gz") = "gz"
  /\ GitHub.extension "gz" = "gz".
Proof.
  split; [reflexivity |].
  exact (extension_is_what_follows_the_last_dot "archive.tar" "gz" eq_refl).
Defined.

(** X26: get_file_contents issues exactly one call.  When the path is a
    directory (the data is a list) it returns the text that points to
    get_repository_tree, and when the data is of another type than "file" it
    returns "Error: Path points to a <type>, not a file."; neither is thrown,
    and nothing is decoded. *)
Theorem file_contents_refuses_what_is_no_file (rt : Runtime)
    (octokit : GitHub.Call -> GitHub.Reply) (args : Args) (log : list GitHub.Call) :
  let read :=
    {| GitHub.method := "repos.getContent";
       GitHub.parameters := [("owner", field args "owner");
                             ("repo", field args "repo");
                             ("path", field args "path");
                             ("ref", field args "branch")] |} in
  let run := GitHub.guarded (GitHub.get_file_contents_body rt octokit args) log in
  snd run = (log ++ [read])%list
  /\ (forall entries,
        octokit read = GitHub.Resolved (JArr entries) ->
        fst run
        = Ok (textResult "Error: Path points to a directory, not a file. Use get_repository_tree to list directory contents."))
  /\ (forall fields kind,
        octokit read = GitHub.Resolved (JObj fields) ->
        lookupField fields "type" = JStr kind ->
        kind <> "file" ->
        fst run
        = Ok (textResult ("Error: Path points to a " +:+ kind +:+ ", not a file."))).
Proof.
  intros read run. subst run.
  split.
  { rewrite guarded_log. unfold GitHub.get_file_contents_body.
    rewrite bind_rest. fold read.
    destruct (octokit read) as [e | data]; [reflexivity |].
    destruct data; try reflexivity;
      rewrite bind_getProp; cbn [GitHub.getProp ret throw fst];
      try reflexivity.
    destruct (negb _); [reflexivity |].
    unfold bind, GitHub.decodeContent.
    destruct (prop _ _); try reflexivity; now destruct (bufferFromObject _ _). }
  unfold GitHub.guarded, GitHub.get_file_contents_body, tryCatch.
  rewrite bind_rest. fold read.
  split.
  - now intros entries ->.
  - intros fields kind -> Htype Hkind.
    rewrite bind_getProp. cbn [GitHub.getProp ret fst]. rewrite Htype.
    unfold isStr. destruct (String.eqb_spec kind "file") as [? | _];
      [contradiction | reflexivity].
Qed.

Lemma file_contents_refuses_what_is_no_file_witness :
  let args : Args :=
    <["owner" := JStr "o"]> (<["repo" := JStr "r"]> (<["path" := JStr "src"]> ∅)) in
  let read :=
    {| GitHub.method := "repos.getContent";
       GitHub.parameters := [("owner", JStr "o"); ("repo", JStr "r");
                             ("path", JStr "src"); ("ref", JUndefined)] |} in
  let directory := Cases.holding (JArr []) in
  let submodule := Cases.holding (JObj [("type", JStr "submodule")]) in
  (directory read = GitHub.Resolved (JArr [])
   /\ fst (GitHub.guarded (GitHub.get_file_contents_body Sample.runtime directory args) [])
      = Ok (textResult "Error: Path points to a directory, not a file. Use get_repository_tree to list directory contents."))
  /\ ((submodule read = GitHub.Resolved (JObj [("type", JStr "submodule")])
       /\ "submodule" <> "file")
      /\ fst (GitHub.guarded
                (GitHub.get_file_contents_body Sample.runtime submodule args) [])
         = Ok (textResult "Error: Path points to a submodule, not a file.")).
Proof.
  intros args read directory submodule.
  assert ("submodule" <> "file") as Hkind by discriminate.
  split; [split; [reflexivity |] | split; [split; [reflexivity | exact Hkind] |]].
  - exact (proj1 (proj2 (file_contents_refuses_what_is_no_file Sample.runtime
                           directory args []))
             [] eq_refl).
  - exact (proj2 (proj2 (file_contents_refuses_what_is_no_file Sample.runtime
                           submodule args []))
             [("type", JStr "submodule")] "submodule" eq_refl eq_refl Hkind).
Defined.

(** X27: create_or_update_file sends the content encoded in base 64, and
    get_file_contents decodes what it reads: when the service hands back the
    encoded content that was sent, and decoding undoes encoding on it, the text
    returned by get_file_contents holds the original content between the code
    fence lines, under a line with path and size. *)
Theorem written_content_reads_back (rt : Runtime)
    (octokit : GitHub.Call -> GitHub.Reply) (written asked : Args)
    (log log' : list GitHub.Call) (content : string)
    (fields : list (string * Value)) :
  let write :=
    {| GitHub.method := "repos.createOrUpdateFileContents";
       GitHub.parameters := [("owner", field written "owner");
                             ("repo", field written "repo");
                             ("path", field written "path");
                             ("message", field written "message");
                             ("content", JStr (base64Encode rt content));
                             ("branch", field written "branch");
                             ("sha", field written "sha")] |} in
  let read :=
    {| GitHub.method := "repos.getContent";
       GitHub.parameters := [("owner", field asked "owner");
                             ("repo", field asked "repo");
                             ("path", field asked "path");
                             ("ref", field asked "branch")] |} in
  field written "content" = JStr content ->
  base64Decode rt (base64Encode rt content) = content ->
  octokit read = GitHub.Resolved (JObj fields) ->
  lookupField fields "type" = JStr "file" ->
  lookupField fields "content" = JStr (base64Encode rt content) ->
  snd (GitHub.guarded (GitHub.create_or_update_file_body rt octokit written) log)
  = (log ++ [write])%list
  /\ GitHub.guarded (GitHub.get_file_contents_body rt octokit asked) log'
     = (Ok (textResult
              (toStr rt (lookupField fields "path") +:+ " ("
               +:+ toStr rt (lookupField fields "size") +:+ "B)"
               +:+ newline +:+ newline
               +:+ backtick +:+ backtick +:+ backtick
               +:+ GitHub.extension (asString (field asked "path")) +:+ newline
               +:+ content +:+ newline
               +:+ backtick +:+ backtick +:+ backtick)),
        (log' ++ [read])%list).
Proof.
  intros write read Hcontent Hround Hread Htype Hstored.
  split.
  - unfold GitHub.create_or_update_file_body. rewrite forward_run.
    rewrite Hcontent. reflexivity.
  - unfold GitHub.guarded, GitHub.get_file_contents_body, tryCatch.
    rewrite bind_rest. fold read. rewrite Hread.
    rewrite bind_getProp. cbn [GitHub.getProp ret fst]. rewrite Htype.
    cbn [isStr String.eqb Ascii.eqb Bool.eqb negb prop].
    rewrite Hstored. unfold bind, GitHub.decodeContent, ret. now rewrite Hround.
Qed.

Lemma written_content_reads_back_witness :
  let written : Args :=
    <["owner" := JStr "o"]> (<["repo" := JStr "r"]> (<["path" := JStr "src/main.c"]>
      (<["message" := JStr "add"]> (<["content" := JStr "hi"]>
        (<["branch" := JStr "main"]> ∅))))) in
  let asked : Args :=
    <["owner" := JStr "o"]> (<["repo" := JStr "r"]> (<["path" := JStr "src/main.c"]> ∅)) in
  let write :=
    {| GitHub.method := "repos.createOrUpdateFileContents";
       GitHub.parameters := [("owner", JStr "o"); ("repo", JStr "r");
                             ("path", JStr "src/main.c"); ("message", JStr "add");
                             ("content", JStr "hi"); ("branch", JStr "main");
                             ("sha", JUndefined)] |} in
  let read :=
    {| GitHub.method := "repos.getContent";
       GitHub.parameters := [("owner", JStr "o"); ("repo", JStr "r");
                             ("path", JStr "src/main.c"); ("ref", JUndefined)] |} in
  let fields := [("type", JStr "file"); ("path", JStr "src/main.c");
                 ("size", JNum 2); ("content", JStr "hi")] in
  (field written "content" = JStr "hi"
   /\ base64Decode Sample.runtime (base64Encode Sample.runtime "hi") = "hi"
   /\ Cases.hosting read = GitHub.Resolved (JObj fields)
   /\ lookupField fields "type" = JStr "file"
   /\ lookupField fields "content" = JStr (base64Encode Sample.runtime "hi"))
  /\ snd (GitHub.guarded
            (GitHub.create_or_update_file_body Sample.runtime Cases.hosting written) [])
     = [write]
  /\ GitHub.guarded (GitHub.get_file_contents_body Sample.runtime Cases.hosting asked) []
     = (Ok (textResult
              ("src/main.c (2B)" +:+ newline +:+ newline
               +:+ backtick +:+ backtick +:+ backtick +:+ "c" +:+ newline
               +:+ "hi" +:+ newline
               +:+ backtick +:+ backtick +:+ backtick)),
        [read]).
Proof.
  intros written asked write read fields.
  split; [repeat split |].
  exact (written_content_reads_back Sample.runtime Cases.hosting written asked [] []
           "hi" fields eq_refl eq_refl eq_refl eq_refl eq_refl).
Defined.

(** X28: a line of the repository tree shows the last segment of the path,
    indented by two spaces per directory above it, followed by the size for a
    file and by the type for anything else. *)
Theorem tree_lines_are_indented_by_depth (rt : Runtime) (output : string)
    (item : Value) (directories : list string) (base kind : string) :
  Forall (fun segment => Outcome.avoids "/" segment = true) (directories ++ [base]) ->
  prop item "path" = JStr (join "/" (directories ++ [base])) ->
  prop item "type" = JStr kind ->
  GitHub.treeLine rt output item
  = output +:+ repeatString "  " (length directories) +:+ base +:+ " ("
    +:+ (if String.eqb kind "file" then toStr rt (prop item "size") +:+ "B" else kind)
    +:+ ")" +:+ newline.
Proof.
  intros Hsegments Hpath Hkind. unfold GitHub.treeLine.
  rewrite Hpath, Hkind. cbn [asString].
  assert (split "/" (join "/" (directories ++ [base])) = (directories ++ [base])%list)
    as ->.
  { destruct directories as [|first others]; [now apply split_join |].
    now apply (split_join "/" first (others ++ [base])). }
  rewrite last_last, length_app. cbn [length].
  replace (length directories + 1 - 1)%nat with (length directories) by lia.
  unfold isStr, GitHub.str. cbn [toStr].
  destruct (String.eqb kind "file"); now rewrite ?append_assoc.
Qed.

Lemma tree_lines_are_indented_by_depth_witness :
  let item := JObj [("path", JStr "src/lib/util.c"); ("type", JStr "file");
                    ("size", JNum 12); ("sha", JStr "b0")] in
  (Forall (fun segment => Outcome.avoids "/" segment = true) (["src"; "lib"] ++ ["util.c"])
   /\ prop item "path" = JStr (join "/" (["src"; "lib"] ++ ["util.c"]))
   /\ prop item "type" = JStr "file")
  /\ GitHub.treeLine Sample.runtime "" item
     = "" +:+ "    " +:+ "util.c" +:+ " (" +:+ "12B" +:+ ")" +:+ newline.
Proof.
  intros item.
  assert (Forall (fun segment => Outcome.avoids "/" segment = true)
            (["src"; "lib"] ++ ["util.c"])) as Hsegments
    by (repeat constructor).
  split; [split; [exact Hsegments | split; reflexivity] |].
  exact (tree_lines_are_indented_by_depth Sample.runtime "" item ["src"; "lib"]
           "util.c" "file" Hsegments eq_refl eq_refl).
Defined.

Lemma directoryItem_silent (item : Value) (log : list GitHub.Call) :
  snd (GitHub.directoryItem item log) = log.
Proof.
  unfold GitHub.directoryItem. apply bind_silent; [apply getProp_silent |].
  reflexivity.
Qed.

(** X29: when a path is given, get_repository_tree issues exactly one call,
    the content listing of that path, and never walks the git tree; data that
    is not a list is answered with "Error: Path does not point to a
    directory".  A call rejected with a value other than undefined and null
    is answered with the block "Error: " followed by the message property of
    that value ("undefined" when it has none); when the call is rejected with
    undefined or null the tool fails with the type error of reading their
    message. *)
Theorem tree_of_a_path_reads_that_directory (rt : Runtime)
    (octokit : GitHub.Call -> GitHub.Reply) (args : Args) (log : list GitHub.Call) :
  let read :=
    {| GitHub.method := "repos.getContent";
       GitHub.parameters := [("owner", field args "owner");
                             ("repo", field args "repo");
                             ("path", field args "path");
                             ("ref", field args "branch")] |} in
  let run := GitHub.guarded (GitHub.get_repository_tree_body rt octokit args) log in
  truthy (field args "path") = true ->
  snd run = (log ++ [read])%list
  /\ (forall data,
        octokit read = GitHub.Resolved data ->
        (forall entries, data = JArr entries -> False) ->
        fst run = Ok (textResult "Error: Path does not point to a directory"))
  /\ (forall e,
        octokit read = GitHub.Rejected e ->
        fst run
        = match e with
          | JsError message | JsOther (Some message) =>
              Ok (textResult ("Error: " +:+ message))
          | JsOther None => Ok (textResult "Error: undefined")
          | JsNullish null =>
              Throw (JsError ("Cannot read properties of "
                              +:+ (if null then "null" else "undefined")
                              +:+ " (reading 'message')"))
          end).
Proof.
  intros read run Hpath. subst run.
  rewrite guarded_log.
  unfold GitHub.guarded, GitHub.get_repository_tree_body, tryCatch.
  rewrite Hpath, bind_rest. fold read.
  split; [| split].
  - destruct (octokit read) as [e | data]; [reflexivity |].
    destruct data; try reflexivity.
    apply bind_silent; [| reflexivity].
    apply mapM_silent. intros. apply directoryItem_silent.
  - intros data -> Hnot. destruct data; try reflexivity.
    now destruct (Hnot items).
  - intros e ->. now rewrite errorResult_run.
Qed.

Lemma tree_of_a_path_reads_that_directory_witness :
  let args : Args :=
    <["owner" := JStr "o"]> (<["repo" := JStr "r"]>
      (<["path" := JStr "src/main.c"]> (<["recursive" := JBool false]> ∅))) in
  let read :=
    {| GitHub.method := "repos.getContent";
       GitHub.parameters := [("owner", JStr "o"); ("repo", JStr "r");
                             ("path", JStr "src/main.c"); ("ref", JUndefined)] |} in
  let rejecting (e : Thrown) : GitHub.Call -> GitHub.Reply :=
    fun _ => GitHub.Rejected e in
  let run (octokit : GitHub.Call -> GitHub.Reply) :=
    GitHub.guarded (GitHub.get_repository_tree_body Sample.runtime octokit args) [] in
  truthy (field args "path") = true
  /\ snd (run Cases.hosting) = [read]
  /\ fst (run Cases.hosting)
     = Ok (textResult "Error: Path does not point to a directory")
  /\ fst (run (rejecting (JsError "Not Found")))
     = Ok (textResult "Error: Not Found")
  /\ fst (run (rejecting (JsNullish true)))
     = Throw (JsError "Cannot read properties of null (reading 'message')").
Proof.
  intros args read rejecting run.
  split; [reflexivity |]. split; [| split; [| split]].
  - exact (proj1 (tree_of_a_path_reads_that_directory Sample.runtime Cases.hosting
                    args [] eq_refl)).
  - refine (proj1 (proj2 (tree_of_a_path_reads_that_directory Sample.runtime
                            Cases.hosting args [] eq_refl)) _ eq_refl _).
    intros entries. discriminate.
  - exact (proj2 (proj2 (tree_of_a_path_reads_that_directory Sample.runtime
                           (rejecting (JsError "Not Found")) args [] eq_refl))
             (JsError "Not Found") eq_refl).
  - exact (proj2 (proj2 (tree_of_a_path_reads_that_directory Sample.runtime
                           (rejecting (JsNullish true)) args [] eq_refl))
             (JsNullish true) eq_refl).
Defined.

Lemma setField_same (fields : list (string * Value)) (k : string) (v : Value) :
  lookupField (EarlierRepositories.setField fields k v) k = v.
Proof.
  induction fields as [|[k' v'] rest IH]; simpl.
  - now rewrite String.eqb_refl.
  - destruct (String.eqb k' k) eqn:Hk; simpl.
    + now rewrite String.eqb_refl.
    + now rewrite Hk.
Qed.

Lemma setField_other (fields : list (string * Value)) (k k0 : string) (v : Value) :
  k0 <> k ->
  lookupField (EarlierRepositories.setField fields k v) k0 = lookupField fields k0.
Proof.
  intros Hne. induction fields as [|[k' v'] rest IH]; simpl.
  - destruct (String.eqb_spec k k0) as [-> | _]; [contradiction | reflexivity].
  - destruct (String.eqb_spec k' k) as [-> | Hk]; simpl.
    + destruct (String.eqb_spec k k0) as [-> | _]; [contradiction | reflexivity].
    + now rewrite IH.
Qed.

Lemma setField_keys (fields : list (string * Value)) (k : string) (v v0 : Value) :
  lookupField fields k = v0 -> v0 <> JUndefined ->
  map fst (EarlierRepositories.setField fields k v) = map fst fields.
Proof.
  intros Hfound Hdefined. induction fields as [|[k' v'] rest IH]; simpl in *.
  - congruence.
  - destruct (String.eqb_spec k' k) as [-> | Hk]; simpl; [reflexivity |].
    f_equal. now apply IH.
Qed.

(** X30: in the earlier revision of the repository tools, get_file_contents
    prints whatever it read as JSON: a directory listing or an object that is
    no file as it is, and a file with its content property replaced by the
    decoded content, every other property and the order of the properties
    unchanged. *)
Theorem earlier_file_contents_decodes_in_place (rt : Runtime)
    (octokit : GitHub.Call -> GitHub.Reply) (args : Args) (log : list GitHub.Call) :
  let read :=
    {| GitHub.method := "repos.getContent";
       GitHub.parameters := [("owner", field args "owner");
                             ("repo", field args "repo");
                             ("path", field args "path");
                             ("ref", field args "branch")] |} in
  let run :=
    handler (EarlierRepositories.get_file_contents_tool rt octokit) args log in
  (forall entries,
      octokit read = GitHub.Resolved (JArr entries) ->
      run = (Ok (textResult (JSON_stringify rt (JArr entries))), (log ++ [read])%list))
  /\ (forall fields encoded,
        octokit read = GitHub.Resolved (JObj fields) ->
        lookupField fields "type" = JStr "file" ->
        lookupField fields "content" = JStr encoded ->
        exists shown,
          run = (Ok (textResult (JSON_stringify rt (JObj shown))), (log ++ [read])%list)
          /\ lookupField shown "content" = JStr (base64Decode rt encoded)
          /\ (forall k, k <> "content" -> lookupField shown k = lookupField fields k)
          /\ map fst shown = map fst fields)
  /\ (forall fields,
        octokit read = GitHub.Resolved (JObj fields) ->
        isStr (lookupField fields "type") "file" = false ->
        run = (Ok (textResult (JSON_stringify rt (JObj fields))), (log ++ [read])%list)).
Proof.
  intros read run. subst run.
  unfold EarlierRepositories.get_file_contents_tool, GitHub.tried, handler,
    GitHub.guarded, EarlierRepositories.get_file_contents_body, tryCatch.
  rewrite bind_rest. fold read.
  split; [| split].
  - now intros entries ->.
  - intros fields encoded -> Htype Hcontent.
    rewrite bind_getProp. cbn [GitHub.getProp ret fst]. rewrite Htype.
    cbn [isStr prop]. rewrite Hcontent. cbn [asString].
    eexists. split; [reflexivity |]. split; [apply setField_same |].
    split; [intros k Hk; now apply setField_other |].
    now apply (setField_keys _ _ _ (JStr encoded)).
  - intros fields -> Htype.
    rewrite bind_getProp. cbn [GitHub.getProp ret fst]. now rewrite Htype.
Qed.

Lemma earlier_file_contents_decodes_in_place_witness :
  let args : Args :=
    <["owner" := JStr "o"]> (<["repo" := JStr "r"]> (<["path" := JStr "src"]> ∅)) in
  let read :=
    {| GitHub.method := "repos.getContent";
       GitHub.parameters := [("owner", JStr "o"); ("repo", JStr "r");
                             ("path", JStr "src"); ("ref", JUndefined)] |} in
  let listing := [JObj [("name", JStr "main.c"); ("type", JStr "file")]] in
  let fields := [("type", JStr "file"); ("path", JStr "src/main.c");
                 ("size", JNum 2); ("content", JStr "hi")] in
  (Cases.holding (JArr listing) read = GitHub.Resolved (JArr listing)
   /\ handler (EarlierRepositories.get_file_contents_tool Sample.runtime
                 (Cases.holding (JArr listing))) args []
      = (Ok (textResult (JSON_stringify Sample.runtime (JArr listing))), [read]))
  /\ ((Cases.hosting read = GitHub.Resolved (JObj fields)
       /\ lookupField fields "type" = JStr "file"
       /\ lookupField fields "content" = JStr "hi")
      /\ exists shown,
           handler (EarlierRepositories.get_file_contents_tool Sample.runtime
                      Cases.hosting) args []
           = (Ok (textResult (JSON_stringify Sample.runtime (JObj shown))), [read])
           /\ lookupField shown "content" = JStr (base64Decode Sample.runtime "hi")
           /\ (forall k, k <> "content" -> lookupField shown k = lookupField fields k)
           /\ map fst shown = map fst fields).
Proof.
  intros args read listing fields.
  split; [split; [reflexivity |] | split; [repeat split |]].
  - exact (proj1 (earlier_file_contents_decodes_in_place Sample.runtime
                    (Cases.holding (JArr listing)) args [])
             listing eq_refl).
  - exact (proj1 (proj2 (earlier_file_contents_decodes_in_place Sample.runtime
                           Cases.hosting args []))
             fields "hi" eq_refl eq_refl eq_refl).
Defined.
